(** * Real-estate dashboard (app.py): the analytics behind the pages

    A shallow embedding of the data handling in [RealEstateDashboard]:
    the sidebar (widgets, filter, statistics), the key metrics, the
    rankings of the price and location pages, the BHK distribution, the
    amenity table, the correlation page and the insight list.

    Numbers.  The columns hold Python floats.  Rounding is not modelled:
    a cell is a rational number and arithmetic is exact.  What is kept of
    the float behaviour is the part the code's control flow depends on:
    the value NaN, which pandas returns for a statistic without data and on
    which every comparison is false.  The one number the code shows through
    a format that decides what is read, the share under the filters with
    one decimal, is modelled with its rounding.

    pandas.  The library calls ([Series.mean], [Series.mode],
    [DataFrame.corr], [sort_values], ...) are modelled by their documented
    behaviour; each model names the call it stands for. *)

From Stdlib Require Import List Bool Arith ZArith QArith Qabs Qround Lia Lqa Psatz.
From Stdlib Require Import String Ascii Permutation Sorted.
Import ListNotations.

Local Open Scope Q_scope.

(* ------------------------------------------------------------------ *)
(** ** Python values *)

(** A float result: NaN or a finite value. *)
Inductive pyfloat (A : Type) : Type :=
| NaN
| Fin (x : A).
Arguments NaN {A}.
Arguments Fin {A} x.

(** A call that may raise. *)
Inductive exn : Type := ValueError | KeyError.

Inductive result (A : Type) : Type :=
| Ok (a : A)
| Raise (e : exn).
Arguments Ok {A} a.
Arguments Raise {A} e.

Definition Qltb (a b : Q) : bool := negb (Qle_bool b a).

(** [x > c] for a float [x] that may be NaN: false on NaN. *)
Definition fgt (x : pyfloat Q) (c : Q) : bool :=
  match x with NaN => false | Fin q => Qltb c q end.

(** Arithmetic: NaN in, NaN out. *)
Definition fsub (x y : pyfloat Q) : pyfloat Q :=
  match x, y with
  | Fin a, Fin b => Fin (a - b)
  | _, _ => NaN
  end.

Definition fmul (x y : pyfloat Q) : pyfloat Q :=
  match x, y with
  | Fin a, Fin b => Fin (a * b)
  | _, _ => NaN
  end.

(** Division.  A zero divisor (an infinity or NaN in numpy) is given as
    NaN; the one division of the code is guarded by [> 0]. *)
Definition fdiv (x y : pyfloat Q) : pyfloat Q :=
  match x, y with
  | Fin a, Fin b => if Qeq_bool b 0 then NaN else Fin (a / b)
  | _, _ => NaN
  end.

(* ------------------------------------------------------------------ *)
(** ** The table *)

Record PropertyRecord : Type := {
  Price_in_Lakhs : Q;
  Size_in_SqFt   : Q;
  Price_per_SqFt : Q;
  City           : string;
  Property_Type  : string;
  BHK            : Z;
  Amenities      : option string   (* None: the cell is missing *)
}.

(** A DataFrame: the names of its columns and its rows, in index order.
    A field of a row whose column is not listed is never read. *)
Record DataFrame : Type := {
  columns : list string;
  rows    : list PropertyRecord
}.

Definition has_column (name : string) (df : DataFrame) : bool :=
  existsb (String.eqb name) (columns df).

(** [len(df)] *)
Definition len (df : DataFrame) : nat := List.length (rows df).

(** [df[mask]]: boolean indexing keeps the rows whose mask is true. *)
Definition select (mask : PropertyRecord -> bool) (df : DataFrame) : DataFrame :=
  {| columns := columns df; rows := filter mask (rows df) |}.

(** [Series.isin(values)] on one cell. *)
Definition isin_str (values : list string) (x : string) : bool :=
  existsb (String.eqb x) values.
Definition isin_Z (values : list Z) (x : Z) : bool :=
  existsb (Z.eqb x) values.

(* ------------------------------------------------------------------ *)
(** ** Series reductions *)

Definition Qsum (xs : list Q) : Q := fold_right Qplus 0 xs.

(** Sum over count, for a series that has data. *)
Definition Qmean (xs : list Q) : Q :=
  Qsum xs / inject_Z (Z.of_nat (List.length xs)).

(** [Series.mean()]: NaN on an empty series. *)
Definition Series_mean (xs : list Q) : pyfloat Q :=
  match xs with
  | [] => NaN
  | _ :: _ => Fin (Qmean xs)
  end.

Definition Qminb (a b : Q) : Q := if Qle_bool a b then a else b.
Definition Qmaxb (a b : Q) : Q := if Qle_bool a b then b else a.

(** [Series.min()] and [Series.max()]: NaN on an empty series. *)
Definition Series_min (xs : list Q) : pyfloat Q :=
  match xs with
  | [] => NaN
  | x :: tl => Fin (fold_left Qminb tl x)
  end.
Definition Series_max (xs : list Q) : pyfloat Q :=
  match xs with
  | [] => NaN
  | x :: tl => Fin (fold_left Qmaxb tl x)
  end.

(* ------------------------------------------------------------------ *)
(** ** display_sidebar_filters *)

(** What the sidebar widgets return. *)
Record Widgets : Type := {
  price_slider       : Q * Q;
  size_slider        : Q * Q;
  cities_multiselect : list string;
  types_multiselect  : list string;
  bhk_multiselect    : list Z
}.

(** The local variables the filter code reads (lines 86-140). *)
Record FilterCriteria : Type := {
  min_price : Q;
  max_price : Q;
  min_size  : Q;
  max_size  : Q;
  selected_cities : list string;
  selected_types  : list string;
  selected_bhk    : list Z
}.

(** A multiselect is shown only when its column exists; otherwise the
    selection is the empty list. *)
Definition read_widgets (df : DataFrame) (w : Widgets) : FilterCriteria :=
  {| min_price := fst (price_slider w);
     max_price := snd (price_slider w);
     min_size  := fst (size_slider w);
     max_size  := snd (size_slider w);
     selected_cities :=
       if has_column "City" df then cities_multiselect w else [];
     selected_types :=
       if has_column "Property_Type" df then types_multiselect w else [];
     selected_bhk :=
       if has_column "BHK" df then bhk_multiselect w else [] |}.

(** Python truth value of a list: [if selected_cities:]. *)
Definition truthy {A : Type} (l : list A) : bool :=
  match l with [] => false | _ :: _ => true end.

(** Lines 142-167: the five filter steps, one after the other. *)
Definition apply_filters (df : DataFrame) (c : FilterCriteria) : DataFrame :=
  let filtered_df := df in
  (* Price filter *)
  let filtered_df :=
    select (fun r => Qle_bool (min_price c) (Price_in_Lakhs r)
                     && Qle_bool (Price_in_Lakhs r) (max_price c)) filtered_df in
  (* Size filter *)
  let filtered_df :=
    select (fun r => Qle_bool (min_size c) (Size_in_SqFt r)
                     && Qle_bool (Size_in_SqFt r) (max_size c)) filtered_df in
  (* City filter *)
  let filtered_df :=
    if truthy (selected_cities c)
    then select (fun r => isin_str (selected_cities c) (City r)) filtered_df
    else filtered_df in
  (* Property type filter *)
  let filtered_df :=
    if truthy (selected_types c)
    then select (fun r => isin_str (selected_types c) (Property_Type r)) filtered_df
    else filtered_df in
  (* BHK filter *)
  let filtered_df :=
    if truthy (selected_bhk c)
    then select (fun r => isin_Z (selected_bhk c) (BHK r)) filtered_df
    else filtered_df in
  filtered_df.

(** The whole method: nothing is returned for an empty table. *)
Definition display_sidebar_filters (df : DataFrame) (w : Widgets)
  : option DataFrame :=
  match rows df with
  | [] => None
  | _ :: _ => Some (apply_filters df (read_widgets df w))
  end.

(** The order relation "is a subsequence of": same elements, same relative
    order, some possibly dropped. *)
Inductive Subseq {A : Type} : list A -> list A -> Prop :=
| Subseq_nil : Subseq [] []
| Subseq_skip x l1 l2 : Subseq l1 l2 -> Subseq l1 (x :: l2)
| Subseq_keep x l1 l2 : Subseq l1 l2 -> Subseq (x :: l1) (x :: l2).

(** The conjunction of the criteria, as a proposition on one record. *)
Definition satisfies (c : FilterCriteria) (r : PropertyRecord) : Prop :=
  (min_price c <= Price_in_Lakhs r /\ Price_in_Lakhs r <= max_price c) /\
  (min_size c <= Size_in_SqFt r /\ Size_in_SqFt r <= max_size c) /\
  (selected_cities c = [] \/ In (City r) (selected_cities c)) /\
  (selected_types c = [] \/ In (Property_Type r) (selected_types c)) /\
  (selected_bhk c = [] \/ In (BHK r) (selected_bhk c)).

(** The range [lo, hi] covers the series from its minimum to its maximum. *)
Definition spans (lo hi : Q) (xs : list Q) : Prop :=
  match Series_min xs, Series_max xs with
  | Fin a, Fin b => lo <= a /\ b <= hi
  | _, _ => True
  end.

(** A series whose values are all equal (an empty one included). *)
Definition constant (xs : list Q) : Prop :=
  forall x y, In x xs -> In y xs -> x == y.

(** [satisfies] as the boolean mask of one pass over the rows. *)
Definition passes (c : FilterCriteria) (r : PropertyRecord) : bool :=
  (Qle_bool (min_price c) (Price_in_Lakhs r)
   && Qle_bool (Price_in_Lakhs r) (max_price c))
  && (Qle_bool (min_size c) (Size_in_SqFt r)
      && Qle_bool (Size_in_SqFt r) (max_size c))
  && (negb (truthy (selected_cities c)) || isin_str (selected_cities c) (City r))
  && (negb (truthy (selected_types c))
      || isin_str (selected_types c) (Property_Type r))
  && (negb (truthy (selected_bhk c)) || isin_Z (selected_bhk c) (BHK r)).

(* ------------------------------------------------------------------ *)
(** ** Sorting *)

Section Sorting.
Context {A : Type} (leb : A -> A -> bool).

Fixpoint insert (x : A) (l : list A) : list A :=
  match l with
  | [] => [x]
  | y :: tl => if leb x y then x :: y :: tl else y :: insert x tl
  end.

(** Stable: of two elements that compare equal, the one that came first
    stays first. *)
Definition isort (l : list A) : list A := fold_right insert [] l.
End Sorting.

(* ------------------------------------------------------------------ *)
(** ** display_key_metrics *)

(** The third argument of [st.metric]: a formatted difference, or the
    empty string. *)
Inductive delta (A : Type) : Type :=
| NoDelta
| Delta (v : A).
Arguments NoDelta {A}.
Arguments Delta {A} v.

(** What is shown as the most common BHK: a value of the column, or the
    text N/A. *)
Inductive bhk_label : Type :=
| NA
| BhkValue (z : Z).

Definition count_Z (v : Z) (xs : list Z) : nat :=
  List.length (filter (Z.eqb v) xs).

Definition max_count (xs : list Z) : nat :=
  fold_right Nat.max 0%nat (map (fun v => count_Z v xs) xs).

(** [Series.mode()]: the values that occur most often, each once, in
    ascending order; empty for an empty series. *)
Definition Series_mode (xs : list Z) : list Z :=
  isort Z.leb
    (nodup Z.eq_dec (filter (fun v => Nat.eqb (count_Z v xs) (max_count xs)) xs)).

(** [s.mode()[0] if not s.mode().empty else "N/A"] *)
Definition common_bhk_of (xs : list Z) : bhk_label :=
  match Series_mode xs with
  | [] => NA
  | m :: _ => BhkValue m
  end.

Record KeyMetrics : Type := {
  total_properties : nat;
  total_properties_delta : delta Z;
  avg_price : pyfloat Q;
  avg_price_delta : delta (pyfloat Q);
  avg_size : pyfloat Q;
  avg_size_delta : delta (pyfloat Q);
  avg_pps : pyfloat Q;
  avg_pps_delta : delta (pyfloat Q);
  common_bhk : option bhk_label     (* None: the fifth card is not drawn *)
}.

Definition column (f : PropertyRecord -> Q) (df : DataFrame) : list Q :=
  map f (rows df).

(** [self_df] is the loaded table, [filtered_df] the view. *)
Definition display_key_metrics (self_df filtered_df : DataFrame) : KeyMetrics :=
  let differs := negb (Nat.eqb (len filtered_df) (len self_df)) in
  let avg_price := Series_mean (column Price_in_Lakhs filtered_df) in
  let avg_size := Series_mean (column Size_in_SqFt filtered_df) in
  let avg_pps := Series_mean (column Price_per_SqFt filtered_df) in
  {| total_properties := len filtered_df;
     total_properties_delta :=
       if differs
       then Delta (Z.of_nat (len filtered_df) - Z.of_nat (len self_df))%Z
       else NoDelta;
     avg_price := avg_price;
     avg_price_delta :=
       if differs
       then Delta (fsub avg_price (Series_mean (column Price_in_Lakhs self_df)))
       else NoDelta;
     avg_size := avg_size;
     avg_size_delta :=
       if differs
       then Delta (fsub avg_size (Series_mean (column Size_in_SqFt self_df)))
       else NoDelta;
     avg_pps := avg_pps;
     avg_pps_delta :=
       if differs
       then Delta (fsub avg_pps (Series_mean (column Price_per_SqFt self_df)))
       else NoDelta;
     common_bhk :=
       if has_column "BHK" filtered_df
       then Some (common_bhk_of (map BHK (rows filtered_df)))
       else None |}.

(* ------------------------------------------------------------------ *)
(** ** display_property_features_analysis: the amenity table *)

Definition to_lower (c : ascii) : ascii :=
  let n := nat_of_ascii c in
  if (65 <=? n)%nat && (n <=? 90)%nat then ascii_of_nat (n + 32) else c.

Fixpoint lower (s : string) : string :=
  match s with
  | EmptyString => EmptyString
  | String c tl => String (to_lower c) (lower tl)
  end.

Fixpoint substring_of (needle hay : string) : bool :=
  String.prefix needle hay
  || match hay with
     | EmptyString => false
     | String _ tl => substring_of needle tl
     end.

(** [Series.str.contains(pat, case=False, na=False)] on one cell.  The
    patterns used have no regular-expression operators, so the search is a
    search for a substring. *)
Definition str_contains (pat : string) (cell : option string) : bool :=
  match cell with
  | None => false
  | Some s => substring_of (lower pat) (lower s)
  end.

Definition common_amenities : list string :=
  ["Gym"; "Pool"; "Clubhouse"; "Garden"; "Park"; "Security"; "Lift";
   "Power Backup"]%string.

Record AmenityRow : Type := {
  Amenity : string;
  Count : nat;
  Percentage : Q;
  Avg_Price_With : pyfloat Q;
  Avg_Price_Without : pyfloat Q;
  Price_Premium : pyfloat Q
}.

(** [((avg_price_with / avg_price_without) - 1) * 100 if avg_price_without > 0 else 0] *)
Definition price_premium (avg_price_with avg_price_without : pyfloat Q)
  : pyfloat Q :=
  if fgt avg_price_without 0
  then fmul (fsub (fdiv avg_price_with avg_price_without) (Fin 1)) (Fin 100)
  else Fin 0.

(** The mask [has_amenity] of one keyword. *)
Definition has_amenity (amenity : string) (r : PropertyRecord) : bool :=
  str_contains amenity (Amenities r).

(** The dictionary appended for a keyword (lines 591-604). *)
Definition amenity_row (filtered_df : DataFrame) (amenity : string) : AmenityRow :=
  let count_with := List.length (filter (has_amenity amenity) (rows filtered_df)) in
  let percentage :=
    (inject_Z (Z.of_nat count_with) / inject_Z (Z.of_nat (len filtered_df)))
    * 100 in
  let avg_price_with :=
    Series_mean (column Price_per_SqFt (select (has_amenity amenity) filtered_df)) in
  let avg_price_without :=
    Series_mean
      (column Price_per_SqFt
         (select (fun r => negb (has_amenity amenity r)) filtered_df)) in
  {| Amenity := amenity;
     Count := count_with;
     Percentage := percentage;
     Avg_Price_With := avg_price_with;
     Avg_Price_Without := avg_price_without;
     Price_Premium := price_premium avg_price_with avg_price_without |}.

(** One turn of the loop over [common_amenities]: a row is appended only
    when [has_amenity.any()]. *)
Definition amenity_step (filtered_df : DataFrame)
    (amenity_analysis : list AmenityRow) (amenity : string) : list AmenityRow :=
  if existsb (has_amenity amenity) (rows filtered_df)
  then amenity_analysis ++ [amenity_row filtered_df amenity]
  else amenity_analysis.

(** Lines 580-604; None when the table has no Amenities column. *)
Definition amenity_analysis (filtered_df : DataFrame) : option (list AmenityRow) :=
  if has_column "Amenities" filtered_df
  then Some (fold_left (amenity_step filtered_df) common_amenities [])
  else None.

(* ------------------------------------------------------------------ *)
(** ** Square roots, kept exact

    Pearson's r and the skewness have the form [n / sqrt d] with rational
    [n] and [d].  Such a number [r] is stored as the rational [r * |r|]
    (its square with the sign of [r]), reduced to lowest terms.  The map
    from [r] to [r * |r|] is strictly increasing, so every comparison the
    code makes on [r] is decided exactly on the stored value, and two
    values are equal iff their stored values are. *)

Module Surd.
Record t : Type := mk { ssq : Q }.

(** The rational [c]. *)
Definition of_Q (c : Q) : t := mk (Qred (c * Qabs c)).

(** [n / sqrt d], for [0 < d]. *)
Definition ratio (n d : Q) : t := mk (Qred (n * Qabs n / d)).

Definition abs (r : t) : t := mk (Qabs (ssq r)).
Definition leb (a b : t) : bool := Qle_bool (ssq a) (ssq b).
Definition ltb (a b : t) : bool := Qltb (ssq a) (ssq b).

Definition zero : t := of_Q 0.
Definition one : t := of_Q 1.
End Surd.

(** [x > c], [x < c] and [abs(x)] for a statistic [x] that may be NaN. *)
Definition sgt (x : pyfloat Surd.t) (c : Q) : bool :=
  match x with NaN => false | Fin r => Surd.ltb (Surd.of_Q c) r end.
Definition slt (x : pyfloat Surd.t) (c : Q) : bool :=
  match x with NaN => false | Fin r => Surd.ltb r (Surd.of_Q c) end.
Definition sabs (x : pyfloat Surd.t) : pyfloat Surd.t :=
  match x with NaN => NaN | Fin r => Fin (Surd.abs r) end.

(* ------------------------------------------------------------------ *)
(** ** Pearson correlation and skewness *)

Definition deviations (xs : list Q) : list Q :=
  map (fun x => x - Qmean xs) xs.

Definition dot (xs ys : list Q) : Q :=
  Qsum (map (fun p => fst p * snd p) (combine xs ys)).

(** Pearson's r of two columns of equal length: the sum of the products of
    the deviations over the square root of the product of the two sums of
    squared deviations.  NaN when there is no observation or the divisor is
    zero. *)
Definition pearson (xs ys : list Q) : pyfloat Surd.t :=
  let nobs := List.length xs in
  let covxy := dot (deviations xs) (deviations ys) in
  let ssqdmx := dot (deviations xs) (deviations xs) in
  let ssqdmy := dot (deviations ys) (deviations ys) in
  if (nobs <? 1)%nat then NaN
  else if Qeq_bool (ssqdmx * ssqdmy) 0 then NaN
       else Fin (Surd.ratio covxy (ssqdmx * ssqdmy)).

(** [Series.corr(other)]: Pearson's r of the two columns, the value of
    [np.corrcoef] in exact arithmetic.  It is NaN for no observation and
    for a single one.  For a constant column of two or more rows the exact
    value is NaN (0 / 0) as well, but in binary floating point the mean of
    such a column can be rounded, and [np.corrcoef] then returns a number
    of the order of 1e-16 in place of NaN: nothing below is stated of this
    value on a constant column of two or more rows, and it is not stated
    to be equal to the entry of the matrix of [DataFrame.corr], which is
    computed by another algorithm. *)
Definition Series_corr (xs ys : list Q) : pyfloat Surd.t := pearson xs ys.

Definition zero_out_fperr (x : Q) : Q :=
  if Qltb (Qabs x) (1 # 100000000000000) then 0 else x.

(** [Series.skew()]: NaN below three observations, 0 for a constant
    series, else [count * sqrt(count - 1) / (count - 2) * m3 / m2 ** 1.5]. *)
Definition Series_skew (xs : list Q) : pyfloat Surd.t :=
  let count := inject_Z (Z.of_nat (List.length xs)) in
  let adjusted := deviations xs in
  let m2 := zero_out_fperr (Qsum (map (fun a => a * a) adjusted)) in
  let m3 := zero_out_fperr (Qsum (map (fun a => a * a * a) adjusted)) in
  if (List.length xs <? 3)%nat then NaN
  else if Qeq_bool m2 0 then Fin Surd.zero
       else Fin (Surd.ratio (count * m3 / (count - 2))
                            (m2 * m2 * m2 / (count - 1))).

(* ------------------------------------------------------------------ *)
(** ** display_correlation_analysis *)

(** The numeric columns of the schema, with the way to read each. *)
Definition numeric_schema : list (string * (PropertyRecord -> Q)) :=
  [ ("Price_in_Lakhs", Price_in_Lakhs);
    ("Size_in_SqFt", Size_in_SqFt);
    ("Price_per_SqFt", Price_per_SqFt);
    ("BHK", fun r => inject_Z (BHK r)) ]%string.

Fixpoint assoc {B : Type} (name : string) (l : list (string * B)) : option B :=
  match l with
  | [] => None
  | (k, v) :: tl => if String.eqb name k then Some v else assoc name tl
  end.

(** [df.select_dtypes(include=[np.number])]: the numeric columns, in the
    order of [df.columns], each with its values. *)
Definition select_dtypes_number (df : DataFrame) : list (string * list Q) :=
  flat_map
    (fun name =>
       match assoc name numeric_schema with
       | Some f => [(name, column f df)]
       | None => []
       end)
    (columns df).

(** A square table of coefficients with its row and column labels. *)
Record CorrMatrix : Type := {
  labels : list string;
  cells  : list (list (pyfloat Surd.t))
}.

Definition cell (m : CorrMatrix) (i j : nat) : pyfloat Surd.t :=
  nth j (nth i (cells m) []) NaN.

Definition label (m : CorrMatrix) (i : nat) : string :=
  nth i (labels m) ""%string.

Definition corr_entry (cols : list (string * list Q)) (xi yi : nat)
  : pyfloat Surd.t :=
  pearson (snd (nth xi cols (""%string, []))) (snd (nth yi cols (""%string, []))).

(** [DataFrame.corr()]: the coefficient is computed once for each pair
    [yi <= xi] and written to both [result[xi, yi]] and [result[yi, xi]]. *)
Definition DataFrame_corr (cols : list (string * list Q)) : CorrMatrix :=
  let K := List.length cols in
  {| labels := map fst cols;
     cells :=
       map (fun i =>
              map (fun j => if (j <=? i)%nat then corr_entry cols i j
                            else corr_entry cols j i)
                  (seq 0 K))
           (seq 0 K) |}.

(** One entry of the flattened matrix: the two labels and the coefficient. *)
Definition CorrPair : Type := (string * string) * pyfloat Surd.t.

(** [corr_matrix.unstack()]: column by column, each column from its first
    row to its last. *)
Definition unstack (m : CorrMatrix) : list CorrPair :=
  let K := List.length (labels m) in
  flat_map
    (fun j => map (fun i => ((label m j, label m i), cell m i j)) (seq 0 K))
    (seq 0 K).

(** The order of [sort_values(ascending=False)]: larger values first, NaN
    last. *)
Definition desc_nan_last (x y : pyfloat Surd.t) : bool :=
  match x, y with
  | _, NaN => true
  | NaN, Fin _ => false
  | Fin a, Fin b => Surd.leb b a
  end.

(** [Series.sort_values(ascending=False)].  Entries with equal values keep
    the order they had; numpy's default sort guarantees that only for short
    arrays, and nothing proved below depends on the order among equals. *)
Definition sort_values_desc (s : list CorrPair) : list CorrPair :=
  isort (fun e1 e2 => desc_nan_last (snd e1) (snd e2)) s.

(** [corr_pairs < 1] on one entry. *)
Definition below_one (e : CorrPair) : bool := slt (snd e) 1.

Definition head {A : Type} (n : nat) (l : list A) : list A := firstn n l.
Definition tail {A : Type} (n : nat) (l : list A) : list A :=
  skipn (List.length l - n) l.

Record TopCorrelations : Type := {
  top_pos : list CorrPair;
  top_neg : list CorrPair
}.

(** Lines 670-677. *)
Definition top_correlations (corr_matrix : CorrMatrix) : TopCorrelations :=
  let corr_pairs := sort_values_desc (unstack corr_matrix) in
  {| top_pos := head 5 (filter below_one corr_pairs);
     top_neg := tail 5 corr_pairs |}.

(** Lines 646-677; None is the early return with the warning. *)
Definition display_correlation_analysis (filtered_df : DataFrame)
  : option (CorrMatrix * TopCorrelations) :=
  let numerical_cols := select_dtypes_number filtered_df in
  if (List.length numerical_cols <? 2)%nat then None
  else
    let corr_matrix := DataFrame_corr numerical_cols in
    Some (corr_matrix, top_correlations corr_matrix).

(* ------------------------------------------------------------------ *)
(** ** display_insights_summary *)

(** [df.groupby(key)[val].mean()]: one entry per value of the key, keys in
    ascending order. *)
Definition groupby_mean (key : PropertyRecord -> string)
    (val : PropertyRecord -> Q) (rs : list PropertyRecord) : list (string * Q) :=
  map (fun k => (k, Qmean (map val (filter (fun r => String.eqb (key r) k) rs))))
      (isort String.leb (nodup string_dec (map key rs))).

(** [Series.idxmax()]: the label of the first largest value; raises on an
    empty series. *)
Definition idxmax (s : list (string * Q)) : result string :=
  match s with
  | [] => Raise ValueError
  | e :: tl =>
      Ok (fst (fold_left
                 (fun best x => if Qltb (snd best) (snd x) then x else best)
                 tl e))
  end.

Inductive skew_side : Type := right_skewed | left_skewed.
Inductive corr_kind : Type := strong_positive | negative.

(** One insight: which rule produced it and the values put in its text. *)
Inductive Insight : Type :=
| PriceDistribution (side : skew_side) (price_skew : pyfloat Surd.t)
| SizePriceRelationship (kind : corr_kind) (size_price_corr : pyfloat Surd.t)
| MostExpensiveCity (top_city : string) (top_city_price : pyfloat Q)
| PopularConfiguration (common_bhk : bhk_label)
| PriceRange (pps_min pps_max pps_avg : pyfloat Q).

Definition bind {A B : Type} (x : result A) (f : A -> result B) : result B :=
  match x with
  | Ok a => f a
  | Raise e => Raise e
  end.

(** Lines 906-936: the list [insights] after the five rules. *)
Definition display_insights_summary (filtered_df : DataFrame)
  : result (list Insight) :=
  let insights := [] in
  (* Insight 1: Price distribution *)
  let price_skew := Series_skew (column Price_in_Lakhs filtered_df) in
  let insights :=
    if sgt (sabs price_skew) 1
    then insights ++
         [PriceDistribution
            (if sgt price_skew 0 then right_skewed else left_skewed) price_skew]
    else insights in
  (* Insight 2: Size-Price relationship *)
  let size_price_corr :=
    Series_corr (column Size_in_SqFt filtered_df)
                (column Price_in_Lakhs filtered_df) in
  let insights :=
    if sgt size_price_corr (1 # 2)
    then insights ++ [SizePriceRelationship strong_positive size_price_corr]
    else if slt size_price_corr 0
         then insights ++ [SizePriceRelationship negative size_price_corr]
         else insights in
  (* Insight 3: City insights *)
  bind (if has_column "City" filtered_df
        then
          let by_city := groupby_mean City Price_in_Lakhs (rows filtered_df) in
          bind (idxmax by_city) (fun top_city =>
          let top_city_price := Series_max (map snd by_city) in
          Ok (insights ++ [MostExpensiveCity top_city top_city_price]))
        else Ok insights) (fun insights =>
  (* Insight 4: BHK insights *)
  let insights :=
    if has_column "BHK" filtered_df
    then insights ++
         [PopularConfiguration (common_bhk_of (map BHK (rows filtered_df)))]
    else insights in
  (* Insight 5: Price per Sq Ft range *)
  let pps_min := Series_min (column Price_per_SqFt filtered_df) in
  let pps_max := Series_max (column Price_per_SqFt filtered_df) in
  let pps_avg := Series_mean (column Price_per_SqFt filtered_df) in
  Ok (insights ++ [PriceRange pps_min pps_max pps_avg])).

(** The mean price of the rows of one city. *)
Definition city_mean (rs : list PropertyRecord) (k : string) : Q :=
  Qmean (map Price_in_Lakhs (filter (fun r => String.eqb (City r) k) rs)).

(** The rule an insight comes from, 1 to 5. *)
Definition rule_of (i : Insight) : nat :=
  match i with
  | PriceDistribution _ _ => 1
  | SizePriceRelationship _ _ => 2
  | MostExpensiveCity _ _ => 3
  | PopularConfiguration _ => 4
  | PriceRange _ _ _ => 5
  end.

(** A rule that fires contributes one insight, a rule that does not
    contributes none. *)
Definition fires (b : bool) (i : Insight) : list Insight :=
  if b then [i] else [].

(** [e1] may stand before [e2] in the descending order: its coefficient is
    at least that of [e2], a NaN counting as below every number. *)
Definition at_least (e1 e2 : CorrPair) : Prop :=
  desc_nan_last (snd e1) (snd e2) = true.

(* ------------------------------------------------------------------ *)
(** ** The two lists as the specification words them

    The specification asks for lists of distinct unordered attribute
    pairs, self pairs left out, the positive list in descending and the
    negative list in ascending order of the coefficient. *)

(** The same two attributes, in either order. *)
Definition same_pair (p q : string * string) : Prop :=
  p = q \/ p = (snd q, fst q).

Definition distinct_unordered (l : list CorrPair) : Prop :=
  forall i j x y,
    nth_error l i = Some x -> nth_error l j = Some y -> i <> j ->
    ~ same_pair (fst x) (fst y).

Definition no_self_pair (l : list CorrPair) : Prop :=
  forall e, In e l -> fst (fst e) <> snd (fst e).

Definition claimed_top5 (t : TopCorrelations) : Prop :=
  distinct_unordered (top_pos t)
  /\ no_self_pair (top_pos t)
  /\ StronglySorted at_least (top_pos t)
  /\ distinct_unordered (top_neg t)
  /\ StronglySorted (fun e1 e2 => at_least e2 e1) (top_neg t).

(** A matrix as the specification describes it: symmetric, with 1 on the
    whole diagonal. *)
Definition symmetric_unit_diagonal (m : CorrMatrix) : Prop :=
  (forall i j, cell m i j = cell m j i)
  /\ (forall i, (i < List.length (labels m))%nat -> cell m i i = Fin Surd.one).

(** The premium of a keyword as the specification words it: 0 when no
    record is without the keyword or the mean of those records is zero,
    in every other case (mean(with) / mean(without) - 1) * 100. *)
Definition claimed_premium (with_kw without_kw : list Q)
    (premium : pyfloat Q) : Prop :=
  (without_kw = [] \/ Qmean without_kw == 0 -> premium = Fin 0)
  /\ (without_kw <> [] -> ~ Qmean without_kw == 0 ->
      exists p,
        premium = Fin p
        /\ p == (Qmean with_kw / Qmean without_kw - 1) * 100).

(* ------------------------------------------------------------------ *)
(** ** Sample tables *)

Definition sample_columns : list string :=
  ["Price_in_Lakhs"; "Size_in_SqFt"; "Price_per_SqFt"; "City";
   "Property_Type"; "BHK"; "Amenities"]%string.

Definition listing (price size pps : Q) (city type : string) (bhk : Z)
    (amenities : option string) : PropertyRecord :=
  {| Price_in_Lakhs := price; Size_in_SqFt := size; Price_per_SqFt := pps;
     City := city; Property_Type := type; BHK := bhk;
     Amenities := amenities |}.

(** Three listings; the price per square foot is price * 100000 / size,
    the same for all three. *)
Definition three_listings : DataFrame :=
  {| columns := sample_columns;
     rows :=
       [ listing 100 1000 10000 "A" "Apartment" 2 (Some "Gym, Pool");
         listing 200 2000 10000 "A" "Apartment" 3 (Some "Garden");
         listing 50 500 10000 "B" "Villa" 2 None ]%string |}.

(** Four listings in which every numeric column varies. *)
Definition four_listings : DataFrame :=
  {| columns := sample_columns;
     rows :=
       [ listing 100 1000 10000 "A" "Apartment" 3 (Some "Gym, Pool");
         listing 200 1600 12500 "A" "Apartment" 2 (Some "Garden");
         listing 50 800 6250 "B" "Villa" 3 None;
         listing 300 1200 25000 "B" "Villa" 2 (Some "gym") ]%string |}.

(** A selection no listing of [three_listings] meets: city A and type
    Villa, the sliders left at the full ranges. *)
Definition city_A_villas : Widgets :=
  {| price_slider := (50, 200);
     size_slider := (500, 2000);
     cities_multiselect := ["A"%string];
     types_multiselect := ["Villa"%string];
     bhk_multiselect := [] |}.

Definition empty_view : DataFrame :=
  {| columns := sample_columns; rows := [] |}.

(** Two listings; the price per square foot stored with the second one is
    negative (the column is read from the file as it is, it is not
    recomputed from price and size). *)
Definition negative_pps_listings : DataFrame :=
  {| columns := sample_columns;
     rows :=
       [ listing 100 1000 10000 "A" "Apartment" 2 (Some "Gym");
         listing 50 1000 (-50) "B" "Villa" 2 (Some "Garden") ]%string |}.

(* ------------------------------------------------------------------ *)
(** ** More of display_sidebar_filters: options, defaults, statistics *)

(** [c1] asks for at least what [c2] asks for: its ranges lie inside those
    of [c2], and where [c2] restricts a column [c1] restricts it to values
    [c2] allows. *)
Definition narrower (c1 c2 : FilterCriteria) : Prop :=
  (min_price c2 <= min_price c1 /\ max_price c1 <= max_price c2)
  /\ (min_size c2 <= min_size c1 /\ max_size c1 <= max_size c2)
  /\ (selected_cities c2 = []
      \/ (selected_cities c1 <> []
          /\ incl (selected_cities c1) (selected_cities c2)))
  /\ (selected_types c2 = []
      \/ (selected_types c1 <> []
          /\ incl (selected_types c1) (selected_types c2)))
  /\ (selected_bhk c2 = []
      \/ (selected_bhk c1 <> [] /\ incl (selected_bhk c1) (selected_bhk c2))).

(** [sorted(s.unique())] *)
Definition sorted_unique_str (xs : list string) : list string :=
  isort String.leb (nodup string_dec xs).
Definition sorted_unique_Z (xs : list Z) : list Z :=
  isort Z.leb (nodup Z.eq_dec xs).

(** [options[:n] if len(options) > n else options] *)
Definition first_or_all {A : Type} (n : nat) (options : list A) : list A :=
  if (n <? List.length options)%nat then firstn n options else options.

(** [Series.quantile(q)] of a series that has data: the values in
    ascending order, the position [q * (n - 1)], and the linear
    interpolation between the two values around that position. *)
Definition Qquantile (q : Q) (xs : list Q) : Q :=
  let sorted := isort Qle_bool xs in
  let position := q * inject_Z (Z.of_nat (List.length xs - 1)) in
  let below := Z.to_nat (Qfloor position) in
  let fraction := position - inject_Z (Qfloor position) in
  let lower := nth below sorted 0 in
  let upper := nth (S below) sorted lower in
  lower + (upper - lower) * fraction.

(** [Series.quantile(q)]: NaN on an empty series. *)
Definition Series_quantile (q : Q) (xs : list Q) : pyfloat Q :=
  match xs with
  | [] => NaN
  | _ :: _ => Fin (Qquantile q xs)
  end.

(** The arguments of one range slider. *)
Record Slider : Type := {
  slider_min_value : pyfloat Q;
  slider_max_value : pyfloat Q;
  slider_value : pyfloat Q * pyfloat Q
}.

(** The arguments of one multiselect. *)
Record Multiselect (A : Type) : Type := {
  multiselect_options : list A;
  multiselect_default : list A
}.
Arguments multiselect_options {A} m.
Arguments multiselect_default {A} m.

(** The widgets of the sidebar as the code configures them (lines 86-140);
    None for a multiselect that is not drawn. *)
Record Sidebar : Type := {
  price_range_slider : Slider;
  size_range_slider : Slider;
  city_filter : option (Multiselect string);
  property_type_filter : option (Multiselect string);
  bhk_filter : option (Multiselect Z)
}.

Definition range_slider (xs : list Q) : Slider :=
  {| slider_min_value := Series_min xs;
     slider_max_value := Series_max xs;
     slider_value := (Series_quantile (1 # 10) xs, Series_quantile (9 # 10) xs) |}.

Definition sidebar (df : DataFrame) : Sidebar :=
  {| price_range_slider := range_slider (column Price_in_Lakhs df);
     size_range_slider := range_slider (column Size_in_SqFt df);
     city_filter :=
       if has_column "City" df
       then let cities := sorted_unique_str (map City (rows df)) in
            Some {| multiselect_options := cities;
                    multiselect_default := first_or_all 5 cities |}
       else None;
     property_type_filter :=
       if has_column "Property_Type" df
       then let property_types :=
              sorted_unique_str (map Property_Type (rows df)) in
            Some {| multiselect_options := property_types;
                    multiselect_default := first_or_all 3 property_types |}
       else None;
     bhk_filter :=
       if has_column "BHK" df
       then let bhk_options := sorted_unique_Z (map BHK (rows df)) in
            Some {| multiselect_options := bhk_options;
                    multiselect_default := bhk_options |}
       else None |}.

(** What the widgets return when the user has touched nothing: their
    defaults. *)
Definition untouched (df : DataFrame) : Widgets :=
  {| price_slider := (Qquantile (1 # 10) (column Price_in_Lakhs df),
                      Qquantile (9 # 10) (column Price_in_Lakhs df));
     size_slider := (Qquantile (1 # 10) (column Size_in_SqFt df),
                     Qquantile (9 # 10) (column Size_in_SqFt df));
     cities_multiselect :=
       first_or_all 5 (sorted_unique_str (map City (rows df)));
     types_multiselect :=
       first_or_all 3 (sorted_unique_str (map Property_Type (rows df)));
     bhk_multiselect := sorted_unique_Z (map BHK (rows df)) |}.

(** [a / b] on two lengths: None stands for ZeroDivisionError. *)
Definition truediv (a b : nat) : option Q :=
  if (b =? 0)%nat then None
  else Some (inject_Z (Z.of_nat a) / inject_Z (Z.of_nat b)).

(** [df[name]]: KeyError when the table has no such column. *)
Definition require_column (name : string) (df : DataFrame) : result unit :=
  if has_column name df then Ok tt else Raise KeyError.

(** [df.empty]: no row or no column. *)
Definition empty (df : DataFrame) : bool :=
  negb (truthy (rows df)) || negb (truthy (columns df)).

(** A filter step that reads column [name]. *)
Definition select_on (name : string) (mask : PropertyRecord -> bool)
    (df : DataFrame) : result DataFrame :=
  bind (require_column name df) (fun _ => Ok (select mask df)).

(** [f"{x:.1f}"]: the decimal with one digit after the point nearest to
    [x], kept as its number of tenths ("66.7" is 667).  A value exactly
    half way between two such decimals goes to the even digit. *)
Definition format_1f (x : Q) : Z :=
  let y := x * 10 in
  let f := Qfloor y in
  let frac := y - inject_Z f in
  if Qltb frac (1 # 2) then f
  else if Qltb (1 # 2) frac then (f + 1)%Z
  else if Z.even f then f else (f + 1)%Z.

(** What the sidebar shows under "Filter Stats": the number of rows of the
    view, and its share of the table in percent as the text with one
    decimal that line 176 formats (None: the division failed). *)
Record FilterStats : Type := {
  stat_properties : nat;
  stat_filtered_percent : option Z
}.

(** The whole method (lines 78-178) with its column look-ups: the two
    sliders read their columns without a check, the three multiselects are
    guarded, each filter step reads its column, and the statistics divide
    by the length of the table and format the share with one decimal. *)
Definition display_sidebar_filters_checked (df : DataFrame) (w : Widgets)
  : result (option (DataFrame * FilterStats)) :=
  if empty df then Ok None
  else
    bind (require_column "Price_in_Lakhs" df) (fun _ =>
    bind (require_column "Size_in_SqFt" df) (fun _ =>
    let c := read_widgets df w in
    let filtered_df := df in
    bind (select_on "Price_in_Lakhs"
            (fun r => Qle_bool (min_price c) (Price_in_Lakhs r)
                      && Qle_bool (Price_in_Lakhs r) (max_price c))
            filtered_df) (fun filtered_df =>
    bind (select_on "Size_in_SqFt"
            (fun r => Qle_bool (min_size c) (Size_in_SqFt r)
                      && Qle_bool (Size_in_SqFt r) (max_size c))
            filtered_df) (fun filtered_df =>
    bind (if truthy (selected_cities c)
          then select_on "City"
                 (fun r => isin_str (selected_cities c) (City r)) filtered_df
          else Ok filtered_df) (fun filtered_df =>
    bind (if truthy (selected_types c)
          then select_on "Property_Type"
                 (fun r => isin_str (selected_types c) (Property_Type r))
                 filtered_df
          else Ok filtered_df) (fun filtered_df =>
    bind (if truthy (selected_bhk c)
          then select_on "BHK"
                 (fun r => isin_Z (selected_bhk c) (BHK r)) filtered_df
          else Ok filtered_df) (fun filtered_df =>
    Ok (Some (filtered_df,
              {| stat_properties := len filtered_df;
                 stat_filtered_percent :=
                   option_map (fun x => format_1f (x * 100))
                              (truediv (len filtered_df) (len df)) |}))))))))).

(* ------------------------------------------------------------------ *)
(** ** Counting values: value_counts, unique *)

Section ValueCounts.
Context {A : Type} (eqb : A -> A -> bool).

Definition count_of (v : A) (xs : list A) : nat :=
  List.length (filter (eqb v) xs).

(** [s.unique()]: each value once, in the order of first appearance. *)
Fixpoint unique (xs : list A) : list A :=
  match xs with
  | [] => []
  | x :: tl => x :: filter (fun y => negb (eqb x y)) (unique tl)
  end.

(** [s.value_counts()]: each value with the number of its occurrences,
    larger counts first.  The order among equal counts is the order of
    first appearance here; nothing proved below depends on it. *)
Definition value_counts (xs : list A) : list (A * nat) :=
  isort (fun a b => (snd b <=? snd a)%nat)
        (map (fun v => (v, count_of v xs)) (unique xs)).
End ValueCounts.

(* ------------------------------------------------------------------ *)
(** ** display_price_analysis: the rankings of the city and type tabs *)

(** The order of [sort_values(ascending=False)] on a series of means. *)
Definition desc_by_mean (a b : string * Q) : bool := Qle_bool (snd b) (snd a).

(** Line 302: [groupby('City')['Price_in_Lakhs'].mean()
    .sort_values(ascending=False).head(10)]. *)
Definition city_avg_price (filtered_df : DataFrame) : list (string * Q) :=
  head 10 (isort desc_by_mean
             (groupby_mean City Price_in_Lakhs (rows filtered_df))).

(** Line 317: [filtered_df['City'].value_counts().head(5).index]. *)
Definition top_cities (filtered_df : DataFrame) : list string :=
  map fst (head 5 (value_counts String.eqb (map City (rows filtered_df)))).

(** Line 318. *)
Definition top_cities_data (filtered_df : DataFrame) : DataFrame :=
  select (fun r => isin_str (top_cities filtered_df) (City r)) filtered_df.


(** The data of the city tab; None when there is no City column. *)
Definition price_by_city_tab (filtered_df : DataFrame)
  : option (list (string * Q) * DataFrame) :=
  if has_column "City" filtered_df
  then Some (city_avg_price filtered_df, top_cities_data filtered_df)
  else None.

(* ------------------------------------------------------------------ *)
(** ** display_location_analysis and the BHK tab *)

(** Line 375: the fifteen cities with the most rows; None is the early
    return of the method when there is no City column. *)
Definition city_counts (filtered_df : DataFrame) : option (list (string * nat)) :=
  if has_column "City" filtered_df
  then Some (head 15 (value_counts String.eqb (map City (rows filtered_df))))
  else None.



(** Line 484: [filtered_df['BHK'].value_counts().sort_index()]. *)
Definition bhk_dist (filtered_df : DataFrame) : list (Z * nat) :=
  isort (fun a b => Z.leb (fst a) (fst b))
        (value_counts Z.eqb (map BHK (rows filtered_df))).

(* ------------------------------------------------------------------ *)
(** ** display_correlation_analysis: the price correlation insights *)

(** A look-up by position or by name that may fail. *)
Inductive lookup_error : Type := IndexError | MissingColumn.

Inductive looked_up (A : Type) : Type :=
| Found (a : A)
| Failed (e : lookup_error).
Arguments Found {A} a.
Arguments Failed {A} e.

(** [s.iloc[i]] *)
Definition iloc {A : Type} (s : list A) (i : nat) : looked_up A :=
  match nth_error s i with
  | Some a => Found a
  | None => Failed IndexError
  end.

(** [s.iloc[-1]] *)
Definition iloc_last {A : Type} (s : list A) : looked_up A :=
  match s with
  | [] => Failed IndexError
  | _ :: _ => iloc s (List.length s - 1)
  end.

(** The position of a label among the labels of the matrix. *)
Fixpoint position_of (name : string) (names : list string) : option nat :=
  match names with
  | [] => None
  | n :: tl => if String.eqb name n then Some 0%nat
               else option_map S (position_of name tl)
  end.

(** [corr_matrix[name]]: one column of the matrix, indexed by the labels. *)
Definition matrix_column (m : CorrMatrix) (j : nat)
  : list (string * pyfloat Surd.t) :=
  map (fun i => (label m i, cell m i j)) (seq 0 (List.length (labels m))).

(** [s.sort_values(ascending=False)] on a column of the matrix. *)
Definition sort_column_desc (s : list (string * pyfloat Surd.t))
  : list (string * pyfloat Surd.t) :=
  isort (fun e1 e2 => desc_nan_last (snd e1) (snd e2)) s.

Inductive strength : Type := Strong | Moderate | Weak.

(** ["Strong" if abs(r) > 0.7 else "Moderate" if abs(r) > 0.3 else "Weak"] *)
Definition strength_of (size_corr : pyfloat Surd.t) : strength :=
  if sgt (sabs size_corr) (7 # 10) then Strong
  else if sgt (sabs size_corr) (3 # 10) then Moderate
  else Weak.

(** The three metrics under "Price Correlation Insights": a label and the
    value shown below it. *)
Record PriceInsights : Type := {
  strongest_positive : string * pyfloat Surd.t;
  strongest_negative : string * pyfloat Surd.t;
  size_price : pyfloat Surd.t * strength
}.

Definition bind_lookup {A B : Type} (x : looked_up A) (f : A -> looked_up B)
  : looked_up B :=
  match x with
  | Found a => f a
  | Failed e => Failed e
  end.

(** Lines 692-719; None when the price is not among the numeric columns. *)
Definition price_correlation_insights (filtered_df : DataFrame)
    (corr_matrix : CorrMatrix) : option (looked_up PriceInsights) :=
  match position_of "Price_in_Lakhs" (labels corr_matrix) with
  | None => None
  | Some j =>
      let price_correlations :=
        sort_column_desc (matrix_column corr_matrix j) in
      Some (
        bind_lookup (iloc price_correlations 1) (fun second =>
        let positive_label :=
          if (1 <? List.length price_correlations)%nat
          then fst second else "N/A"%string in
        bind_lookup (iloc_last price_correlations) (fun last =>
        let negative_label :=
          if (0 <? List.length price_correlations)%nat
          then fst last else "N/A"%string in
        if has_column "Size_in_SqFt" filtered_df
        then
          let size_corr :=
            Series_corr (column Size_in_SqFt filtered_df)
                        (column Price_in_Lakhs filtered_df) in
          Found {| strongest_positive := (positive_label, snd second);
                   strongest_negative := (negative_label, snd last);
                   size_price := (size_corr, strength_of size_corr) |}
        else Failed MissingColumn)))
  end.

(** The whole page: the matrix, the two lists and the price insights. *)
Definition correlation_page (filtered_df : DataFrame)
  : option (CorrMatrix * TopCorrelations * option (looked_up PriceInsights)) :=
  match display_correlation_analysis filtered_df with
  | None => None
  | Some (corr_matrix, tops) =>
      Some (corr_matrix, tops,
            price_correlation_insights filtered_df corr_matrix)
  end.

(* ------------------------------------------------------------------ *)
(** ** Facts on lists and membership *)

Lemma filter_filter {A : Type} (f g : A -> bool) (l : list A) :
  filter g (filter f l) = filter (fun x => f x && g x) l.
Proof.
  induction l as [| x l IH]; simpl; [reflexivity|].
  destruct (f x); simpl; [destruct (g x)|]; now rewrite IH.
Qed.

Lemma filter_all {A : Type} (f : A -> bool) (l : list A) :
  (forall x, In x l -> f x = true) -> filter f l = l.
Proof.
  induction l as [| x l IH]; simpl; intros H; [reflexivity|].
  rewrite (H x (or_introl eq_refl)). f_equal. apply IH. intros; apply H; now right.
Qed.

Lemma filter_Subseq {A : Type} (f : A -> bool) (l : list A) :
  Subseq (filter f l) l.
Proof.
  induction l as [| x l IH]; simpl; [constructor|].
  destruct (f x); now constructor.
Qed.

Lemma isin_str_In values x : isin_str values x = true <-> In x values.
Proof.
  unfold isin_str. rewrite existsb_exists. split.
  - intros [y [Hy He]]. apply String.eqb_eq in He. now subst.
  - intros H. exists x. split; [assumption | apply String.eqb_refl].
Qed.

Lemma isin_Z_In values x : isin_Z values x = true <-> In x values.
Proof.
  unfold isin_Z. rewrite existsb_exists. split.
  - intros [y [Hy He]]. apply Z.eqb_eq in He. now subst.
  - intros H. exists x. split; [assumption | apply Z.eqb_refl].
Qed.

Lemma truthy_false {A : Type} (l : list A) : truthy l = false <-> l = [].
Proof. destruct l; simpl; split; congruence. Qed.

Lemma member_gate_str sel x :
  negb (truthy sel) || isin_str sel x = true <-> sel = [] \/ In x sel.
Proof.
  rewrite orb_true_iff, negb_true_iff, truthy_false, isin_str_In. reflexivity.
Qed.

Lemma member_gate_Z sel x :
  negb (truthy sel) || isin_Z sel x = true <-> sel = [] \/ In x sel.
Proof.
  rewrite orb_true_iff, negb_true_iff, truthy_false, isin_Z_In. reflexivity.
Qed.

Lemma passes_satisfies c r : passes c r = true <-> satisfies c r.
Proof.
  unfold passes, satisfies.
  rewrite !andb_true_iff, !Qle_bool_iff.
  rewrite !member_gate_str, member_gate_Z. tauto.
Qed.

Lemma gated_select (b : bool) (f : PropertyRecord -> bool) (df : DataFrame) :
  (if b then select f df else df) = select (fun r => negb b || f r) df.
Proof.
  destruct b; simpl; [reflexivity|].
  destruct df as [cs rs]; unfold select; simpl. f_equal.
  symmetry; apply filter_all; reflexivity.
Qed.

(** The five steps are one pass with the conjunction of the masks. *)
Lemma apply_filters_one_pass df c :
  apply_filters df c = select (passes c) df.
Proof.
  unfold apply_filters. cbv zeta.
  rewrite !gated_select. unfold select; simpl.
  rewrite !filter_filter. f_equal.
  apply filter_ext. intros r. unfold passes.
  now rewrite !andb_assoc.
Qed.

(* ------------------------------------------------------------------ *)
(** ** Facts on minimum and maximum *)

Lemma Qle_bool_false a b : Qle_bool a b = false -> b < a.
Proof.
  intros H. apply Qnot_le_lt. intros Hle.
  apply Qle_bool_iff in Hle. congruence.
Qed.

Lemma Qltb_lt a b : Qltb a b = true <-> a < b.
Proof.
  unfold Qltb. rewrite negb_true_iff. split.
  - apply Qle_bool_false.
  - intros H. destruct (Qle_bool b a) eqn:E; [|reflexivity].
    apply Qle_bool_iff in E. exfalso. apply (Qlt_irrefl a).
    eapply Qlt_le_trans; eassumption.
Qed.

Lemma Qminb_le_l a b : Qminb a b <= a.
Proof.
  unfold Qminb. destruct (Qle_bool a b) eqn:E.
  - apply Qle_refl.
  - apply Qlt_le_weak, Qle_bool_false, E.
Qed.

Lemma Qminb_le_r a b : Qminb a b <= b.
Proof.
  unfold Qminb. destruct (Qle_bool a b) eqn:E.
  - now apply Qle_bool_iff.
  - apply Qle_refl.
Qed.

Lemma Qmaxb_ge_l a b : a <= Qmaxb a b.
Proof.
  unfold Qmaxb. destruct (Qle_bool a b) eqn:E.
  - now apply Qle_bool_iff.
  - apply Qle_refl.
Qed.

Lemma Qmaxb_ge_r a b : b <= Qmaxb a b.
Proof.
  unfold Qmaxb. destruct (Qle_bool a b) eqn:E.
  - apply Qle_refl.
  - apply Qlt_le_weak, Qle_bool_false, E.
Qed.

Lemma fold_Qminb_lower tl : forall x,
  fold_left Qminb tl x <= x /\ forall y, In y tl -> fold_left Qminb tl x <= y.
Proof.
  induction tl as [| z tl IH]; simpl; intros x.
  - split; [apply Qle_refl | tauto].
  - destruct (IH (Qminb x z)) as [H1 H2]. split.
    + eapply Qle_trans; [exact H1 | apply Qminb_le_l].
    + intros y [<- | Hy].
      * eapply Qle_trans; [exact H1 | apply Qminb_le_r].
      * now apply H2.
Qed.

Lemma fold_Qmaxb_upper tl : forall x,
  x <= fold_left Qmaxb tl x /\ forall y, In y tl -> y <= fold_left Qmaxb tl x.
Proof.
  induction tl as [| z tl IH]; simpl; intros x.
  - split; [apply Qle_refl | tauto].
  - destruct (IH (Qmaxb x z)) as [H1 H2]. split.
    + eapply Qle_trans; [apply Qmaxb_ge_l | exact H1].
    + intros y [<- | Hy].
      * eapply Qle_trans; [apply Qmaxb_ge_r | exact H1].
      * now apply H2.
Qed.

Lemma Series_min_lower xs m x : Series_min xs = Fin m -> In x xs -> m <= x.
Proof.
  destruct xs as [| a tl]; simpl; [discriminate|].
  intros [= <-] [<- | Hx]; destruct (fold_Qminb_lower tl a) as [H1 H2]; auto.
Qed.

Lemma Series_max_upper xs m x : Series_max xs = Fin m -> In x xs -> x <= m.
Proof.
  destruct xs as [| a tl]; simpl; [discriminate|].
  intros [= <-] [<- | Hx]; destruct (fold_Qmaxb_upper tl a) as [H1 H2]; auto.
Qed.

Lemma spans_covers lo hi xs x : spans lo hi xs -> In x xs -> lo <= x /\ x <= hi.
Proof.
  unfold spans. intros H Hx.
  destruct xs as [| a tl]; [destruct Hx|].
  destruct (Series_min (a :: tl)) as [| mn] eqn:Emin; [discriminate|].
  destruct (Series_max (a :: tl)) as [| mx] eqn:Emax; [discriminate|].
  destruct H as [Hlo Hhi]. split.
  - eapply Qle_trans; [exact Hlo | eapply Series_min_lower; eassumption].
  - eapply Qle_trans; [eapply Series_max_upper; eassumption | exact Hhi].
Qed.

(* ------------------------------------------------------------------ *)
(** ** The filter *)

(** C1.  A record is in the filtered view exactly when it is in the table,
    its price and its size lie in their inclusive ranges and, for each
    selection that is not empty, its value is selected; an empty selection
    restricts nothing.  The view is the table with rows dropped: the rows
    kept are in their original order. *)
Theorem C1_filter_sound_complete_stable (df : DataFrame) (c : FilterCriteria) :
  (forall r, In r (rows (apply_filters df c)) <->
             In r (rows df) /\ satisfies c r)
  /\ Subseq (rows (apply_filters df c)) (rows df)
  /\ rows (apply_filters df c) = filter (passes c) (rows df)
  /\ columns (apply_filters df c) = columns df.
Proof.
  rewrite apply_filters_one_pass. simpl.
  split; [| split; [apply filter_Subseq | split; reflexivity]].
  intros r. rewrite filter_In, passes_satisfies. reflexivity.
Qed.

(** C2.  With the three selections empty and price and size ranges that
    reach from the smallest to the largest value of the table, the
    filtered view is the table itself. *)
Theorem C2_no_restriction_identity (df : DataFrame) (c : FilterCriteria) :
  selected_cities c = [] ->
  selected_types c = [] ->
  selected_bhk c = [] ->
  spans (min_price c) (max_price c) (column Price_in_Lakhs df) ->
  spans (min_size c) (max_size c) (column Size_in_SqFt df) ->
  apply_filters df c = df.
Proof.
  intros Hc Ht Hb Hp Hs.
  rewrite apply_filters_one_pass.
  destruct df as [cs rs]. unfold select; simpl. f_equal.
  apply filter_all. intros r Hr. apply passes_satisfies.
  unfold satisfies. rewrite Hc, Ht, Hb.
  assert (HP : In (Price_in_Lakhs r) (column Price_in_Lakhs {| columns := cs; rows := rs |}))
    by (unfold column; simpl; now apply in_map).
  assert (HS : In (Size_in_SqFt r) (column Size_in_SqFt {| columns := cs; rows := rs |}))
    by (unfold column; simpl; now apply in_map).
  pose proof (spans_covers _ _ _ _ Hp HP).
  pose proof (spans_covers _ _ _ _ Hs HS).
  tauto.
Qed.

(** The three listings with the ranges read off the data. *)
Lemma C2_no_restriction_identity_witness :
  apply_filters three_listings
    {| min_price := 50; max_price := 200;
       min_size := 500; max_size := 2000;
       selected_cities := []; selected_types := []; selected_bhk := [] |}
  = three_listings.
Proof.
  apply C2_no_restriction_identity; try reflexivity.
  - vm_compute. split; discriminate.
  - vm_compute. split; discriminate.
Defined.

(* ------------------------------------------------------------------ *)
(** ** Insertion sort: a sorted permutation *)

Section SortingFacts.
Context {A : Type} (leb : A -> A -> bool).
Hypothesis leb_total : forall a b, leb a b = true \/ leb b a = true.
Hypothesis leb_trans :
  forall a b c, leb a b = true -> leb b c = true -> leb a c = true.

Lemma insert_perm x l : Permutation (insert leb x l) (x :: l).
Proof.
  induction l as [| y tl IH]; simpl; [reflexivity|].
  destruct (leb x y); [reflexivity|].
  rewrite IH. apply perm_swap.
Qed.

Lemma isort_perm l : Permutation (isort leb l) l.
Proof.
  induction l as [| x tl IH]; simpl; [reflexivity|].
  rewrite insert_perm. now constructor.
Qed.

Lemma insert_sorted x l :
  StronglySorted (fun a b => leb a b = true) l ->
  StronglySorted (fun a b => leb a b = true) (insert leb x l).
Proof.
  induction 1 as [| y tl Hs IH Hall]; simpl.
  - repeat constructor.
  - destruct (leb x y) eqn:E.
    + constructor; [now constructor|].
      constructor; [exact E|].
      eapply Forall_impl; [|exact Hall]. intros z Hz. eapply leb_trans; eassumption.
    + constructor; [exact IH|].
      assert (Hyx : leb y x = true) by (destruct (leb_total x y); congruence).
      eapply Permutation_Forall.
      * symmetry. apply insert_perm.
      * now constructor.
Qed.

Lemma isort_sorted l : StronglySorted (fun a b => leb a b = true) (isort leb l).
Proof.
  induction l as [| x tl IH]; simpl; [constructor|].
  now apply insert_sorted.
Qed.

Lemma isort_In l x : In x (isort leb l) <-> In x l.
Proof.
  split; apply Permutation_in; [| symmetry]; apply isort_perm.
Qed.

(** The first element of the sorted list is below every element. *)
Lemma isort_first_least l m tl x :
  isort leb l = m :: tl -> In x l -> leb m x = true.
Proof.
  intros E Hx. apply isort_In in Hx. rewrite E in Hx.
  pose proof (isort_sorted l) as Hs. rewrite E in Hs.
  inversion Hs as [| ? ? _ Hall]; subst.
  destruct Hx as [<- | Hx].
  - destruct (leb_total m m); assumption.
  - rewrite Forall_forall in Hall. now apply Hall.
Qed.

End SortingFacts.

(* ------------------------------------------------------------------ *)
(** ** The most common BHK *)

Lemma Zleb_total a b : Z.leb a b = true \/ Z.leb b a = true.
Proof. rewrite !Z.leb_le. lia. Qed.

Lemma Zleb_trans a b c :
  Z.leb a b = true -> Z.leb b c = true -> Z.leb a c = true.
Proof. rewrite !Z.leb_le. lia. Qed.

Lemma count_Z_pos v xs : In v xs <-> (0 < count_Z v xs)%nat.
Proof.
  unfold count_Z. induction xs as [| x tl IH]; simpl; [split; [tauto | lia]|].
  destruct (Z.eqb v x) eqn:E; simpl.
  - apply Z.eqb_eq in E. split; [lia | intros _; now left].
  - apply Z.eqb_neq in E. rewrite <- IH. split; [intros [H | H]; congruence | tauto].
Qed.

Lemma fold_max_upper (f : Z -> nat) l v :
  In v l -> (f v <= fold_right Nat.max 0 (map f l))%nat.
Proof.
  induction l as [| x tl IH]; simpl; [tauto|].
  intros [<- | H]; [lia | specialize (IH H); lia].
Qed.

Lemma fold_max_attained (f : Z -> nat) l :
  l <> [] -> exists v, In v l /\ f v = fold_right Nat.max 0%nat (map f l).
Proof.
  induction l as [| x tl IH]; [congruence|]. intros _. simpl.
  destruct tl as [| y tl'].
  - exists x. simpl. split; [now left | lia].
  - destruct IH as [v [Hv Ev]]; [discriminate|].
    destruct (Nat.le_gt_cases (f x) (fold_right Nat.max 0%nat (map f (y :: tl')))).
    + exists v. split; [now right | lia].
    + exists x. split; [now left | lia].
Qed.

Lemma max_count_upper xs v : (count_Z v xs <= max_count xs)%nat.
Proof.
  destruct (in_dec Z.eq_dec v xs) as [Hin | Hout].
  - unfold max_count. now apply (fold_max_upper (fun v => count_Z v xs)).
  - destruct (count_Z v xs) eqn:E; [lia|].
    exfalso. apply Hout, count_Z_pos. lia.
Qed.

(** The members of the mode: the values of the series whose count is the
    largest count. *)
Lemma Series_mode_In xs m :
  In m (Series_mode xs) <-> In m xs /\ count_Z m xs = max_count xs.
Proof.
  unfold Series_mode.
  rewrite (isort_In Z.leb), nodup_In, filter_In, Nat.eqb_eq.
  reflexivity.
Qed.

Lemma Series_mode_nonempty xs : xs <> [] -> Series_mode xs <> [].
Proof.
  intros H E.
  destruct (fold_max_attained (fun v => count_Z v xs) xs H) as [v [Hv Ev]].
  assert (Hm : In v (Series_mode xs)) by (apply Series_mode_In; split; assumption).
  rewrite E in Hm. destruct Hm.
Qed.

(** The label shown for a series that has data. *)
Lemma common_bhk_of_spec xs :
  xs <> [] ->
  exists m, common_bhk_of xs = BhkValue m
    /\ In m xs
    /\ (forall v, (count_Z v xs <= count_Z m xs)%nat)
    /\ (forall v, count_Z v xs = count_Z m xs -> (m <= v)%Z).
Proof.
  intros H. unfold common_bhk_of.
  destruct (Series_mode xs) as [| m tl] eqn:E.
  - exfalso. now apply (Series_mode_nonempty xs H).
  - assert (Hm : In m (Series_mode xs)) by (rewrite E; now left).
    apply Series_mode_In in Hm. destruct Hm as [Hin Hc].
    exists m. split; [reflexivity|]. split; [assumption|]. split.
    + intros v. rewrite Hc. apply max_count_upper.
    + intros v Hv. apply Z.leb_le.
      unfold Series_mode in E.
      eapply (isort_first_least Z.leb Zleb_total Zleb_trans); [exact E|].
      apply nodup_In, filter_In. rewrite Nat.eqb_eq. split; [|congruence].
      apply count_Z_pos. rewrite Hv. now apply count_Z_pos.
Qed.

(* ------------------------------------------------------------------ *)
(** ** The deltas of the key metrics *)

(** C5.  Each of the four deltas (count, mean price, mean size, mean price
    per square foot) is the metric of the view minus the metric of the
    loaded table when the two have different numbers of rows, and is
    absent when they have the same number of rows. *)
Theorem C5_delta_iff_cardinality_differs (self_df filtered_df : DataFrame) :
  let m := display_key_metrics self_df filtered_df in
  (total_properties m = len filtered_df
   /\ avg_price m = Series_mean (column Price_in_Lakhs filtered_df)
   /\ avg_size m = Series_mean (column Size_in_SqFt filtered_df)
   /\ avg_pps m = Series_mean (column Price_per_SqFt filtered_df))
  /\ (len filtered_df <> len self_df ->
        total_properties_delta m
          = Delta (Z.of_nat (total_properties m) - Z.of_nat (len self_df))%Z
        /\ avg_price_delta m
          = Delta (fsub (avg_price m) (Series_mean (column Price_in_Lakhs self_df)))
        /\ avg_size_delta m
          = Delta (fsub (avg_size m) (Series_mean (column Size_in_SqFt self_df)))
        /\ avg_pps_delta m
          = Delta (fsub (avg_pps m) (Series_mean (column Price_per_SqFt self_df))))
  /\ (len filtered_df = len self_df ->
        total_properties_delta m = NoDelta
        /\ avg_price_delta m = NoDelta
        /\ avg_size_delta m = NoDelta
        /\ avg_pps_delta m = NoDelta).
Proof.
  intros m. subst m. unfold display_key_metrics; simpl.
  split; [repeat split|].
  destruct (Nat.eqb (len filtered_df) (len self_df)) eqn:E; simpl.
  - apply Nat.eqb_eq in E. split; [intros H; contradiction | repeat split].
  - apply Nat.eqb_neq in E. split; [repeat split | intros H; contradiction].
Qed.

(* ------------------------------------------------------------------ *)
(** ** The amenity table *)

Lemma amenity_fold df kws : forall acc,
  fold_left (amenity_step df) kws acc
  = acc ++ map (amenity_row df)
             (filter (fun kw => existsb (has_amenity kw) (rows df)) kws).
Proof.
  induction kws as [| kw tl IH]; intros acc; simpl.
  - now rewrite app_nil_r.
  - rewrite IH. unfold amenity_step.
    destruct (existsb (has_amenity kw) (rows df)); simpl; [|reflexivity].
    now rewrite <- app_assoc.
Qed.

(** The table has one row per keyword of the list that some record
    contains, in the order of the list. *)
Lemma amenity_analysis_rows df table :
  amenity_analysis df = Some table ->
  table = map (amenity_row df)
              (filter (fun kw => existsb (has_amenity kw) (rows df))
                      common_amenities).
Proof.
  unfold amenity_analysis. rewrite amenity_fold.
  destruct (has_column "Amenities" df); [|discriminate].
  intros H. inversion H. reflexivity.
Qed.

Lemma existsb_filter_nonempty {A : Type} (f : A -> bool) l :
  existsb f l = true -> filter f l <> [].
Proof.
  intros H E. apply existsb_exists in H. destruct H as [x [Hx Hf]].
  assert (Hin : In x (filter f l)) by (apply filter_In; now split).
  rewrite E in Hin. destruct Hin.
Qed.

Lemma Qsum_nonneg xs : (forall x, In x xs -> 0 <= x) -> 0 <= Qsum xs.
Proof.
  induction xs as [| x tl IH]; simpl; intros H; [apply Qle_refl|].
  assert (H1 : 0 <= x) by (apply H; now left).
  assert (H2 : 0 <= Qsum tl) by (apply IH; intros; apply H; now right).
  lra.
Qed.

(** C10.  The rows of the amenity table are exactly the keywords of the
    fixed list that at least one record of the view contains: a keyword no
    record contains has no row (it is left out, not listed with premium 0). *)
Theorem C10_unmatched_amenity_has_no_row (filtered_df : DataFrame)
    (table : list AmenityRow) :
  amenity_analysis filtered_df = Some table ->
  (forall kw,
      In kw (map Amenity table) <->
      In kw common_amenities
      /\ exists r, In r (rows filtered_df) /\ has_amenity kw r = true)
  /\ (forall kw,
        (forall r, In r (rows filtered_df) -> has_amenity kw r = false) ->
        forall row, In row table -> Amenity row <> kw).
Proof.
  intros Ht. apply amenity_analysis_rows in Ht.
  assert (Hnames : map Amenity table
                   = filter (fun kw => existsb (has_amenity kw) (rows filtered_df))
                            common_amenities).
  { rewrite Ht, map_map. simpl. apply map_id. }
  assert (Hiff : forall kw,
      In kw (map Amenity table) <->
      In kw common_amenities
      /\ exists r, In r (rows filtered_df) /\ has_amenity kw r = true).
  { intros kw. rewrite Hnames, filter_In, existsb_exists. reflexivity. }
  split; [exact Hiff|].
  intros kw Hnone row Hrow Hkw.
  assert (Hin : In kw (map Amenity table)) by (rewrite <- Hkw; now apply in_map).
  apply Hiff in Hin. destruct Hin as [_ [r [Hr Hm]]].
  rewrite (Hnone r Hr) in Hm. discriminate.
Qed.

Lemma common_amenities_NoDup : NoDup common_amenities.
Proof.
  unfold common_amenities.
  repeat (constructor;
          [simpl; intros H;
           repeat (destruct H as [H | H]; [discriminate H|]); exact H|]).
  constructor.
Qed.

Lemma filter_nonempty_existsb {A : Type} (f : A -> bool) l :
  filter f l <> [] -> existsb f l = true.
Proof.
  intros H. destruct (filter f l) as [| x tl] eqn:E; [congruence|].
  assert (Hin : In x (filter f l)) by (rewrite E; now left).
  apply filter_In in Hin. apply existsb_exists. now exists x.
Qed.

(** The premium once the two means are known. *)
Lemma price_premium_cases (a : Q) (without_kw : list Q) :
  (without_kw = [] \/ Qmean without_kw <= 0 ->
   price_premium (Fin a) (Series_mean without_kw) = Fin 0)
  /\ (without_kw <> [] -> 0 < Qmean without_kw ->
      price_premium (Fin a) (Series_mean without_kw)
      = Fin ((a / Qmean without_kw - 1) * 100)).
Proof.
  unfold price_premium. split.
  - intros [E | E].
    + rewrite E. reflexivity.
    + destruct without_kw as [| q tl]; [reflexivity|]. simpl.
      destruct (Qltb 0 (Qmean (q :: tl))) eqn:L; [|reflexivity].
      apply Qltb_lt in L. lra.
  - intros Hne Hpos. destruct without_kw as [| q tl]; [congruence|]. simpl.
    destruct (Qltb 0 (Qmean (q :: tl))) eqn:L.
    + destruct (Qeq_bool (Qmean (q :: tl)) 0) eqn:Z; [| reflexivity].
      apply Qeq_bool_iff in Z. lra.
    + apply Qltb_lt in Hpos. congruence.
Qed.

(** C6 (as amended).  For a keyword of the fixed list: when no record of
    the view contains it the table has no row for it, so no premium is
    reported; otherwise the table has exactly one row for it, with the
    means of the records with and without the keyword, and its premium is
    exactly 0 when no record is without the keyword or the mean of those
    records is zero or negative, and (mean(with) / mean(without) - 1) * 100
    when that mean is positive. *)
Theorem C6_premium_fallback_and_formula (filtered_df : DataFrame)
    (table : list AmenityRow) (kw : string) :
  amenity_analysis filtered_df = Some table ->
  In kw common_amenities ->
  let with_kw :=
    column Price_per_SqFt (select (has_amenity kw) filtered_df) in
  let without_kw :=
    column Price_per_SqFt
      (select (fun r => negb (has_amenity kw r)) filtered_df) in
  NoDup (map Amenity table)
  /\ (with_kw = [] -> ~ In kw (map Amenity table))
  /\ (with_kw <> [] ->
      exists row,
        In row table
        /\ Amenity row = kw
        /\ (forall other, In other table -> Amenity other = kw -> other = row)
        /\ Avg_Price_With row = Fin (Qmean with_kw)
        /\ Avg_Price_Without row = Series_mean without_kw
        /\ (without_kw = [] \/ Qmean without_kw <= 0 ->
            Price_Premium row = Fin 0)
        /\ (without_kw <> [] -> 0 < Qmean without_kw ->
            Price_Premium row
            = Fin ((Qmean with_kw / Qmean without_kw - 1) * 100))).
Proof.
  intros Ht Hkw with_kw without_kw.
  apply amenity_analysis_rows in Ht.
  set (matched := filter (fun k => existsb (has_amenity k) (rows filtered_df))
                         common_amenities) in Ht.
  assert (Hnames : map Amenity table = matched).
  { rewrite Ht, map_map. simpl. apply map_id. }
  assert (Hwith : with_kw <> [] <->
                  existsb (has_amenity kw) (rows filtered_df) = true).
  { unfold with_kw, column, select; simpl. split.
    - intros H. apply filter_nonempty_existsb. intros E. apply H.
      now rewrite E.
    - intros H E. apply existsb_filter_nonempty in H.
      destruct (filter (has_amenity kw) (rows filtered_df));
        [congruence | discriminate]. }
  split; [| split].
  - rewrite Hnames. apply NoDup_filter, common_amenities_NoDup.
  - intros E Hin. rewrite Hnames in Hin. apply filter_In in Hin.
    destruct Hin as [_ Hany]. apply Hwith in Hany. contradiction.
  - intros Hne. exists (amenity_row filtered_df kw).
    assert (Havg : Series_mean with_kw = Fin (Qmean with_kw)).
    { destruct with_kw; [congruence | reflexivity]. }
    split; [| split; [| split]].
    + rewrite Ht. apply in_map. apply filter_In. split; [exact Hkw|].
      now apply Hwith.
    + reflexivity.
    + intros other Hin E. rewrite Ht in Hin. apply in_map_iff in Hin.
      destruct Hin as [k [<- _]]. simpl in E. now rewrite E.
    + change (Avg_Price_With (amenity_row filtered_df kw))
        with (Series_mean with_kw).
      change (Avg_Price_Without (amenity_row filtered_df kw))
        with (Series_mean without_kw).
      change (Price_Premium (amenity_row filtered_df kw))
        with (price_premium (Series_mean with_kw) (Series_mean without_kw)).
      rewrite Havg.
      split; [reflexivity|]. split; [reflexivity|].
      apply price_premium_cases.
Qed.

(** C6 (as stated, refuted).  Two things the claim says fail.  In
    [negative_pps_listings] the one record without "Gym" has the price per
    square foot -50: the partition is not empty and its mean is not zero,
    and still the premium reported for "Gym" is 0, where the formula gives
    -20100.  In [four_listings] no record contains "Lift", a keyword of the
    list whose other partition has a positive mean: no row and so no
    premium is reported for it. *)
Lemma C6_negative_mean_reports_zero :
  let with_gym :=
    column Price_per_SqFt (select (has_amenity "Gym") negative_pps_listings) in
  let without_gym :=
    column Price_per_SqFt
      (select (fun r => negb (has_amenity "Gym" r)) negative_pps_listings) in
  (exists row rest,
      amenity_analysis negative_pps_listings = Some (row :: rest)
      /\ Amenity row = "Gym"%string
      /\ In (Amenity row) common_amenities
      /\ Avg_Price_Without row = Fin (-50)
      /\ Price_Premium row = Fin 0
      /\ (Qmean with_gym / Qmean without_gym - 1) * 100 == -20100
      /\ ~ claimed_premium with_gym without_gym (Price_Premium row))
  /\ (exists table,
        amenity_analysis four_listings = Some table
        /\ In "Lift"%string common_amenities
        /\ Series_mean
             (column Price_per_SqFt
                (select (fun r => negb (has_amenity "Lift" r)) four_listings))
           = Fin (53750 # 4)
        /\ ~ In "Lift"%string (map Amenity table)).
Proof.
  intros with_gym without_gym. split.
  - eexists. eexists. split; [reflexivity|].
    split; [reflexivity|]. split; [now left|].
    split; [reflexivity|]. split; [reflexivity|].
    split; [reflexivity|].
    intros [_ H].
    destruct H as [p [Ep Hp]].
    + discriminate.
    + intros E. vm_compute in E. discriminate E.
    + injection Ep as <-. vm_compute in Hp. discriminate Hp.
  - eexists. split; [reflexivity|].
    split; [simpl; tauto|]. split; [reflexivity|].
    simpl. intros H.
    repeat (destruct H as [H | H]; [discriminate H|]). exact H.
Qed.

(* ------------------------------------------------------------------ *)
(** ** Sums of squares and the mean *)

Lemma combine_diag {A : Type} (l : list A) :
  combine l l = map (fun x => (x, x)) l.
Proof. induction l as [| x tl IH]; simpl; [reflexivity | now rewrite IH]. Qed.

Lemma dot_self l : dot l l = Qsum (map (fun x => x * x) l).
Proof. unfold dot. now rewrite combine_diag, map_map. Qed.

Lemma Qsum_sq_nonneg l : 0 <= Qsum (map (fun x => x * x) l).
Proof.
  apply Qsum_nonneg. intros y Hy. apply in_map_iff in Hy.
  destruct Hy as [x [<- _]]. nra.
Qed.

Lemma Qsum_sq_zero l :
  Qsum (map (fun x => x * x) l) == 0 -> forall x, In x l -> x == 0.
Proof.
  induction l as [| a tl IH]; simpl; intros H x Hx; [destruct Hx|].
  pose proof (Qsum_sq_nonneg tl) as Hnn.
  assert (Ha : a * a == 0) by nra.
  assert (Htl : Qsum (map (fun x => x * x) tl) == 0) by nra.
  destruct Hx as [<- | Hx]; [| now apply IH].
  apply Qmult_integral in Ha. tauto.
Qed.

Lemma Qsum_sq_all_zero l :
  (forall x, In x l -> x == 0) -> Qsum (map (fun x => x * x) l) == 0.
Proof.
  induction l as [| a tl IH]; simpl; intros H; [reflexivity|].
  rewrite IH by (intros; apply H; now right).
  rewrite (H a (or_introl eq_refl)). reflexivity.
Qed.

Lemma inject_Z_succ (n : nat) :
  inject_Z (Z.of_nat (S n)) == inject_Z (Z.of_nat n) + 1.
Proof. rewrite Nat2Z.inj_succ, <- Z.add_1_r, inject_Z_plus. reflexivity. Qed.

Lemma Qsum_const xs c :
  (forall x, In x xs -> x == c) ->
  Qsum xs == inject_Z (Z.of_nat (List.length xs)) * c.
Proof.
  induction xs as [| a tl IH]; intros H.
  - simpl. unfold inject_Z. ring.
  - change (Qsum (a :: tl)) with (a + Qsum tl).
    change (List.length (a :: tl)) with (S (List.length tl)).
    rewrite inject_Z_succ, IH by (intros; apply H; now right).
    rewrite (H a (or_introl eq_refl)). ring.
Qed.

Lemma inject_Z_length_pos {A : Type} (a : A) (tl : list A) :
  0 < inject_Z (Z.of_nat (List.length (a :: tl))).
Proof. unfold Qlt; simpl. lia. Qed.

Lemma Qmean_const xs c :
  xs <> [] -> (forall x, In x xs -> x == c) -> Qmean xs == c.
Proof.
  intros Hne H. unfold Qmean. rewrite (Qsum_const xs c H).
  destruct xs as [| a tl]; [congruence|].
  pose proof (inject_Z_length_pos a tl) as Hpos.
  field. intros E. rewrite E in Hpos. now apply Qlt_irrefl in Hpos.
Qed.

Lemma deviations_In xs d :
  In d (deviations xs) <-> exists x, In x xs /\ d = x - Qmean xs.
Proof.
  unfold deviations. rewrite in_map_iff. split; intros [x [H1 H2]]; exists x; auto.
Qed.

(** The sum of squared deviations vanishes exactly on a constant series. *)
Lemma ssqdm_zero_iff_constant xs :
  dot (deviations xs) (deviations xs) == 0 <-> constant xs.
Proof.
  rewrite dot_self. split.
  - intros H x y Hx Hy.
    assert (Hd : forall z, In z xs -> z - Qmean xs == 0).
    { intros z Hz. apply (Qsum_sq_zero _ H). apply deviations_In. now exists z. }
    pose proof (Hd x Hx). pose proof (Hd y Hy). lra.
  - intros Hc. apply Qsum_sq_all_zero. intros d Hd.
    apply deviations_In in Hd. destruct Hd as [x [Hx ->]].
    assert (Hne : xs <> []) by (destruct xs; [destruct Hx | discriminate]).
    rewrite (Qmean_const xs x Hne); [ring|].
    intros z Hz. now apply Hc.
Qed.

Lemma ssqdm_nonneg xs : 0 <= dot (deviations xs) (deviations xs).
Proof. rewrite dot_self. apply Qsum_sq_nonneg. Qed.

(* ------------------------------------------------------------------ *)
(** ** The correlation matrix *)

Lemma Surd_ratio_self s : 0 < s -> Surd.ratio s (s * s) = Surd.one.
Proof.
  intros Hs. unfold Surd.ratio, Surd.one, Surd.of_Q. f_equal.
  apply Qred_complete.
  rewrite (Qabs_pos s) by lra. 
  change (Qabs 1) with 1. field. lra.
Qed.

(** A column against itself: NaN when it is constant, else exactly 1. *)
Lemma pearson_self xs :
  (constant xs -> pearson xs xs = NaN)
  /\ (~ constant xs -> pearson xs xs = Fin Surd.one).
Proof.
  unfold pearson.
  pose proof (ssqdm_nonneg xs) as Hnn.
  pose proof (ssqdm_zero_iff_constant xs) as Hz.
  set (ss := dot (deviations xs) (deviations xs)) in *.
  destruct (List.length xs <? 1)%nat eqn:En.
  - split; [reflexivity|]. intros Hc. exfalso. apply Hc.
    apply Nat.ltb_lt in En. destruct xs; [| simpl in En; lia].
    intros x y [].
  - destruct (Qeq_bool (ss * ss) 0) eqn:E.
    + split; [reflexivity|]. intros Hc. exfalso. apply Hc, Hz.
      apply Qeq_bool_iff in E. apply Qmult_integral in E. tauto.
    + split.
      * intros Hc. apply Hz in Hc. exfalso.
        apply Qeq_bool_neq in E. apply E. rewrite Hc. ring.
      * intros Hc. f_equal. apply Surd_ratio_self.
        assert (~ ss == 0) by tauto. lra.
Qed.

Lemma nth_map_seq {B : Type} (f : nat -> B) (K i : nat) (d : B) :
  nth i (map f (seq 0 K)) d = if (i <? K)%nat then f i else d.
Proof.
  destruct (i <? K)%nat eqn:E.
  - apply Nat.ltb_lt in E.
    rewrite (nth_indep _ d (f 0%nat)) by now rewrite length_map, length_seq.
    rewrite map_nth, seq_nth by assumption. reflexivity.
  - apply Nat.ltb_ge in E. apply nth_overflow.
    now rewrite length_map, length_seq.
Qed.

Lemma cell_DataFrame_corr cols i j :
  cell (DataFrame_corr cols) i j
  = if ((i <? List.length cols) && (j <? List.length cols))%nat
    then (if (j <=? i)%nat then corr_entry cols i j else corr_entry cols j i)
    else NaN.
Proof.
  unfold cell, DataFrame_corr; simpl.
  rewrite (nth_map_seq _ _ i []).
  destruct (i <? List.length cols)%nat; simpl.
  - rewrite nth_map_seq. reflexivity.
  - now destruct j.
Qed.

(** C7 (amended).  The correlation matrix is symmetric.  The diagonal entry
    of an attribute is exactly 1 when the attribute takes at least two
    different values in the view, and NaN when it is constant there (a view
    of fewer than two rows included). *)
Theorem C7_corr_symmetric_diagonal_one_or_nan (cols : list (string * list Q)) :
  let m := DataFrame_corr cols in
  (forall i j, cell m i j = cell m j i)
  /\ (forall i name xs,
        nth_error cols i = Some (name, xs) ->
        (constant xs -> cell m i i = NaN)
        /\ (~ constant xs -> cell m i i = Fin Surd.one)).
Proof.
  intros m. subst m. split.
  - intros i j. rewrite !cell_DataFrame_corr.
    rewrite (andb_comm (j <? _)%nat).
    destruct ((i <? List.length cols) && (j <? List.length cols))%nat;
      [| reflexivity].
    destruct (j <=? i)%nat eqn:E1; destruct (i <=? j)%nat eqn:E2;
      try reflexivity.
    + apply Nat.leb_le in E1, E2. now replace j with i by lia.
    + apply Nat.leb_gt in E1, E2. lia.
  - intros i name xs Hi.
    assert (Hlt : (i < List.length cols)%nat)
      by (apply nth_error_Some; congruence).
    rewrite cell_DataFrame_corr.
    apply Nat.ltb_lt in Hlt. rewrite Hlt, Nat.leb_refl. simpl.
    unfold corr_entry.
    rewrite (nth_error_nth _ _ _ Hi). simpl.
    apply pearson_self.
Qed.

(* ------------------------------------------------------------------ *)
(** ** The insight list *)

Lemma argmax_fold (tl : list (string * Q)) : forall e,
  let best := fold_left
                (fun best x => if Qltb (snd best) (snd x) then x else best) tl e in
  In best (e :: tl) /\ forall x, In x (e :: tl) -> snd x <= snd best.
Proof.
  induction tl as [| y tl IH]; intros e; simpl.
  - split; [now left|]. intros x [<- | []]. apply Qle_refl.
  - destruct (Qltb (snd e) (snd y)) eqn:E.
    + destruct (IH y) as [H1 H2]. simpl in H1, H2.
      apply Qltb_lt in E. split; [tauto|].
      intros x [<- | Hx]; [| now apply H2].
      specialize (H2 y (or_introl eq_refl)). lra.
    + destruct (IH e) as [H1 H2]. simpl in H1, H2.
      assert (Hle : snd y <= snd e).
      { unfold Qltb in E. apply negb_false_iff in E. now apply Qle_bool_iff. }
      split; [destruct H1; auto|].
      intros x [<- | [<- | Hx]].
      * apply H2. now left.
      * specialize (H2 e (or_introl eq_refl)). lra.
      * apply H2. now right.
Qed.

(** The keys of [groupby]: the values of the key column. *)
Lemma groupby_mean_In key val rs k v :
  In (k, v) (groupby_mean key val rs) ->
  In k (map key rs)
  /\ v = Qmean (map val (filter (fun r => String.eqb (key r) k) rs)).
Proof.
  unfold groupby_mean. rewrite in_map_iff. intros [k' [E Hk]].
  injection E as <- <-. split; [| reflexivity].
  eapply Permutation_in in Hk; [| apply isort_perm].
  now apply nodup_In in Hk.
Qed.

Lemma groupby_mean_key key val rs r :
  In r rs ->
  In (key r, Qmean (map val (filter (fun r' => String.eqb (key r') (key r)) rs)))
     (groupby_mean key val rs).
Proof.
  intros Hr. unfold groupby_mean.
  apply (in_map (fun k => (k, Qmean (map val (filter (fun r' => String.eqb (key r') k) rs))))).
  eapply Permutation_in; [symmetry; apply isort_perm|].
  apply nodup_In. now apply in_map.
Qed.

(** On a view that has rows the city with the highest mean price exists. *)
Lemma idxmax_by_city rs :
  rs <> [] ->
  exists top_city,
    idxmax (groupby_mean City Price_in_Lakhs rs) = Ok top_city
    /\ In top_city (map City rs)
    /\ forall r, In r rs -> city_mean rs (City r) <= city_mean rs top_city.
Proof.
  intros Hne.
  destruct (groupby_mean City Price_in_Lakhs rs) as [| e tl] eqn:E.
  - exfalso. destruct rs as [| r rs']; [congruence|].
    pose proof (groupby_mean_key City Price_in_Lakhs (r :: rs') r (or_introl eq_refl)) as H.
    rewrite E in H. destruct H.
  - simpl. destruct (argmax_fold tl e) as [Hin Hmax].
    set (best := fold_left _ tl e) in *.
    exists (fst best). split; [reflexivity|].
    rewrite <- E in Hin, Hmax.
    destruct best as [k v] eqn:Eb. simpl.
    apply groupby_mean_In in Hin. destruct Hin as [Hk Hv]. split; [exact Hk|].
    intros r Hr.
    specialize (Hmax _ (groupby_mean_key City Price_in_Lakhs rs r Hr)).
    simpl in Hmax. unfold city_mean. now rewrite <- Hv.
Qed.

Lemma Series_min_Fin xs : xs <> [] -> exists m, Series_min xs = Fin m.
Proof. destruct xs; [congruence | intros _; eexists; reflexivity]. Qed.

Lemma Series_max_Fin xs : xs <> [] -> exists m, Series_max xs = Fin m.
Proof. destruct xs; [congruence | intros _; eexists; reflexivity]. Qed.

(** The value of [display_insights_summary] on a view that has rows: no
    exception, and the five rules in their order. *)
Lemma insights_of_nonempty_view (df : DataFrame) :
  rows df <> [] ->
  let price_skew := Series_skew (column Price_in_Lakhs df) in
  let size_price_corr :=
    Series_corr (column Size_in_SqFt df) (column Price_in_Lakhs df) in
  let pps := column Price_per_SqFt df in
  exists top_city,
    idxmax (groupby_mean City Price_in_Lakhs (rows df)) = Ok top_city
    /\ display_insights_summary df
       = Ok ((if sgt (sabs price_skew) 1
              then [PriceDistribution
                      (if sgt price_skew 0 then right_skewed else left_skewed)
                      price_skew]
              else [])
             ++ (if sgt size_price_corr (1 # 2)
                 then [SizePriceRelationship strong_positive size_price_corr]
                 else if slt size_price_corr 0
                      then [SizePriceRelationship negative size_price_corr]
                      else [])
             ++ (if has_column "City" df
                 then [MostExpensiveCity top_city
                         (Series_max
                            (map snd (groupby_mean City Price_in_Lakhs (rows df))))]
                 else [])
             ++ (if has_column "BHK" df
                 then [PopularConfiguration (common_bhk_of (map BHK (rows df)))]
                 else [])
             ++ [PriceRange (Series_min pps) (Series_max pps) (Series_mean pps)]).
Proof.
  intros Hne price_skew size_price_corr pps.
  destruct (idxmax_by_city (rows df) Hne) as [top_city [Eidx _]].
  exists top_city. split; [exact Eidx|].
  unfold display_insights_summary.
  fold price_skew size_price_corr pps. rewrite Eidx. cbv zeta.
  destruct (sgt (sabs price_skew) 1);
    destruct (sgt size_price_corr (1 # 2));
    destruct (slt size_price_corr 0);
    destruct (has_column "City" df);
    destruct (has_column "BHK" df); reflexivity.
Qed.

Lemma five_rules_shape (b1 b2 b3 b4 : bool) (i1 i2 i3 i4 i5 : Insight) :
  rule_of i1 = 1%nat -> rule_of i2 = 2%nat -> rule_of i3 = 3%nat ->
  rule_of i4 = 4%nat -> rule_of i5 = 5%nat ->
  let l := fires b1 i1 ++ fires b2 i2 ++ fires b3 i3 ++ fires b4 i4 ++ [i5] in
  (1 <= List.length l <= 5)%nat
  /\ StronglySorted lt (map rule_of l)
  /\ (forall x, In x l <->
        (b1 = true /\ x = i1) \/ (b2 = true /\ x = i2)
        \/ (b3 = true /\ x = i3) \/ (b4 = true /\ x = i4) \/ x = i5).
Proof.
  intros R1 R2 R3 R4 R5 l. subst l.
  destruct b1, b2, b3, b4; simpl; rewrite ?R1, ?R2, ?R3, ?R4, ?R5;
    (split; [lia|]); (split; [repeat constructor|]);
    intros x; intuition (try discriminate; eauto).
Qed.

(** From membership in the list to the rule that produced the insight. *)
Ltac from_rule Hin H :=
  apply Hin in H;
  destruct H as [[Hb H] | [[Hb H] | [[Hb H] | [[Hb H] | H]]]];
  try discriminate H.

(** C9.  On a view that has rows the insight list is produced without an
    exception, has between one and five entries, and lists the rules in
    their fixed order, each at most once: the skewness insight exactly when
    |skew| > 1, labelled right-skewed exactly when skew > 0; the size-price
    insight exactly when the correlation is above 0.5 or below 0; the city
    of highest mean price exactly when there is a City column; the most
    common BHK exactly when there is a BHK column; the price-per-area range
    always. *)
Theorem C9_insights_rule_order (df : DataFrame) :
  rows df <> [] ->
  let price_skew := Series_skew (column Price_in_Lakhs df) in
  let size_price_corr :=
    Series_corr (column Size_in_SqFt df) (column Price_in_Lakhs df) in
  let pps := column Price_per_SqFt df in
  exists l,
    display_insights_summary df = Ok l
    /\ (1 <= List.length l <= 5)%nat
    /\ StronglySorted lt (map rule_of l)
    /\ (forall side s,
          In (PriceDistribution side s) l <->
          sgt (sabs price_skew) 1 = true /\ s = price_skew
          /\ side = (if sgt price_skew 0 then right_skewed else left_skewed))
    /\ (forall kind c,
          In (SizePriceRelationship kind c) l <->
          c = size_price_corr
          /\ ((kind = strong_positive /\ sgt size_price_corr (1 # 2) = true)
              \/ (kind = negative /\ sgt size_price_corr (1 # 2) = false
                  /\ slt size_price_corr 0 = true)))
    /\ (forall city p,
          In (MostExpensiveCity city p) l <->
          has_column "City" df = true
          /\ idxmax (groupby_mean City Price_in_Lakhs (rows df)) = Ok city
          /\ p = Series_max (map snd (groupby_mean City Price_in_Lakhs (rows df))))
    /\ (forall city p,
          In (MostExpensiveCity city p) l ->
          In city (map City (rows df))
          /\ forall r, In r (rows df) ->
                       city_mean (rows df) (City r) <= city_mean (rows df) city)
    /\ (forall b,
          In (PopularConfiguration b) l <->
          has_column "BHK" df = true /\ b = common_bhk_of (map BHK (rows df)))
    /\ (forall a b c,
          In (PriceRange a b c) l <->
          a = Series_min pps /\ b = Series_max pps /\ c = Series_mean pps)
    /\ (exists lo hi avg,
          Series_min pps = Fin lo /\ Series_max pps = Fin hi
          /\ Series_mean pps = Fin avg
          /\ forall r, In r (rows df) ->
                       lo <= Price_per_SqFt r /\ Price_per_SqFt r <= hi).
Proof.
  intros Hne price_skew size_price_corr pps.
  destruct (insights_of_nonempty_view df Hne) as [top_city [Eidx El]].
  fold price_skew size_price_corr pps in El.
  destruct (idxmax_by_city (rows df) Hne) as [top' [Eidx' [Hcity Hmax]]].
  assert (top' = top_city) by congruence. subst top'.
  set (i1 := PriceDistribution
               (if sgt price_skew 0 then right_skewed else left_skewed)
               price_skew) in *.
  set (i2 := SizePriceRelationship
               (if sgt size_price_corr (1 # 2) then strong_positive else negative)
               size_price_corr).
  set (i3 := MostExpensiveCity top_city
               (Series_max (map snd (groupby_mean City Price_in_Lakhs (rows df)))))
    in *.
  set (i4 := PopularConfiguration (common_bhk_of (map BHK (rows df)))) in *.
  set (i5 := PriceRange (Series_min pps) (Series_max pps) (Series_mean pps)) in *.
  set (b1 := sgt (sabs price_skew) 1) in *.
  set (b2 := sgt size_price_corr (1 # 2) || slt size_price_corr 0).
  destruct (five_rules_shape b1 b2 (has_column "City" df) (has_column "BHK" df)
              i1 i2 i3 i4 i5 eq_refl eq_refl eq_refl eq_refl eq_refl)
    as [Hlen [Hsorted Hin]].
  exists (fires b1 i1 ++ fires b2 i2 ++ fires (has_column "City" df) i3
          ++ fires (has_column "BHK" df) i4 ++ [i5]).
  split.
  { rewrite El. f_equal. unfold fires, b2, i2.
    destruct (sgt size_price_corr (1 # 2)); simpl; [reflexivity|].
    destruct (slt size_price_corr 0); reflexivity. }
  split; [exact Hlen|]. split; [exact Hsorted|].
  unfold i1, i2, i3, i4, i5 in Hin.
  split; [| split; [| split; [| split; [| split; [| split]]]]].
  - intros side s. split.
    + intros H. from_rule Hin H. injection H as -> ->. auto.
    + intros [Hb [-> ->]]. apply Hin. left. split; [exact Hb | reflexivity].
  - intros kind c. split.
    + intros H. from_rule Hin H. injection H as -> ->.
      split; [reflexivity|]. unfold b2 in Hb.
      destruct (sgt size_price_corr (1 # 2)); [left; now split|].
      right. simpl in Hb. repeat split; assumption.
    + intros [-> Hk]. apply Hin. right; left. unfold b2.
      destruct Hk as [[-> Hs] | [-> [Hs Hl]]]; rewrite Hs; simpl; [| rewrite Hl];
        split; reflexivity.
  - intros city p. split.
    + intros H. from_rule Hin H. injection H as -> ->. auto.
    + intros [Hb [Hc ->]]. apply Hin. right; right; left.
      split; [exact Hb|]. congruence.
  - intros city p H. from_rule Hin H. injection H as -> _. auto.
  - intros b. split.
    + intros H. from_rule Hin H. injection H as ->. auto.
    + intros [Hb ->]. apply Hin. right; right; right; left. now split.
  - intros a b c. split.
    + intros H. from_rule Hin H. injection H as -> -> ->. auto.
    + intros [-> [-> ->]]. apply Hin. repeat right. reflexivity.
  - assert (Hpps : pps <> []).
    { unfold pps, column. destruct (rows df); [congruence | discriminate]. }
    destruct (Series_min_Fin pps Hpps) as [lo Elo].
    destruct (Series_max_Fin pps Hpps) as [hi Ehi].
    exists lo, hi, (Qmean pps). split; [exact Elo|]. split; [exact Ehi|].
    split; [destruct pps; [congruence | reflexivity]|].
    intros r Hr.
    assert (Hin' : In (Price_per_SqFt r) pps) by (unfold pps, column; now apply in_map).
    split.
    + eapply Series_min_lower; eassumption.
    + eapply Series_max_upper; eassumption.
Qed.

(* ------------------------------------------------------------------ *)
(** ** The top correlations *)

Lemma filter_perm {A : Type} (f : A -> bool) l l' :
  Permutation l l' -> Permutation (filter f l) (filter f l').
Proof.
  induction 1 as [| x l l' _ IH | x y l | l l' l'' _ IH1 _ IH2]; simpl.
  - constructor.
  - destruct (f x); [now constructor | assumption].
  - destruct (f x), (f y); try reflexivity. apply perm_swap.
  - etransitivity; eassumption.
Qed.

Lemma StronglySorted_filter {A : Type} (R : A -> A -> Prop) (f : A -> bool) l :
  StronglySorted R l -> StronglySorted R (filter f l).
Proof.
  induction 1 as [| x l Hs IH Hall]; simpl; [constructor|].
  destruct (f x); [| assumption].
  constructor; [assumption|].
  rewrite Forall_forall in *. intros y Hy. apply filter_In in Hy. now apply Hall.
Qed.

Lemma StronglySorted_app_inv {A : Type} (R : A -> A -> Prop) l1 l2 :
  StronglySorted R (l1 ++ l2) ->
  StronglySorted R l1 /\ StronglySorted R l2
  /\ forall x y, In x l1 -> In y l2 -> R x y.
Proof.
  induction l1 as [| a l1 IH]; simpl; intros H.
  - split; [constructor|]. split; [assumption|]. intros x y [].
  - apply StronglySorted_inv in H. destruct H as [Hs Hall].
    destruct (IH Hs) as [H1 [H2 H3]].
    rewrite Forall_forall in Hall.
    split; [| split; [assumption|]].
    + constructor; [assumption|]. rewrite Forall_forall.
      intros y Hy. apply Hall, in_or_app. now left.
    + intros x y [<- | Hx] Hy; [| now apply H3].
      apply Hall, in_or_app. now right.
Qed.

Lemma firstn_incl {A : Type} (n : nat) (l : list A) x :
  In x (firstn n l) -> In x l.
Proof.
  intros H. rewrite <- (firstn_skipn n l). apply in_or_app. now left.
Qed.

Lemma flat_map_length_const {A B : Type} (f : A -> list B) (n : nat) l :
  (forall x, List.length (f x) = n) ->
  List.length (flat_map f l) = (List.length l * n)%nat.
Proof.
  intros H. induction l as [| x tl IH]; simpl; [reflexivity|].
  now rewrite length_app, H, IH.
Qed.

Lemma Surd_leb_total a b : Surd.leb a b = true \/ Surd.leb b a = true.
Proof.
  unfold Surd.leb. rewrite !Qle_bool_iff.
  destruct (Qlt_le_dec (Surd.ssq b) (Surd.ssq a)); [right; lra | now left].
Qed.

Lemma Surd_leb_trans a b c :
  Surd.leb a b = true -> Surd.leb b c = true -> Surd.leb a c = true.
Proof. unfold Surd.leb. rewrite !Qle_bool_iff. apply Qle_trans. Qed.

Lemma desc_nan_last_total x y :
  desc_nan_last x y = true \/ desc_nan_last y x = true.
Proof.
  destruct x as [| a], y as [| b]; simpl; auto. apply Surd_leb_total.
Qed.

Lemma desc_nan_last_trans x y z :
  desc_nan_last x y = true -> desc_nan_last y z = true ->
  desc_nan_last x z = true.
Proof.
  destruct x as [| a], y as [| b], z as [| c]; simpl; try congruence.
  intros H1 H2. eapply Surd_leb_trans; eassumption.
Qed.

Lemma sort_values_desc_perm s : Permutation (sort_values_desc s) s.
Proof. apply isort_perm. Qed.

Lemma sort_values_desc_sorted s : StronglySorted at_least (sort_values_desc s).
Proof.
  apply (isort_sorted (fun e1 e2 : CorrPair => desc_nan_last (snd e1) (snd e2))).
  - intros a b. apply desc_nan_last_total.
  - intros a b c. apply desc_nan_last_trans.
Qed.

(** The entries of the flattened matrix: one per ordered pair of labels. *)
Lemma unstack_In m a b c :
  In ((a, b), c) (unstack m) <->
  exists i j, (i < List.length (labels m))%nat /\ (j < List.length (labels m))%nat
              /\ a = label m j /\ b = label m i /\ c = cell m i j.
Proof.
  unfold unstack. rewrite in_flat_map. split.
  - intros [j [Hj H]]. apply in_map_iff in H. destruct H as [i [E Hi]].
    apply in_seq in Hj, Hi. injection E as <- <- <-.
    exists i, j. repeat split; lia.
  - intros [i [j [Hi [Hj [-> [-> ->]]]]]].
    exists j. split; [apply in_seq; lia|].
    apply in_map_iff. exists i. split; [reflexivity | apply in_seq; lia].
Qed.

Lemma unstack_length m :
  List.length (unstack m)
  = (List.length (labels m) * List.length (labels m))%nat.
Proof.
  unfold unstack. rewrite (flat_map_length_const _ (List.length (labels m))).
  - now rewrite length_seq.
  - intros j. now rewrite length_map, length_seq.
Qed.

(** C8 (amended).  The flattened matrix has one entry per ordered pair of
    attributes, so a pair of different attributes is there in both orders
    (with the same coefficient when the matrix is symmetric).  The top
    positive list is made of the entries with the largest coefficients
    among those strictly below 1 (an entry equal to 1 or NaN is never
    listed, whatever its pair), at most five of them, in descending order.
    The top negative list is made of the last entries of the descending
    order of all entries (NaN entries last), at most five of them, and is
    itself in descending order. *)
Theorem C8_top_pairs_of_descending_order (m : CorrMatrix) :
  let t := top_correlations m in
  let all := unstack m in
  let K := List.length (labels m) in
  (forall a b c,
      In ((a, b), c) all <->
      exists i j, (i < K)%nat /\ (j < K)%nat
                  /\ a = label m j /\ b = label m i /\ c = cell m i j)
  /\ List.length all = (K * K)%nat
  /\ ((forall i j, cell m i j = cell m j i) ->
      forall a b c, In ((a, b), c) all -> In ((b, a), c) all)
  /\ (exists rest,
         Permutation (top_pos t ++ rest) (filter below_one all)
         /\ forall x y, In x (top_pos t) -> In y rest -> at_least x y)
  /\ StronglySorted at_least (top_pos t)
  /\ List.length (top_pos t) = Nat.min 5 (List.length (filter below_one all))
  /\ (forall e, In e (top_pos t) ->
                exists r, snd e = Fin r /\ Surd.ltb r Surd.one = true)
  /\ (exists rest,
         Permutation (rest ++ top_neg t) all
         /\ forall x y, In x rest -> In y (top_neg t) -> at_least x y)
  /\ StronglySorted at_least (top_neg t)
  /\ List.length (top_neg t) = Nat.min 5 (List.length all).
Proof.
  intros t all K. subst t K.
  pose proof (sort_values_desc_perm all) as Hperm.
  pose proof (sort_values_desc_sorted all) as Hsorted.
  unfold top_correlations; cbn [top_pos top_neg]. fold all.
  set (sorted := sort_values_desc all) in *.
  set (cand := filter below_one sorted).
  assert (Hcand : StronglySorted at_least cand)
    by now apply StronglySorted_filter.
  assert (Hsplit : StronglySorted at_least (firstn 5 cand ++ skipn 5 cand))
    by now rewrite firstn_skipn.
  apply StronglySorted_app_inv in Hsplit. destruct Hsplit as [Hp1 [_ Hp3]].
  set (n := (List.length sorted - 5)%nat).
  assert (Hsplit : StronglySorted at_least (firstn n sorted ++ skipn n sorted))
    by now rewrite firstn_skipn.
  apply StronglySorted_app_inv in Hsplit. destruct Hsplit as [_ [Hn2 Hn3]].
  split; [intros a b c; apply unstack_In|].
  split; [apply unstack_length|].
  split.
  { intros Hsym a b c H. apply unstack_In in H.
    destruct H as [i [j [Hi [Hj [-> [-> ->]]]]]].
    apply unstack_In. exists j, i. rewrite (Hsym i j). auto. }
  split.
  { exists (skipn 5 cand). split; [| exact Hp3].
    unfold head. rewrite firstn_skipn. now apply filter_perm. }
  split; [exact Hp1|].
  split.
  { unfold head. rewrite length_firstn. f_equal.
    apply Permutation_length. now apply filter_perm. }
  split.
  { intros e He. unfold head in He. apply firstn_incl in He.
    apply filter_In in He. destruct He as [_ He].
    unfold below_one, slt in He. destruct (snd e) as [| r]; [discriminate|].
    exists r. split; [reflexivity | exact He]. }
  split.
  { exists (firstn n sorted). split; [| exact Hn3].
    unfold tail. fold n. now rewrite firstn_skipn. }
  split; [exact Hn2|].
  unfold tail. fold n. rewrite length_skipn. unfold n.
  rewrite <- (Permutation_length Hperm). lia.
Qed.

(* ------------------------------------------------------------------ *)
(** ** The most common BHK, as shown *)

(** C4.  For a view that has rows (and a BHK column), the BHK value shown
    in the key metrics and in the insight list is a value of the view that
    no other value outnumbers, and among the values that occur equally
    often it is the smallest; for the BHK values 2, 2, 3, 3 it is 2. *)
Theorem C4_mode_smallest_most_frequent (self_df filtered_df : DataFrame) :
  rows filtered_df <> [] ->
  has_column "BHK" filtered_df = true ->
  let bhks := map BHK (rows filtered_df) in
  (exists m,
      common_bhk (display_key_metrics self_df filtered_df) = Some (BhkValue m)
      /\ (exists l, display_insights_summary filtered_df = Ok l
                    /\ In (PopularConfiguration (BhkValue m)) l)
      /\ In m bhks
      /\ (forall v, (count_Z v bhks <= count_Z m bhks)%nat)
      /\ (forall v, count_Z v bhks = count_Z m bhks -> (m <= v)%Z))
  /\ common_bhk_of [2; 2; 3; 3]%Z = BhkValue 2.
Proof.
  intros Hrows Hcol bhks. split; [| reflexivity].
  assert (Hne : bhks <> []).
  { unfold bhks. destruct (rows filtered_df); [congruence | discriminate]. }
  destruct (common_bhk_of_spec bhks Hne) as [m [E Hm]].
  exists m. split; [| split; [| exact Hm]].
  - unfold display_key_metrics; simpl. rewrite Hcol. fold bhks. now rewrite E.
  - destruct (insights_of_nonempty_view filtered_df Hrows) as [c [_ El]].
    eexists. split; [exact El|].
    rewrite Hcol. fold bhks. rewrite E.
    apply in_or_app; right. apply in_or_app; right. apply in_or_app; right.
    apply in_or_app; left. now left.
Qed.

Lemma C4_mode_smallest_most_frequent_witness :
  rows four_listings <> []
  /\ has_column "BHK" four_listings = true
  /\ exists m,
       common_bhk (display_key_metrics three_listings four_listings)
       = Some (BhkValue m)
       /\ forall v, count_Z v [3; 2; 3; 2]%Z = count_Z m [3; 2; 3; 2]%Z ->
                    (m <= v)%Z.
Proof.
  assert (H1 : rows four_listings <> []) by discriminate.
  assert (H2 : has_column "BHK" four_listings = true) by reflexivity.
  split; [exact H1|]. split; [exact H2|].
  destruct (C4_mode_smallest_most_frequent three_listings four_listings H1 H2)
    as [[m [E [_ [_ [_ Hmin]]]]] _].
  exists m. split; [exact E | exact Hmin].
Defined.

(* ------------------------------------------------------------------ *)
(** ** The view without rows *)

Lemma metrics_of_empty_view (self_df : DataFrame) (cols : list string) :
  let view := {| columns := cols; rows := [] |} in
  let m := display_key_metrics self_df view in
  avg_price m = NaN /\ avg_size m = NaN /\ avg_pps m = NaN
  /\ (has_column "BHK" view = true -> common_bhk m = Some NA).
Proof.
  intros view m. repeat split.
  intros H. unfold m, display_key_metrics, common_bhk. now rewrite H.
Qed.

Lemma insights_of_empty_view (cols : list string) :
  let view := {| columns := cols; rows := [] |} in
  display_insights_summary view
  = if has_column "City" view
    then Raise ValueError
    else Ok ((if has_column "BHK" view then [PopularConfiguration NA] else [])
             ++ [PriceRange NaN NaN NaN]).
Proof.
  intros view. unfold display_insights_summary.
  destruct (has_column "City" view); [reflexivity|].
  destruct (has_column "BHK" view); reflexivity.
Qed.

(** C3 (the code at an empty view).  Selecting city A and type Villa on
    the three listings leaves no row.  The three means of the key metrics
    are then NaN (and so are their deltas), the most common BHK is the text
    N/A, and the insight list is not produced: looking up the city with the
    highest mean price raises ValueError. *)
Theorem C3_empty_view_nan_and_exception :
  display_sidebar_filters three_listings city_A_villas = Some empty_view
  /\ avg_price (display_key_metrics three_listings empty_view) = NaN
  /\ avg_size (display_key_metrics three_listings empty_view) = NaN
  /\ avg_pps (display_key_metrics three_listings empty_view) = NaN
  /\ avg_price_delta (display_key_metrics three_listings empty_view) = Delta NaN
  /\ common_bhk (display_key_metrics three_listings empty_view) = Some NA
  /\ display_insights_summary empty_view = Raise ValueError.
Proof. repeat split. Qed.

(* ------------------------------------------------------------------ *)
(** ** The lists of the specification against the lists of the code *)

(** C7 (as stated, refuted).  In the three listings the price per square
    foot is the same everywhere; its diagonal entry is NaN, not 1. *)
Lemma C7_constant_column_breaks_unit_diagonal :
  exists m t,
    display_correlation_analysis three_listings = Some (m, t)
    /\ label m 2 = "Price_per_SqFt"%string
    /\ cell m 2 2 = NaN
    /\ ~ symmetric_unit_diagonal m.
Proof.
  eexists. eexists. split; [reflexivity|].
  split; [reflexivity|]. split; [reflexivity|].
  intros [_ H]. specialize (H 2%nat).
  assert (E : cell (DataFrame_corr (select_dtypes_number three_listings)) 2 2
              = Fin Surd.one) by (apply H; simpl; lia).
  vm_compute in E. discriminate E.
Qed.

Lemma C7_corr_symmetric_diagonal_one_or_nan_witness :
  let cols := select_dtypes_number three_listings in
  cell (DataFrame_corr cols) 2 2 = NaN
  /\ cell (DataFrame_corr cols) 0 0 = Fin Surd.one.
Proof.
  intros cols.
  destruct (C7_corr_symmetric_diagonal_one_or_nan cols) as [_ Hdiag].
  split.
  - apply (Hdiag 2%nat "Price_per_SqFt"%string
             (column Price_per_SqFt three_listings) eq_refl).
    intros x y Hx Hy. simpl in Hx, Hy.
    destruct Hx as [<- | [<- | [<- | []]]];
      destruct Hy as [<- | [<- | [<- | []]]]; reflexivity.
  - apply (Hdiag 0%nat "Price_in_Lakhs"%string
             (column Price_in_Lakhs three_listings) eq_refl).
    intros Hc.
    specialize (Hc 100 200 (or_introl eq_refl) (or_intror (or_introl eq_refl))).
    vm_compute in Hc. discriminate Hc.
Defined.

(** C8 (as stated, refuted).  On the four listings the first two entries
    of the top positive list are the same pair in its two orders. *)
Lemma C8_both_orders_listed :
  exists m t,
    display_correlation_analysis four_listings = Some (m, t)
    /\ nth_error (top_pos t) 0
       = Some (("Price_in_Lakhs", "Price_per_SqFt")%string, cell m 0 2)
    /\ nth_error (top_pos t) 1
       = Some (("Price_per_SqFt", "Price_in_Lakhs")%string, cell m 0 2)
    /\ ~ claimed_top5 t.
Proof.
  eexists. eexists. split; [reflexivity|].
  split; [vm_compute; reflexivity|]. split; [vm_compute; reflexivity|].
  intros [Hd _].
  eapply (Hd 0%nat 1%nat).
  - vm_compute. reflexivity.
  - vm_compute. reflexivity.
  - discriminate.
  - right. reflexivity.
Qed.

(** Size is ten times the price in the three listings: the coefficient of
    the two columns is 1, and the pair is in the top positive list in
    neither order. *)
Lemma proportional_columns_left_out :
  exists m t,
    display_correlation_analysis three_listings = Some (m, t)
    /\ cell m 0 1 = Fin Surd.one
    /\ forall e, In e (top_pos t) ->
                 fst e <> ("Price_in_Lakhs", "Size_in_SqFt")%string
                 /\ fst e <> ("Size_in_SqFt", "Price_in_Lakhs")%string.
Proof.
  eexists. eexists. split; [reflexivity|]. split; [reflexivity|].
  intros e He. vm_compute in He.
  repeat (destruct He as [<- | He]; [split; discriminate|]). destruct He.
Qed.

(* ------------------------------------------------------------------ *)
(** ** The theorems at the sample tables *)

Lemma C6_premium_fallback_and_formula_witness :
  let with_gym :=
    column Price_per_SqFt (select (has_amenity "Gym") four_listings) in
  let without_gym :=
    column Price_per_SqFt
      (select (fun r => negb (has_amenity "Gym" r)) four_listings) in
  exists row,
    In row (map (amenity_row four_listings) ["Gym"; "Pool"; "Garden"]%string)
    /\ Amenity row = "Gym"%string
    /\ Price_Premium row
       = Fin ((Qmean with_gym / Qmean without_gym - 1) * 100).
Proof.
  intros with_gym without_gym.
  destruct (C6_premium_fallback_and_formula four_listings _ "Gym"
              eq_refl (or_introl eq_refl))
    as [_ [_ Hrow]].
  destruct Hrow as [row [Hin [Hname [_ [_ [_ [_ Hformula]]]]]]];
    [discriminate|].
  exists row. split; [exact Hin|]. split; [exact Hname|].
  apply Hformula.
  - discriminate.
  - reflexivity.
Defined.

Lemma C10_unmatched_amenity_has_no_row_witness :
  amenity_analysis four_listings
  = Some (map (amenity_row four_listings) ["Gym"; "Pool"; "Garden"]%string)
  /\ ~ In "Lift"%string
         (map Amenity
              (map (amenity_row four_listings) ["Gym"; "Pool"; "Garden"]%string)).
Proof.
  split; [reflexivity|].
  destruct (C10_unmatched_amenity_has_no_row four_listings _ eq_refl)
    as [Hiff _].
  intros H. apply Hiff in H. destruct H as [_ [r [Hr Hm]]].
  destruct Hr as [<- | [<- | [<- | [<- | []]]]]; discriminate Hm.
Defined.

Lemma C9_insights_rule_order_witness :
  exists l,
    display_insights_summary four_listings = Ok l
    /\ (1 <= List.length l <= 5)%nat.
Proof.
  assert (H : rows four_listings <> []) by discriminate.
  destruct (C9_insights_rule_order four_listings H) as [l [E [Hlen _]]].
  exists l. split; [exact E | exact Hlen].
Defined.

(* ------------------------------------------------------------------ *)
(** ** The filter as an operation on views *)

Lemma filter_length_bound {A : Type} (f : A -> bool) (l : list A) :
  (List.length (filter f l) <= List.length l)%nat.
Proof.
  induction l as [| x tl IH]; simpl; [lia|]. destruct (f x); simpl; lia.
Qed.

Lemma filter_same_length {A : Type} (f : A -> bool) (l : list A) :
  List.length (filter f l) = List.length l -> filter f l = l.
Proof.
  induction l as [| x tl IH]; simpl; [reflexivity|].
  pose proof (filter_length_bound f tl) as Hb.
  destruct (f x); simpl; intros H; [f_equal; apply IH; lia | lia].
Qed.

Lemma filter_Subseq_weaker {A : Type} (f g : A -> bool) (l : list A) :
  (forall x, In x l -> f x = true -> g x = true) ->
  Subseq (filter f l) (filter g l).
Proof.
  induction l as [| x tl IH]; simpl; intros H; [constructor|].
  assert (IH' : Subseq (filter f tl) (filter g tl))
    by (apply IH; intros; apply H; auto).
  destruct (f x) eqn:Ef.
  - rewrite (H x (or_introl eq_refl) Ef). now constructor.
  - destruct (g x); [now constructor | assumption].
Qed.

Lemma select_select f g df :
  select g (select f df) = select (fun r => f r && g r) df.
Proof. unfold select; simpl. now rewrite filter_filter. Qed.

(** X1.  Filtering a view again: the result is the table filtered by both
    criteria at once, so the order of the two filters does not matter and
    filtering twice by the same criteria changes nothing. *)
Theorem filters_compose (df : DataFrame) (c1 c2 : FilterCriteria) :
  apply_filters (apply_filters df c1) c2
  = select (fun r => passes c1 r && passes c2 r) df
  /\ apply_filters (apply_filters df c1) c2
     = apply_filters (apply_filters df c2) c1
  /\ apply_filters (apply_filters df c1) c1 = apply_filters df c1.
Proof.
  rewrite !apply_filters_one_pass, !select_select.
  split; [reflexivity|]. split.
  - unfold select. f_equal. apply filter_ext. intros r. apply andb_comm.
  - unfold select. f_equal. apply filter_ext. intros r.
    now destruct (passes c1 r).
Qed.

Lemma narrower_satisfies c1 c2 r :
  narrower c1 c2 -> satisfies c1 r -> satisfies c2 r.
Proof.
  unfold narrower, satisfies.
  intros [[Hp1 Hp2] [[Hs1 Hs2] [Hc [Ht Hb]]]] [[P1 P2] [[S1 S2] [C [T B]]]].
  repeat split; try lra.
  - destruct Hc as [E | [Hne Hin]]; [now left | right].
    destruct C as [C | C]; [contradiction | now apply Hin].
  - destruct Ht as [E | [Hne Hin]]; [now left | right].
    destruct T as [T | T]; [contradiction | now apply Hin].
  - destruct Hb as [E | [Hne Hin]]; [now left | right].
    destruct B as [B | B]; [contradiction | now apply Hin].
Qed.

(** X2.  Tightening the criteria only drops rows: the view under the narrower
    criteria is a subsequence of the view under the wider ones, and it is
    also what the narrower criteria select from that wider view. *)
Theorem narrower_criteria_smaller_view (df : DataFrame)
    (c1 c2 : FilterCriteria) :
  narrower c1 c2 ->
  Subseq (rows (apply_filters df c1)) (rows (apply_filters df c2))
  /\ apply_filters (apply_filters df c2) c1 = apply_filters df c1.
Proof.
  intros Hn.
  assert (Himp : forall r, passes c1 r = true -> passes c2 r = true).
  { intros r H. apply passes_satisfies. apply passes_satisfies in H.
    eapply narrower_satisfies; eassumption. }
  rewrite !apply_filters_one_pass, select_select. split.
  - simpl. apply filter_Subseq_weaker. auto.
  - unfold select. f_equal. apply filter_ext. intros r.
    destruct (passes c1 r) eqn:E; [| apply andb_false_r].
    now rewrite (Himp r E).
Qed.

Lemma narrower_criteria_smaller_view_witness :
  let only_A := {| min_price := 50; max_price := 200;
                   min_size := 500; max_size := 2000;
                   selected_cities := ["A"%string];
                   selected_types := []; selected_bhk := [] |} in
  let anything := {| min_price := 0; max_price := 1000;
                     min_size := 0; max_size := 5000;
                     selected_cities := [];
                     selected_types := []; selected_bhk := [] |} in
  Subseq (rows (apply_filters three_listings only_A))
         (rows (apply_filters three_listings anything)).
Proof.
  intros only_A anything.
  apply (narrower_criteria_smaller_view three_listings only_A anything).
  unfold narrower, only_A, anything; simpl.
  repeat split; try (now left); vm_compute; discriminate.
Defined.

(* ------------------------------------------------------------------ *)
(** ** The sidebar method with its column look-ups *)

Lemma guarded_step {A : Type} (name : string) (sel : list A)
    (mask : PropertyRecord -> bool) (df0 df : DataFrame) :
  columns df = columns df0 ->
  let chosen := if has_column name df0 then sel else [] in
  (if truthy chosen then select_on name mask df else Ok df)
  = Ok (if truthy chosen then select mask df else df).
Proof.
  intros Hc chosen. subst chosen.
  destruct (has_column name df0) eqn:E; [| reflexivity].
  destruct (truthy sel); [| reflexivity].
  unfold select_on, require_column, has_column in *. rewrite Hc, E. reflexivity.
Qed.

Lemma select_on_ok name mask df :
  has_column name df = true -> select_on name mask df = Ok (select mask df).
Proof. intros H. unfold select_on, require_column. now rewrite H. Qed.

(** With the two columns the sliders read, the method goes through. *)
Lemma checked_with_required_columns df w :
  empty df = false ->
  has_column "Price_in_Lakhs" df = true ->
  has_column "Size_in_SqFt" df = true ->
  display_sidebar_filters_checked df w
  = Ok (Some (apply_filters df (read_widgets df w),
              {| stat_properties := len (apply_filters df (read_widgets df w));
                 stat_filtered_percent :=
                   option_map (fun x => format_1f (x * 100))
                     (truediv (len (apply_filters df (read_widgets df w)))
                              (len df)) |})).
Proof.
  intros He Hp Hs.
  unfold display_sidebar_filters_checked. rewrite He.
  unfold require_column. rewrite Hp, Hs. cbn [bind]. cbv zeta.
  rewrite (select_on_ok "Price_in_Lakhs") by exact Hp. cbn [bind].
  rewrite (select_on_ok "Size_in_SqFt") by exact Hs. cbn [bind].
  unfold read_widgets. cbn [selected_cities selected_types selected_bhk
                            min_price max_price min_size max_size].
  rewrite (guarded_step "City" (cities_multiselect w) _ df) by reflexivity.
  cbn [bind].
  rewrite (guarded_step "Property_Type" (types_multiselect w) _ df)
    by (destruct (truthy _); reflexivity).
  cbn [bind].
  rewrite (guarded_step "BHK" (bhk_multiselect w) _ df)
    by (repeat (destruct (truthy _)); reflexivity).
  cbn [bind]. reflexivity.
Qed.

Lemma has_column_columns name df : has_column name df = true -> columns df <> [].
Proof.
  unfold has_column. destruct (columns df); [discriminate | discriminate].
Qed.

Lemma empty_false df : empty df = false <-> rows df <> [] /\ columns df <> [].
Proof.
  unfold empty. rewrite orb_false_iff, !negb_false_iff.
  destruct (rows df), (columns df); simpl; split; intros [H1 H2];
    (split; congruence).
Qed.

(** X3.  On a table that is not empty the sidebar method raises KeyError exactly
    when one of the two columns read by the sliders is missing: a missing
    City, Property_Type or BHK column never raises, its filter step is
    skipped.  Without an exception the method returns the filtered view of
    [display_sidebar_filters]; on an empty table it returns nothing. *)
Theorem sidebar_KeyError_iff_slider_column_missing (df : DataFrame) (w : Widgets) :
  (empty df = true -> display_sidebar_filters_checked df w = Ok None)
  /\ (empty df = false ->
      (display_sidebar_filters_checked df w = Raise KeyError <->
       has_column "Price_in_Lakhs" df = false
       \/ has_column "Size_in_SqFt" df = false)
      /\ (has_column "Price_in_Lakhs" df = true ->
          has_column "Size_in_SqFt" df = true ->
          exists st,
            display_sidebar_filters_checked df w
            = Ok (Some (apply_filters df (read_widgets df w), st))
            /\ display_sidebar_filters df w
               = Some (apply_filters df (read_widgets df w)))).
Proof.
  split.
  - intros He. unfold display_sidebar_filters_checked. now rewrite He.
  - intros He. split.
    + destruct (has_column "Price_in_Lakhs" df) eqn:Hp.
      * destruct (has_column "Size_in_SqFt" df) eqn:Hs.
        -- rewrite (checked_with_required_columns df w He Hp Hs).
           split; [discriminate | intros [H | H]; discriminate].
        -- unfold display_sidebar_filters_checked, require_column.
           rewrite He, Hp, Hs. cbn [bind]. split; auto.
      * unfold display_sidebar_filters_checked, require_column.
        rewrite He, Hp. cbn [bind]. split; auto.
    + intros Hp Hs. eexists. split.
      * apply (checked_with_required_columns df w He Hp Hs).
      * unfold display_sidebar_filters. apply empty_false in He.
        destruct He as [Hr _]. destruct (rows df); [congruence | reflexivity].
Qed.

Lemma sidebar_KeyError_iff_slider_column_missing_witness :
  exists st,
    display_sidebar_filters_checked
      {| columns := ["Price_in_Lakhs"; "Size_in_SqFt"]%string;
         rows := rows three_listings |} city_A_villas
    = Ok (Some ({| columns := ["Price_in_Lakhs"; "Size_in_SqFt"]%string;
                   rows := rows three_listings |}, st)).
Proof.
  destruct (sidebar_KeyError_iff_slider_column_missing
              {| columns := ["Price_in_Lakhs"; "Size_in_SqFt"]%string;
                 rows := rows three_listings |} city_A_villas)
    as [_ H].
  destruct (H eq_refl) as [_ Hok].
  destruct (Hok eq_refl eq_refl) as [st [E _]].
  exists st. exact E.
Defined.

Lemma checked_without_slider_column df w :
  empty df = false ->
  has_column "Price_in_Lakhs" df = false
  \/ has_column "Size_in_SqFt" df = false ->
  display_sidebar_filters_checked df w = Raise KeyError.
Proof.
  intros He H. unfold display_sidebar_filters_checked, require_column.
  rewrite He.
  destruct (has_column "Price_in_Lakhs" df) eqn:Hp; [| reflexivity].
  destruct H as [H | H]; [discriminate|]. now rewrite H.
Qed.

Lemma inject_nat_le (a b : nat) :
  (a <= b)%nat -> inject_Z (Z.of_nat a) <= inject_Z (Z.of_nat b).
Proof. intros H. rewrite <- Zle_Qle. lia. Qed.

Lemma inject_nat_eq (a b : nat) :
  inject_Z (Z.of_nat a) == inject_Z (Z.of_nat b) <-> a = b.
Proof.
  split; [| now intros ->].
  intros H. rewrite inject_Z_injective in H. now apply Nat2Z.inj.
Qed.

Lemma select_same_length f df :
  len (select f df) = len df -> select f df = df.
Proof.
  unfold len, select; simpl. intros H. apply filter_same_length in H.
  destruct df as [cs rs]; simpl in *. now rewrite H.
Qed.

(** The tenths shown are the nearest to ten times the value. *)
Lemma format_1f_near (x : Q) :
  x * 10 - (1 # 2) <= inject_Z (format_1f x)
  /\ inject_Z (format_1f x) <= x * 10 + (1 # 2).
Proof.
  unfold format_1f.
  pose proof (Qfloor_le (x * 10)) as Hlo.
  pose proof (Qlt_floor (x * 10)) as Hhi.
  rewrite inject_Z_plus in Hhi. change (inject_Z 1) with 1 in Hhi.
  set (y := x * 10) in *. set (f := Qfloor y) in *.
  destruct (Qltb (y - inject_Z f) (1 # 2)) eqn:L1.
  - apply Qltb_lt in L1. split; lra.
  - assert (H1 : ~ y - inject_Z f < 1 # 2).
    { intros H. apply Qltb_lt in H. congruence. }
    destruct (Qltb (1 # 2) (y - inject_Z f)) eqn:L2.
    + rewrite inject_Z_plus. change (inject_Z 1) with 1. split; lra.
    + assert (H2 : ~ 1 # 2 < y - inject_Z f).
      { intros H. apply Qltb_lt in H. congruence. }
      destruct (Z.even f).
      * split; lra.
      * rewrite inject_Z_plus. change (inject_Z 1) with 1. split; lra.
Qed.

(** What is shown for a share [a / b * 100] with [a <= b]. *)
Lemma format_1f_share (a b : Z) :
  (0 <= a <= b)%Z -> (0 < b)%Z ->
  let t := format_1f (inject_Z a / inject_Z b * 100) in
  (0 <= t <= 1000)%Z
  /\ (a = b -> t = 1000%Z)
  /\ (a = 0%Z -> t = 0%Z)
  /\ (t = 1000%Z -> (1999 * b <= 2000 * a)%Z)
  /\ ((1999 * b < 2000 * a)%Z -> t = 1000%Z)
  /\ (t = 0%Z -> (2000 * a <= b)%Z)
  /\ ((2000 * a < b)%Z -> t = 0%Z).
Proof.
  intros Hab Hb t.
  destruct (format_1f_near (inject_Z a / inject_Z b * 100)) as [Hlo Hhi].
  fold t in Hlo, Hhi.
  assert (Hqb : 0 < inject_Z b).
  { change 0 with (inject_Z 0). rewrite <- Zlt_Qlt. lia. }
  assert (Hqa : 0 <= inject_Z a).
  { change 0 with (inject_Z 0). rewrite <- Zle_Qle. lia. }
  assert (Hqab : inject_Z a <= inject_Z b) by (rewrite <- Zle_Qle; lia).
  assert (Hdiv : inject_Z a / inject_Z b * inject_Z b == inject_Z a)
    by (field; lra).
  assert (H0 : 0 <= inject_Z a / inject_Z b).
  { apply Qle_shift_div_l; [exact Hqb | lra]. }
  assert (H1 : inject_Z a / inject_Z b <= 1).
  { apply Qle_shift_div_r; [exact Hqb | lra]. }
  set (qa := inject_Z a) in *. set (qb := inject_Z b) in *.
  set (q := qa / qb) in *.
  assert (Hint : forall m n : Z, inject_Z m < inject_Z n + 1 -> (m <= n)%Z).
  { intros m n H. change 1 with (inject_Z 1) in H.
    rewrite <- inject_Z_plus, <- Zlt_Qlt in H. lia. }
  assert (Ht0 : (0 <= t)%Z).
  { apply (Hint 0%Z t). change (inject_Z 0) with 0. lra. }
  assert (Ht1 : (t <= 1000)%Z).
  { apply (Hint t 1000%Z). change (inject_Z 1000) with 1000. lra. }
  assert (Hup : 1999 * qb < 2000 * qa -> t = 1000%Z).
  { intros H. assert (Hq : 1999 < 2000 * q) by nra.
    assert (Hge : (1000 <= t)%Z).
    { apply (Hint 1000%Z t). change (inject_Z 1000) with 1000. lra. }
    lia. }
  assert (Hdown : 2000 * qa < qb -> t = 0%Z).
  { intros H. assert (Hq : 2000 * q < 1) by nra.
    assert (Hle : (t <= 0)%Z).
    { apply (Hint t 0%Z). change (inject_Z 0) with 0. lra. }
    lia. }
  assert (Hscale : forall m n : Z,
             (m * b < n * a)%Z -> inject_Z m * qb < inject_Z n * qa).
  { intros m n H. unfold qa, qb. rewrite <- !inject_Z_mult, <- Zlt_Qlt.
    exact H. }
  split; [lia|]. split; [| split; [| split; [| split; [| split]]]].
  - intros E. apply Hup.
    assert (Eq : qa == qb) by (unfold qa, qb; now rewrite E). lra.
  - intros E. apply Hdown.
    assert (Eq : qa == 0) by (unfold qa; now rewrite E). lra.
  - intros E. rewrite E in Hhi. change (inject_Z 1000) with 1000 in Hhi.
    assert (Hq1 : 1999 <= 2000 * q) by lra.
    assert (Hq : 1999 * qb <= 2000 * qa) by nra.
    unfold qa, qb in Hq.
    change 1999 with (inject_Z 1999) in Hq.
    change 2000 with (inject_Z 2000) in Hq.
    rewrite <- !inject_Z_mult, <- Zle_Qle in Hq. exact Hq.
  - intros H. apply Hup.
    change 1999 with (inject_Z 1999). change 2000 with (inject_Z 2000).
    now apply Hscale.
  - intros E. rewrite E in Hlo. change (inject_Z 0) with 0 in Hlo.
    assert (Hq1 : 2000 * q <= 1) by lra.
    assert (Hq : 2000 * qa <= qb) by nra.
    unfold qa, qb in Hq. change 2000 with (inject_Z 2000) in Hq.
    rewrite <- inject_Z_mult, <- Zle_Qle in Hq. exact Hq.
  - intros H. apply Hdown.
    assert (H' : inject_Z 2000 * qa < inject_Z 1 * qb).
    { unfold qa, qb. rewrite <- !inject_Z_mult, <- Zlt_Qlt. lia. }
    change (inject_Z 2000) with 2000 in H'. change (inject_Z 1) with 1 in H'.
    lra.
Qed.

(** X4.  The statistics under the filters: the number shown is the number of
    rows of the view, never more than the table has; the division cannot
    fail; the percentage is shown with one decimal, within 0.05 of the
    share, from 0.0 to 100.0.  It reads 100.0 when no row was filtered
    out, and also once fewer than one row in 2000 was; it reads 0.0 for an
    empty view, and also once less than one row in 2000 is left.  (Shares
    exactly half way between two decimals are left open: there the digit
    depends on the rounding of the division.) *)
Theorem filter_stats_bounds (df : DataFrame) (w : Widgets)
    (view : DataFrame) (st : FilterStats) :
  display_sidebar_filters_checked df w = Ok (Some (view, st)) ->
  let shown := len view in
  let total := len df in
  let share :=
    inject_Z (Z.of_nat shown) / inject_Z (Z.of_nat total) * 100 in
  stat_properties st = shown
  /\ (shown <= total)%nat
  /\ (0 < total)%nat
  /\ exists tenths,
       stat_filtered_percent st = Some tenths
       /\ (0 <= tenths <= 1000)%Z
       /\ share - (1 # 20) <= inject_Z tenths / 10
       /\ inject_Z tenths / 10 <= share + (1 # 20)
       /\ (view = df -> tenths = 1000%Z)
       /\ (rows view = [] -> tenths = 0%Z)
       /\ (tenths = 1000%Z -> (1999 * total <= 2000 * shown)%nat)
       /\ ((1999 * total < 2000 * shown)%nat -> tenths = 1000%Z)
       /\ (tenths = 0%Z -> (2000 * shown <= total)%nat)
       /\ ((2000 * shown < total)%nat -> tenths = 0%Z).
Proof.
  intros H.
  destruct (empty df) eqn:He.
  { unfold display_sidebar_filters_checked in H. rewrite He in H. discriminate. }
  destruct (has_column "Price_in_Lakhs" df) eqn:Hp.
  2:{ rewrite (checked_without_slider_column df w He (or_introl Hp)) in H.
      discriminate. }
  destruct (has_column "Size_in_SqFt" df) eqn:Hs.
  2:{ rewrite (checked_without_slider_column df w He (or_intror Hs)) in H.
      discriminate. }
  rewrite (checked_with_required_columns df w He Hp Hs) in H.
  injection H as <- <-. cbn [stat_properties stat_filtered_percent].
  rewrite apply_filters_one_pass.
  set (view := select (passes (read_widgets df w)) df).
  set (shown := len view). set (total := len df).
  set (share :=
         inject_Z (Z.of_nat shown) / inject_Z (Z.of_nat total) * 100).
  assert (Hle : (shown <= total)%nat) by apply filter_length_bound.
  apply empty_false in He. destruct He as [Hr _].
  assert (Hpos : (0 < total)%nat).
  { unfold total, len. destruct (rows df); [congruence | simpl; lia]. }
  split; [reflexivity|]. split; [exact Hle|]. split; [exact Hpos|].
  unfold truediv.
  destruct (total =? 0)%nat eqn:E0.
  { apply Nat.eqb_eq in E0. lia. }
  cbn [option_map]. fold share.
  exists (format_1f share). split; [reflexivity|].
  destruct (format_1f_near share) as [Hlo Hhi].
  destruct (format_1f_share (Z.of_nat shown) (Z.of_nat total))
    as [Hb [H100 [H0 [Hmax [Hmax' [Hmin Hmin']]]]]]; [lia | lia |].
  fold share in Hb, H100, H0, Hmax, Hmax', Hmin, Hmin'.
  split; [exact Hb|].
  split; [| split].
  { apply Qle_shift_div_l; [reflexivity | lra]. }
  { apply Qle_shift_div_r; [reflexivity | lra]. }
  split; [| split; [| split; [| split; [| split]]]].
  - intros E. apply H100. f_equal. unfold shown, total. now rewrite E.
  - intros E. apply H0. unfold shown, len. now rewrite E.
  - intros E. apply Hmax in E. lia.
  - intros E. apply Hmax'. lia.
  - intros E. apply Hmin in E. lia.
  - intros E. apply Hmin'. lia.
Qed.

Lemma filter_stats_bounds_witness :
  exists st,
    display_sidebar_filters_checked three_listings city_A_villas
    = Ok (Some (empty_view, st))
    /\ stat_properties st = 0%nat
    /\ stat_filtered_percent st = Some 0%Z.
Proof.
  eexists. split; [reflexivity|].
  destruct (filter_stats_bounds three_listings city_A_villas empty_view _ eq_refl)
    as [E [_ [_ [tenths [Et [_ [_ [_ [_ [H0 _]]]]]]]]]].
  split; [exact E|].
  rewrite Et. f_equal. now apply H0.
Defined.

(** X5.  In [run] the key metrics are computed on the view the sidebar returns.
    The count shown never exceeds the size of the table, its delta is never
    positive, and the deltas are left out exactly when the filters removed
    no row, that is when the view is the table itself. *)
Theorem run_count_delta_never_positive (df : DataFrame) (w : Widgets)
    (view : DataFrame) :
  display_sidebar_filters df w = Some view ->
  let m := display_key_metrics df view in
  (total_properties m <= len df)%nat
  /\ (forall d, total_properties_delta m = Delta d -> (d < 0)%Z)
  /\ (total_properties_delta m = NoDelta <-> view = df)
  /\ (view = df ->
      avg_price_delta m = NoDelta /\ avg_size_delta m = NoDelta
      /\ avg_pps_delta m = NoDelta).
Proof.
  intros H m.
  assert (Hv : view = select (passes (read_widgets df w)) df).
  { unfold display_sidebar_filters in H.
    destruct (rows df); [discriminate|]. injection H as <-.
    apply apply_filters_one_pass. }
  assert (Hle : (len view <= len df)%nat)
    by (rewrite Hv; apply filter_length_bound).
  subst m. unfold display_key_metrics.
  cbn [total_properties total_properties_delta avg_price_delta
       avg_size_delta avg_pps_delta].
  split; [exact Hle|].
  destruct (Nat.eqb (len view) (len df)) eqn:E; simpl.
  - apply Nat.eqb_eq in E. split; [discriminate|]. split; [| auto].
    split; [intros _ | reflexivity].
    rewrite Hv in E |- *. now apply select_same_length.
  - apply Nat.eqb_neq in E. split.
    + intros d [= <-]. lia.
    + split; [split; [discriminate | intros ->; congruence]|].
      intros ->. congruence.
Qed.

Lemma run_count_delta_never_positive_witness :
  total_properties_delta (display_key_metrics three_listings empty_view)
  <> NoDelta.
Proof.
  destruct (run_count_delta_never_positive three_listings city_A_villas
              empty_view eq_refl) as [_ [_ [Hiff _]]].
  intros E. apply Hiff in E. discriminate E.
Defined.

(* ------------------------------------------------------------------ *)
(** ** The coefficients: range and entries of the matrix *)

Lemma dot_cons a l b m : dot (a :: l) (b :: m) = a * b + dot l m.
Proof. reflexivity. Qed.

Lemma dot_nil_r l : dot l [] = 0.
Proof. destruct l; reflexivity. Qed.

Lemma dot_self_nonneg l : 0 <= dot l l.
Proof. rewrite dot_self. apply Qsum_sq_nonneg. Qed.

Lemma Qsquare_nonneg (x : Q) : 0 <= x * x.
Proof. nra. Qed.

Lemma cauchy_schwarz_step (a b A B C : Q) :
  0 <= A -> 0 <= B -> C * C <= A * B ->
  (a * b + C) * (a * b + C) <= (a * a + A) * (b * b + B).
Proof.
  intros HA HB Hcs.
  assert (HX : 0 <= A * (b * b) + B * (a * a) - 2 * (a * b * C)).
  { destruct (Qlt_le_dec 0 A) as [Hpos | Hzero].
    - pose proof (Qsquare_nonneg (A * b - a * C)) as H1.
      pose proof (Qsquare_nonneg a) as Ha.
      assert (H2 : 0 <= a * a * (A * B - C * C)).
      { apply Qmult_le_0_compat; lra. }
      assert (H3 : 0 <= A * (A * (b * b) + B * (a * a) - 2 * (a * b * C))).
      { setoid_replace (A * (A * (b * b) + B * (a * a) - 2 * (a * b * C)))
          with ((A * b - a * C) * (A * b - a * C) + a * a * (A * B - C * C))
          by ring.
        lra. }
      destruct (Qlt_le_dec (A * (b * b) + B * (a * a) - 2 * (a * b * C)) 0)
        as [Hneg | Hok]; [| exact Hok].
      exfalso.
      assert (A * (A * (b * b) + B * (a * a) - 2 * (a * b * C)) < 0).
      { setoid_replace 0 with (A * 0) by ring.
        apply Qmult_lt_l; assumption. }
      lra.
    - assert (EA : A == 0) by lra.
      assert (EC : C == 0).
      { pose proof (Qsquare_nonneg C) as HC.
        assert (E : C * C == 0) by (rewrite EA in Hcs; lra).
        apply Qmult_integral in E. tauto. }
      rewrite EA, EC.
      pose proof (Qsquare_nonneg a) as Ha.
      assert (0 <= B * (a * a)) by (apply Qmult_le_0_compat; lra).
      lra. }
  setoid_replace ((a * a + A) * (b * b + B))
    with ((a * b + C) * (a * b + C) + (A * B - C * C)
          + (A * (b * b) + B * (a * a) - 2 * (a * b * C))) by ring.
  lra.
Qed.

(** Cauchy-Schwarz for the sums the coefficient is made of. *)
Lemma dot_cauchy_schwarz l : forall m,
  dot l m * dot l m <= dot l l * dot m m.
Proof.
  induction l as [| a l IH]; intros m.
  - change (dot [] m) with 0. change (dot [] []) with 0. lra.
  - destruct m as [| b m].
    + rewrite dot_nil_r. change (dot [] []) with 0.
      pose proof (dot_self_nonneg (a :: l)). lra.
    + rewrite !dot_cons.
      apply cauchy_schwarz_step;
        [apply dot_self_nonneg | apply dot_self_nonneg | apply IH].
Qed.

Lemma Qabs_mul_self x : x * Qabs x <= x * x /\ - (x * x) <= x * Qabs x.
Proof.
  destruct (Qlt_le_dec x 0) as [Hneg | Hpos].
  - rewrite (Qabs_neg x) by lra. split; nra.
  - rewrite (Qabs_pos x) by lra. split; nra.
Qed.

(** A coefficient that is not NaN lies between -1 and 1. *)
Lemma pearson_range xs ys r :
  pearson xs ys = Fin r ->
  Surd.leb (Surd.of_Q (-1)) r = true /\ Surd.leb r Surd.one = true.
Proof.
  unfold pearson.
  pose proof (dot_cauchy_schwarz (deviations xs) (deviations ys)) as Hcs.
  pose proof (ssqdm_nonneg xs) as Hx. pose proof (ssqdm_nonneg ys) as Hy.
  set (cov := dot (deviations xs) (deviations ys)) in *.
  set (ssx := dot (deviations xs) (deviations xs)) in *.
  set (ssy := dot (deviations ys) (deviations ys)) in *.
  destruct (List.length xs <? 1)%nat; [discriminate|].
  destruct (Qeq_bool (ssx * ssy) 0) eqn:E; [discriminate|].
  intros [= <-]. apply Qeq_bool_neq in E.
  assert (HP : 0 < ssx * ssy).
  { assert (0 <= ssx * ssy) by nra. lra. }
  destruct (Qabs_mul_self cov) as [Hup Hlow].
  unfold Surd.leb, Surd.one, Surd.of_Q, Surd.ratio; cbn [Surd.ssq].
  rewrite !Qle_bool_iff, !Qred_correct.
  change (Qabs (-1)) with 1. change (Qabs 1) with 1.
  split.
  - apply Qle_shift_div_l; [exact HP | lra].
  - apply Qle_shift_div_r; [exact HP | lra].
Qed.

Lemma Qmult_comm_eq (a b : Q) : a * b = b * a.
Proof.
  destruct a as [an ad], b as [bn bd]. unfold Qmult; simpl.
  f_equal; [apply Z.mul_comm | apply Pos.mul_comm].
Qed.

Lemma dot_comm l : forall m, dot l m = dot m l.
Proof.
  induction l as [| a l IH]; intros m.
  - now rewrite dot_nil_r.
  - destruct m as [| b m]; [reflexivity|].
    rewrite !dot_cons, IH. f_equal. apply Qmult_comm_eq.
Qed.

(** The coefficient does not depend on the order of the two series. *)
Lemma pearson_sym xs ys :
  List.length xs = List.length ys -> pearson xs ys = pearson ys xs.
Proof.
  intros Hl. unfold pearson. rewrite Hl.
  rewrite (dot_comm (deviations xs) (deviations ys)).
  rewrite (Qmult_comm_eq (dot (deviations xs) (deviations xs))).
  reflexivity.
Qed.

Lemma cell_is_pearson cols i j n1 xs n2 ys :
  nth_error cols i = Some (n1, xs) ->
  nth_error cols j = Some (n2, ys) ->
  List.length xs = List.length ys ->
  cell (DataFrame_corr cols) i j = pearson xs ys.
Proof.
  intros Hi Hj Hl.
  assert (Li : (i < List.length cols)%nat) by (apply nth_error_Some; congruence).
  assert (Lj : (j < List.length cols)%nat) by (apply nth_error_Some; congruence).
  rewrite cell_DataFrame_corr.
  apply Nat.ltb_lt in Li, Lj. rewrite Li, Lj. simpl.
  unfold corr_entry.
  rewrite (nth_error_nth _ _ _ Hi), (nth_error_nth _ _ _ Hj). simpl.
  destruct (j <=? i)%nat; [reflexivity | now apply pearson_sym].
Qed.

Lemma cell_of_matrix_cases cols i j :
  cell (DataFrame_corr cols) i j = NaN
  \/ exists a b, cell (DataFrame_corr cols) i j = pearson a b.
Proof.
  rewrite cell_DataFrame_corr.
  destruct ((i <? List.length cols) && (j <? List.length cols))%nat;
    [| now left].
  right. unfold corr_entry.
  destruct (j <=? i)%nat; eexists; eexists; reflexivity.
Qed.

(** X6.  Every entry of the matrix computed by [corr()] is NaN or lies between
    -1 and 1.  So the test [corr_pairs < 1] removes exactly the entries
    that are NaN or equal to 1. *)
Theorem corr_entries_between_minus_one_and_one (cols : list (string * list Q)) :
  let m := DataFrame_corr cols in
  (forall i j r,
      cell m i j = Fin r ->
      Surd.leb (Surd.of_Q (-1)) r = true /\ Surd.leb r Surd.one = true)
  /\ (forall e,
        In e (unstack m) ->
        (below_one e = false <-> snd e = NaN \/ snd e = Fin Surd.one)).
Proof.
  intros m.
  assert (Hrange : forall i j r,
             cell m i j = Fin r ->
             Surd.leb (Surd.of_Q (-1)) r = true /\ Surd.leb r Surd.one = true).
  { intros i j r H. destruct (cell_of_matrix_cases cols i j) as [E | [a [b E]]].
    - fold m in E. congruence.
    - fold m in E. rewrite E in H. now apply pearson_range in H. }
  split; [exact Hrange|].
  intros [[a b] c] He. apply unstack_In in He.
  destruct He as [i [j [_ [_ [_ [_ ->]]]]]]. simpl.
  unfold below_one, slt; simpl.
  destruct (cell_of_matrix_cases cols i j) as [E | [xs [ys E]]]; fold m in E.
  - rewrite E. split; [now left | reflexivity].
  - destruct (cell m i j) as [| r] eqn:Ec.
    + split; [now left | reflexivity].
    + destruct (Hrange i j r Ec) as [_ Hle].
      fold Surd.one. unfold Surd.ltb, Surd.leb, Qltb in *.
      rewrite negb_false_iff. split.
      * intros Hge. right. f_equal.
        apply Qle_bool_iff in Hge, Hle.
        assert (Heq : Surd.ssq r == Surd.ssq Surd.one) by lra.
        symmetry in E. unfold pearson in E.
        destruct (List.length xs <? 1)%nat; [discriminate|].
        destruct (Qeq_bool _ 0); [discriminate|].
        injection E as E. subst r. unfold Surd.ratio in *.
        cbn [Surd.ssq] in Heq. rewrite Qred_correct in Heq.
        apply Qred_complete in Heq. rewrite Heq. reflexivity.
      * intros [H | H]; [discriminate|]. injection H as ->.
        reflexivity.
Qed.

Lemma select_dtypes_In df name xs :
  In (name, xs) (select_dtypes_number df) ->
  exists f, assoc name numeric_schema = Some f /\ xs = column f df.
Proof.
  unfold select_dtypes_number. rewrite in_flat_map.
  intros [n [_ H]]. destruct (assoc n numeric_schema) as [f |] eqn:E.
  - destruct H as [H | []]. injection H as <- <-. now exists f.
  - destruct H.
Qed.

Lemma select_dtypes_length df name xs :
  In (name, xs) (select_dtypes_number df) -> List.length xs = len df.
Proof.
  intros H. apply select_dtypes_In in H. destruct H as [f [_ ->]].
  unfold column, len. apply length_map.
Qed.

(* ------------------------------------------------------------------ *)
(** ** Views too small or too flat for the first two insights *)

Lemma constant_short xs : (List.length xs < 2)%nat -> constant xs.
Proof.
  destruct xs as [| a [| b tl]]; simpl; intros H; try lia.
  - intros x y [].
  - intros x y [<- | []] [<- | []]. reflexivity.
Qed.

Lemma pearson_constant_l xs ys : constant xs -> pearson xs ys = NaN.
Proof.
  intros Hc. apply ssqdm_zero_iff_constant in Hc. unfold pearson.
  destruct (List.length xs <? 1)%nat; [reflexivity|].
  destruct (Qeq_bool _ 0) eqn:E; [reflexivity|].
  apply Qeq_bool_neq in E. exfalso. apply E. rewrite Hc. ring.
Qed.

Lemma zero_out_fperr_zero x : x == 0 -> zero_out_fperr x = 0.
Proof.
  intros E. unfold zero_out_fperr.
  destruct (Qltb (Qabs x) (1 # 100000000000000)) eqn:L; [reflexivity|].
  exfalso. assert (Hlt : Qabs x < 1 # 100000000000000).
  { rewrite E. reflexivity. }
  apply Qltb_lt in Hlt. congruence.
Qed.

(** The skewness never passes the threshold of the first rule on a series
    that is short or constant. *)
Lemma skew_below_threshold xs :
  (List.length xs < 3)%nat \/ constant xs ->
  sgt (sabs (Series_skew xs)) 1 = false.
Proof.
  intros H. unfold Series_skew.
  destruct (List.length xs <? 3)%nat eqn:En; [reflexivity|].
  destruct H as [H | H]; [apply Nat.ltb_ge in En; lia|].
  apply ssqdm_zero_iff_constant in H. rewrite dot_self in H.
  rewrite (zero_out_fperr_zero _ H). reflexivity.
Qed.

(** On a view with rows: the list, and where each insight comes from. *)
Lemma insights_membership (df : DataFrame) :
  rows df <> [] ->
  let price_skew := Series_skew (column Price_in_Lakhs df) in
  let size_price_corr :=
    Series_corr (column Size_in_SqFt df) (column Price_in_Lakhs df) in
  exists l,
    display_insights_summary df = Ok l
    /\ (forall side s, In (PriceDistribution side s) l ->
                       sgt (sabs price_skew) 1 = true)
    /\ (forall kind c, In (SizePriceRelationship kind c) l ->
                       sgt size_price_corr (1 # 2) = true
                       \/ slt size_price_corr 0 = true).
Proof.
  intros Hne price_skew size_price_corr.
  destruct (insights_of_nonempty_view df Hne) as [top_city [_ El]].
  fold price_skew size_price_corr in El.
  eexists. split; [exact El|]. split.
  - intros side s H.
    destruct (sgt (sabs price_skew) 1); [reflexivity|].
    exfalso. simpl in H.
    repeat (apply in_app_or in H; destruct H as [H | H]);
      repeat match goal with
             | H : In _ (if ?b then _ else _) |- _ => destruct b
             | H : In _ (_ :: _) |- _ => destruct H as [H | H]; try discriminate H
             | H : In _ [] |- _ => destruct H
             end.
  - intros kind c H.
    destruct (sgt size_price_corr (1 # 2)); [now left|].
    destruct (slt size_price_corr 0); [now right|].
    exfalso. simpl in H.
    repeat (apply in_app_or in H; destruct H as [H | H]);
      repeat match goal with
             | H : In _ (if ?b then _ else _) |- _ => destruct b
             | H : In _ (_ :: _) |- _ => destruct H as [H | H]; try discriminate H
             | H : In _ [] |- _ => destruct H
             end.
Qed.

(** X8.  When the insight list is produced at all: a view of fewer than three
    rows gets no price-distribution insight (the skewness is NaN), and
    neither does a view in which all prices are equal (the sum of squared
    deviations is below the 1e-14 that pandas treats as zero, the skewness
    is 0); a view of fewer than two rows gets no size-price insight (the
    correlation of a single observation is NaN). *)
Theorem flat_or_small_view_insights (df : DataFrame) (l : list Insight) :
  display_insights_summary df = Ok l ->
  ((List.length (rows df) < 3)%nat \/ constant (column Price_in_Lakhs df) ->
   forall side s, ~ In (PriceDistribution side s) l)
  /\ ((List.length (rows df) < 2)%nat ->
      forall kind c, ~ In (SizePriceRelationship kind c) l).
Proof.
  intros Hl.
  destruct (rows df) as [| r0 rs] eqn:Er.
  - destruct df as [cs rws]. simpl in Er. subst rws.
    rewrite (insights_of_empty_view cs) in Hl.
    destruct (has_column "City" _); [discriminate|].
    injection Hl as <-. split; intros _ ? ? H;
      destruct (has_column "BHK" _); simpl in H;
      repeat (destruct H as [H | H]; try discriminate H); destruct H.
  - assert (Hne : rows df <> []) by (rewrite Er; discriminate).
    destruct (insights_membership df Hne) as [l' [El [H1 H2]]].
    assert (l' = l) by congruence. subst l'.
    assert (Hlen : forall f, List.length (column f df) = List.length (r0 :: rs)).
    { intros f. unfold column. now rewrite length_map, Er. }
    split.
    + intros Hc side s Hin. apply H1 in Hin.
      rewrite skew_below_threshold in Hin; [discriminate|].
      destruct Hc as [Hc | Hc]; [left; now rewrite Hlen | now right].
    + intros Hc kind c Hin. apply H2 in Hin.
      assert (E : Series_corr (column Size_in_SqFt df)
                              (column Price_in_Lakhs df) = NaN).
      { unfold Series_corr. apply pearson_constant_l, constant_short.
        now rewrite Hlen. }
      rewrite E in Hin. destruct Hin; discriminate.
Qed.

Lemma flat_or_small_view_insights_witness :
  let two := {| columns := sample_columns;
                rows := firstn 2 (rows three_listings) |} in
  exists l,
    display_insights_summary two = Ok l
    /\ ~ In (PriceDistribution right_skewed NaN) l.
Proof.
  intros two. eexists. split; [reflexivity|].
  apply (proj1 (flat_or_small_view_insights two _ eq_refl)).
  left. simpl. lia.
Defined.

(* ------------------------------------------------------------------ *)
(** ** The default range of a slider *)

Lemma Qle_bool_total a b : Qle_bool a b = true \/ Qle_bool b a = true.
Proof.
  rewrite !Qle_bool_iff.
  destruct (Qlt_le_dec b a); [right; lra | now left].
Qed.

Lemma Qle_bool_trans a b c :
  Qle_bool a b = true -> Qle_bool b c = true -> Qle_bool a c = true.
Proof. rewrite !Qle_bool_iff. apply Qle_trans. Qed.

Lemma sorted_nth_le (l : list Q) (d : Q) :
  StronglySorted (fun a b => Qle_bool a b = true) l ->
  forall i j, (i <= j)%nat -> (j < List.length l)%nat -> nth i l d <= nth j l d.
Proof.
  induction 1 as [| a l Hs IH Hall]; intros i j Hij Hj; simpl in Hj; [lia|].
  destruct j as [| j].
  - replace i with 0%nat by lia. apply Qle_refl.
  - destruct i as [| i]; simpl.
    + rewrite Forall_forall in Hall. apply Qle_bool_iff, Hall, nth_In. lia.
    + apply IH; lia.
Qed.

Lemma isort_Q_sorted xs :
  StronglySorted (fun a b => Qle_bool a b = true) (isort Qle_bool xs).
Proof. apply isort_sorted; [apply Qle_bool_total | apply Qle_bool_trans]. Qed.

Lemma isort_Q_length xs : List.length (isort Qle_bool xs) = List.length xs.
Proof. apply Permutation_length, isort_perm. Qed.

(** The position of a quantile and the index below it. *)
Lemma quantile_position (q : Q) (n : nat) :
  0 <= q -> q <= 1 -> (1 <= n)%nat ->
  let position := q * inject_Z (Z.of_nat (n - 1)) in
  let below := Z.to_nat (Qfloor position) in
  let fraction := position - inject_Z (Qfloor position) in
  (below <= n - 1)%nat
  /\ 0 <= fraction /\ fraction < 1
  /\ position == inject_Z (Z.of_nat below) + fraction.
Proof.
  intros Hq0 Hq1 Hn position below fraction.
  assert (Hm : 0 <= inject_Z (Z.of_nat (n - 1))).
  { change 0 with (inject_Z 0). rewrite <- Zle_Qle. lia. }
  assert (Hp0 : 0 <= position) by (unfold position; nra).
  assert (Hp1 : position <= inject_Z (Z.of_nat (n - 1))) by (unfold position; nra).
  assert (Hf0 : (0 <= Qfloor position)%Z).
  { pose proof (Qfloor_resp_le 0 position Hp0) as H.
    change (Qfloor 0) with 0%Z in H. exact H. }
  assert (Hf1 : (Qfloor position <= Z.of_nat (n - 1))%Z).
  { apply Qfloor_resp_le in Hp1. now rewrite Qfloor_Z in Hp1. }
  pose proof (Qfloor_le position) as Hle.
  pose proof (Qlt_floor position) as Hlt.
  rewrite inject_Z_plus in Hlt.
  assert (Eb : Z.of_nat below = Qfloor position) by (unfold below; lia).
  repeat split.
  - unfold below. lia.
  - unfold fraction. lra.
  - unfold fraction. change (inject_Z 1) with 1 in Hlt. lra.
  - rewrite Eb. unfold fraction. ring.
Qed.

(** The value interpolated at a position lies between the sorted values
    around it. *)
Lemma quantile_between (q : Q) (xs : list Q) :
  0 <= q -> q <= 1 -> xs <> [] ->
  let sorted := isort Qle_bool xs in
  let position := q * inject_Z (Z.of_nat (List.length xs - 1)) in
  let below := Z.to_nat (Qfloor position) in
  nth below sorted 0 <= Qquantile q xs
  /\ Qquantile q xs <= nth (S below) sorted (nth below sorted 0)
  /\ In (nth below sorted 0) xs
  /\ In (nth (S below) sorted (nth below sorted 0)) xs.
Proof.
  intros Hq0 Hq1 Hne sorted position below.
  assert (Hn : (1 <= List.length xs)%nat)
    by (destruct xs; [congruence | simpl; lia]).
  destruct (quantile_position q (List.length xs) Hq0 Hq1 Hn)
    as [Hb [Hf0 [Hf1 _]]].
  fold position below in Hb. fold position in Hf0, Hf1.
  pose proof (isort_Q_sorted xs) as Hs. fold sorted in Hs.
  pose proof (isort_Q_length xs) as Hl. fold sorted in Hl.
  assert (Hin_low : In (nth below sorted 0) xs).
  { apply (isort_In Qle_bool xs). apply nth_In. fold sorted. lia. }
  set (lower := nth below sorted 0) in *.
  set (upper := nth (S below) sorted lower).
  assert (Hup : lower <= upper /\ In upper xs).
  { unfold upper. destruct (Nat.lt_ge_cases (S below) (List.length sorted)) as [L | L].
    - split.
      + rewrite (nth_indep sorted lower 0 L). unfold lower.
        apply sorted_nth_le; [exact Hs | lia | exact L].
      + apply (isort_In Qle_bool xs). now apply nth_In.
    - rewrite (nth_overflow sorted lower L). split; [apply Qle_refl | exact Hin_low]. }
  destruct Hup as [Hlu Hin_up].
  unfold Qquantile. fold sorted position below. fold lower. fold upper.
  set (fraction := position - inject_Z (Qfloor position)) in *.
  split; [nra|]. split; [nra|]. split; assumption.
Qed.

(** A larger quantile is a larger value. *)
Lemma quantile_monotone (q1 q2 : Q) (xs : list Q) :
  0 <= q1 -> q1 <= q2 -> q2 <= 1 -> xs <> [] ->
  Qquantile q1 xs <= Qquantile q2 xs.
Proof.
  intros H0 H12 H1 Hne.
  assert (Hn : (1 <= List.length xs)%nat)
    by (destruct xs; [congruence | simpl; lia]).
  assert (Hq1 : q1 <= 1) by lra. assert (Hq2 : 0 <= q2) by lra.
  destruct (quantile_between q1 xs H0 Hq1 Hne) as [_ [U1 _]].
  destruct (quantile_between q2 xs Hq2 H1 Hne) as [L2 _].
  destruct (quantile_position q1 (List.length xs) H0 Hq1 Hn)
    as [B1 [F1a [F1b P1]]].
  destruct (quantile_position q2 (List.length xs) Hq2 H1 Hn)
    as [B2 [F2a [F2b P2]]].
  pose proof (isort_Q_sorted xs) as Hs.
  pose proof (isort_Q_length xs) as Hl.
  assert (Hm : 0 <= inject_Z (Z.of_nat (List.length xs - 1))).
  { change 0 with (inject_Z 0). rewrite <- Zle_Qle. lia. }
  set (sorted := isort Qle_bool xs) in *.
  set (p1 := q1 * inject_Z (Z.of_nat (List.length xs - 1))) in *.
  set (p2 := q2 * inject_Z (Z.of_nat (List.length xs - 1))) in *.
  set (k1 := Z.to_nat (Qfloor p1)) in *.
  set (k2 := Z.to_nat (Qfloor p2)) in *.
  assert (Hp : p1 <= p2) by (unfold p1, p2; nra).
  assert (Hk : (k1 <= k2)%nat).
  { unfold k1, k2. apply Qfloor_resp_le in Hp. lia. }
  destruct (Nat.eq_dec k1 k2) as [Ek | Nk].
  - unfold Qquantile. fold sorted p1 p2 k1 k2. rewrite <- Ek.
    set (lower := nth k1 sorted 0).
    set (upper := nth (S k1) sorted lower).
    assert (Hlu : lower <= upper).
    { unfold upper.
      destruct (Nat.lt_ge_cases (S k1) (List.length sorted)) as [L | L].
      - rewrite (nth_indep sorted lower 0 L). unfold lower.
        apply sorted_nth_le; [exact Hs | lia | exact L].
      - rewrite (nth_overflow sorted lower L). apply Qle_refl. }
    assert (Hfr : p1 - inject_Z (Qfloor p1) <= p2 - inject_Z (Qfloor p2)).
    { rewrite P1 in Hp. rewrite P2 in Hp. rewrite <- Ek in Hp. lra. }
    nra.
  - assert (Hlt : (S k1 < List.length sorted)%nat) by lia.
    rewrite (nth_indep sorted _ 0 Hlt) in U1.
    assert (Hmid : nth (S k1) sorted 0 <= nth k2 sorted 0).
    { apply sorted_nth_le; [exact Hs | lia | lia]. }
    lra.
Qed.

(** X9.  The default of a range slider, the 10th and the 90th percentile of the
    column, is an ordered range inside the bounds of the slider, the
    smallest and the largest value of the column. *)
Theorem slider_default_within_bounds (xs : list Q) :
  xs <> [] ->
  exists mn mx lo hi,
    range_slider xs
    = {| slider_min_value := Fin mn; slider_max_value := Fin mx;
         slider_value := (Fin lo, Fin hi) |}
    /\ lo = Qquantile (1 # 10) xs /\ hi = Qquantile (9 # 10) xs
    /\ mn <= lo /\ lo <= hi /\ hi <= mx.
Proof.
  intros Hne.
  destruct (Series_min_Fin xs Hne) as [mn Emn].
  destruct (Series_max_Fin xs Hne) as [mx Emx].
  exists mn, mx, (Qquantile (1 # 10) xs), (Qquantile (9 # 10) xs).
  assert (H1 : 0 <= 1 # 10) by (unfold Qle; simpl; lia).
  assert (H2 : (1 # 10) <= 1) by (unfold Qle; simpl; lia).
  assert (H3 : 0 <= 9 # 10) by (unfold Qle; simpl; lia).
  assert (H4 : (9 # 10) <= 1) by (unfold Qle; simpl; lia).
  assert (H5 : (1 # 10) <= 9 # 10) by (unfold Qle; simpl; lia).
  destruct (quantile_between (1 # 10) xs H1 H2 Hne) as [L1 [_ [I1 _]]].
  destruct (quantile_between (9 # 10) xs H3 H4 Hne) as [_ [U2 [_ I2]]].
  pose proof (Series_min_lower xs mn _ Emn I1).
  pose proof (Series_max_upper xs mx _ Emx I2).
  pose proof (quantile_monotone _ _ xs H1 H5 H4 Hne).
  split.
  - unfold range_slider. rewrite Emn, Emx.
    destruct xs; [congruence | reflexivity].
  - repeat split; lra.
Qed.

Lemma slider_default_within_bounds_witness :
  exists lo hi,
    slider_value (range_slider (column Price_in_Lakhs four_listings))
    = (Fin lo, Fin hi)
    /\ 50 <= lo /\ lo <= hi /\ hi <= 300.
Proof.
  assert (Hne : column Price_in_Lakhs four_listings <> []) by discriminate.
  destruct (slider_default_within_bounds _ Hne)
    as [mn [mx [lo [hi [E [_ [_ [H1 [H2 H3]]]]]]]]].
  exists lo, hi.
  assert (Emn : mn = 50).
  { apply (f_equal slider_min_value) in E. vm_compute in E.
    injection E as E. now rewrite <- E. }
  assert (Emx : mx = 300).
  { apply (f_equal slider_max_value) in E. vm_compute in E.
    injection E as E. now rewrite <- E. }
  split; [now rewrite E|]. subst mn mx. repeat split; assumption.
Defined.

(* ------------------------------------------------------------------ *)
(** ** The options and defaults of the multiselects *)

Lemma String_leb_total a b : String.leb a b = true \/ String.leb b a = true.
Proof.
  unfold String.leb. rewrite (String.compare_antisym b a).
  destruct (String.compare a b); simpl; auto.
Qed.

Lemma String_leb_trans a : forall b c,
  String.leb a b = true -> String.leb b c = true -> String.leb a c = true.
Proof.
  unfold String.leb.
  induction a as [| x a IH]; intros [| y b] [| z c]; simpl;
    try reflexivity; try discriminate.
  unfold Ascii.compare.
  destruct (N.compare_spec (N_of_ascii x) (N_of_ascii y)) as [E1 | L1 | G1];
    destruct (N.compare_spec (N_of_ascii y) (N_of_ascii z)) as [E2 | L2 | G2];
    destruct (N.compare_spec (N_of_ascii x) (N_of_ascii z)) as [E3 | L3 | G3];
    try reflexivity; try discriminate; try lia.
  apply IH.
Qed.

Lemma sorted_unique_str_In xs c : In c (sorted_unique_str xs) <-> In c xs.
Proof. unfold sorted_unique_str. now rewrite (isort_In String.leb), nodup_In. Qed.

Lemma sorted_unique_str_NoDup xs : NoDup (sorted_unique_str xs).
Proof.
  unfold sorted_unique_str.
  eapply Permutation_NoDup; [symmetry; apply isort_perm | apply NoDup_nodup].
Qed.

Lemma sorted_unique_str_sorted xs :
  StronglySorted (fun a b => String.leb a b = true) (sorted_unique_str xs).
Proof.
  apply isort_sorted; [apply String_leb_total|].
  intros a b c. apply String_leb_trans.
Qed.

Lemma sorted_unique_Z_In xs c : In c (sorted_unique_Z xs) <-> In c xs.
Proof. unfold sorted_unique_Z. now rewrite (isort_In Z.leb), nodup_In. Qed.

Lemma sorted_unique_Z_NoDup xs : NoDup (sorted_unique_Z xs).
Proof.
  unfold sorted_unique_Z.
  eapply Permutation_NoDup; [symmetry; apply isort_perm | apply NoDup_nodup].
Qed.

Lemma sorted_unique_Z_sorted xs :
  StronglySorted (fun a b => Z.leb a b = true) (sorted_unique_Z xs).
Proof. apply isort_sorted; [apply Zleb_total | apply Zleb_trans]. Qed.

Lemma first_or_all_firstn {A : Type} (n : nat) (l : list A) :
  first_or_all n l = firstn n l.
Proof.
  unfold first_or_all. destruct (n <? List.length l)%nat eqn:E; [reflexivity|].
  apply Nat.ltb_ge in E. symmetry. now apply firstn_all2.
Qed.

(** The options of a multiselect over a text column, and its default of
    the first [n] options. *)
Lemma text_multiselect (n : nat) (f : PropertyRecord -> string) (df : DataFrame) :
  let options := sorted_unique_str (map f (rows df)) in
  let default := first_or_all n options in
  (forall c, In c options <-> exists r, In r (rows df) /\ f r = c)
  /\ NoDup options
  /\ StronglySorted (fun a b => String.leb a b = true) options
  /\ default = firstn n options
  /\ incl default options
  /\ (List.length default <= n)%nat.
Proof.
  intros options default.
  split.
  { intros c. unfold options. rewrite sorted_unique_str_In, in_map_iff.
    split; intros [r [H1 H2]]; exists r; auto. }
  split; [apply sorted_unique_str_NoDup|].
  split; [apply sorted_unique_str_sorted|].
  assert (E : default = firstn n options) by apply first_or_all_firstn.
  split; [exact E|]. rewrite E. split.
  - intros x Hx. eapply firstn_incl; eassumption.
  - rewrite length_firstn. lia.
Qed.

(** X10.  The three multiselects of the sidebar.  The options of each are the
    values its column takes in the table, each once, in ascending order.
    The default is the first five cities, the first three property types,
    and every BHK value: a default is always among the options, and the
    default BHK selection covers every row of the table. *)
Theorem multiselect_options_and_defaults (df : DataFrame) :
  (forall ms,
      city_filter (sidebar df) = Some ms ->
      (forall c, In c (multiselect_options ms) <->
                 exists r, In r (rows df) /\ City r = c)
      /\ NoDup (multiselect_options ms)
      /\ StronglySorted (fun a b => String.leb a b = true)
                        (multiselect_options ms)
      /\ multiselect_default ms = firstn 5 (multiselect_options ms)
      /\ incl (multiselect_default ms) (multiselect_options ms)
      /\ (List.length (multiselect_default ms) <= 5)%nat)
  /\ (forall ms,
        property_type_filter (sidebar df) = Some ms ->
        (forall c, In c (multiselect_options ms) <->
                   exists r, In r (rows df) /\ Property_Type r = c)
        /\ NoDup (multiselect_options ms)
        /\ StronglySorted (fun a b => String.leb a b = true)
                          (multiselect_options ms)
        /\ multiselect_default ms = firstn 3 (multiselect_options ms)
        /\ incl (multiselect_default ms) (multiselect_options ms)
        /\ (List.length (multiselect_default ms) <= 3)%nat)
  /\ (forall ms,
        bhk_filter (sidebar df) = Some ms ->
        (forall b, In b (multiselect_options ms) <->
                   exists r, In r (rows df) /\ BHK r = b)
        /\ NoDup (multiselect_options ms)
        /\ StronglySorted (fun a b => Z.leb a b = true) (multiselect_options ms)
        /\ multiselect_default ms = multiselect_options ms
        /\ (forall r, In r (rows df) ->
                      isin_Z (multiselect_default ms) (BHK r) = true)).
Proof.
  unfold sidebar; cbn [city_filter property_type_filter bhk_filter].
  split; [| split].
  - intros ms H. destruct (has_column "City" df); [| discriminate].
    injection H as <-. cbn [multiselect_options multiselect_default].
    apply (text_multiselect 5 City df).
  - intros ms H. destruct (has_column "Property_Type" df); [| discriminate].
    injection H as <-. cbn [multiselect_options multiselect_default].
    apply (text_multiselect 3 Property_Type df).
  - intros ms H. destruct (has_column "BHK" df); [| discriminate].
    injection H as <-. cbn [multiselect_options multiselect_default].
    split.
    { intros b. rewrite sorted_unique_Z_In, in_map_iff.
      split; intros [r [H1 H2]]; exists r; auto. }
    split; [apply sorted_unique_Z_NoDup|].
    split; [apply sorted_unique_Z_sorted|].
    split; [reflexivity|].
    intros r Hr. apply isin_Z_In, sorted_unique_Z_In. now apply in_map.
Qed.

Lemma multiselect_options_and_defaults_witness :
  exists ms,
    city_filter (sidebar three_listings) = Some ms
    /\ incl (multiselect_default ms) (multiselect_options ms).
Proof.
  eexists. split; [reflexivity|].
  destruct (multiselect_options_and_defaults three_listings) as [H _].
  destruct (H _ eq_refl) as [_ [_ [_ [_ [Hincl _]]]]].
  exact Hincl.
Defined.

(** X11.  The first view, before the user touches a widget.  It holds the rows
    whose price and size lie between the 10th and the 90th percentile of
    their columns, whose city is one of the first five cities in ascending
    order and whose property type is one of the first three (each only if
    the column exists); the BHK value restricts nothing. *)
Theorem first_view_rows (df : DataFrame) (view : DataFrame) :
  display_sidebar_filters df (untouched df) = Some view ->
  forall r,
    In r (rows view) <->
    In r (rows df)
    /\ (Qquantile (1 # 10) (column Price_in_Lakhs df) <= Price_in_Lakhs r
        /\ Price_in_Lakhs r <= Qquantile (9 # 10) (column Price_in_Lakhs df))
    /\ (Qquantile (1 # 10) (column Size_in_SqFt df) <= Size_in_SqFt r
        /\ Size_in_SqFt r <= Qquantile (9 # 10) (column Size_in_SqFt df))
    /\ (has_column "City" df = true ->
        In (City r) (firstn 5 (sorted_unique_str (map City (rows df)))))
    /\ (has_column "Property_Type" df = true ->
        In (Property_Type r)
           (firstn 3 (sorted_unique_str (map Property_Type (rows df))))).
Proof.
  intros H r.
  assert (Hview : view = apply_filters df (read_widgets df (untouched df))).
  { unfold display_sidebar_filters in H.
    destruct (rows df); [discriminate | now injection H]. }
  subst view. rewrite apply_filters_one_pass.
  cbn [rows select]. rewrite filter_In, passes_satisfies.
  unfold satisfies, read_widgets, untouched.
  cbn [min_price max_price min_size max_size selected_cities selected_types
       selected_bhk price_slider size_slider cities_multiselect
       types_multiselect bhk_multiselect fst snd].
  rewrite !first_or_all_firstn.
  assert (Hnil : forall (l : list string) x, In x l -> firstn 5 l <> []
                                                       /\ firstn 3 l <> []).
  { intros l x Hx. destruct l; [destruct Hx | split; discriminate]. }
  split.
  - intros [Hr [Hp [Hs [Hc [Ht _]]]]].
    split; [exact Hr|]. split; [exact Hp|]. split; [exact Hs|]. split.
    + intros E. rewrite E in Hc. destruct Hc as [Hc | Hc]; [| exact Hc].
      exfalso.
      assert (Hin : In (City r) (sorted_unique_str (map City (rows df))))
        by (apply sorted_unique_str_In; now apply in_map).
      destruct (Hnil _ _ Hin) as [N5 N3]. contradiction.
    + intros E. rewrite E in Ht. destruct Ht as [Ht | Ht]; [| exact Ht].
      exfalso.
      assert (Hin : In (Property_Type r)
                       (sorted_unique_str (map Property_Type (rows df))))
        by (apply sorted_unique_str_In; now apply in_map).
      destruct (Hnil _ _ Hin) as [N5 N3]. contradiction.
  - intros [Hr [Hp [Hs [Hc Ht]]]].
    split; [exact Hr|]. split; [exact Hp|]. split; [exact Hs|].
    split; [| split].
    + destruct (has_column "City" df); [right; now apply Hc | now left].
    + destruct (has_column "Property_Type" df); [right; now apply Ht | now left].
    + destruct (has_column "BHK" df); [right | now left].
      apply sorted_unique_Z_In. now apply in_map.
Qed.

Lemma first_view_rows_witness :
  exists view,
    display_sidebar_filters three_listings (untouched three_listings) = Some view
    /\ forall r, In r (rows view) -> In r (rows three_listings).
Proof.
  eexists. split; [reflexivity|].
  intros r Hr.
  apply (first_view_rows three_listings _ eq_refl r) in Hr. tauto.
Defined.

(* ------------------------------------------------------------------ *)
(** ** Facts on counting *)

Lemma list_sum_perm l l' : Permutation l l' -> list_sum l = list_sum l'.
Proof.
  induction 1; simpl; try lia.
Qed.

Lemma list_sum_map_add {A : Type} (f g : A -> nat) l :
  list_sum (map (fun x => (f x + g x)%nat) l)
  = (list_sum (map f l) + list_sum (map g l))%nat.
Proof. induction l as [| x tl IH]; simpl; [reflexivity | rewrite IH; lia]. Qed.

Lemma list_sum_map_zero {A : Type} (f : A -> nat) l :
  (forall x, In x l -> f x = 0%nat) -> list_sum (map f l) = 0%nat.
Proof.
  induction l as [| x tl IH]; simpl; intros H; [reflexivity|].
  rewrite (H x (or_introl eq_refl)), IH; [reflexivity|].
  intros; apply H; now right.
Qed.

Section ValueCountsFacts.
Context {A : Type} (eqb : A -> A -> bool).
Hypothesis eqb_spec : forall a b, eqb a b = true <-> a = b.

Lemma eqb_refl_true a : eqb a a = true.
Proof. now apply eqb_spec. Qed.

Lemma count_of_pos v xs : In v xs <-> (0 < count_of eqb v xs)%nat.
Proof.
  unfold count_of. induction xs as [| x tl IH]; simpl; [split; [tauto | lia]|].
  destruct (eqb v x) eqn:E; simpl.
  - apply eqb_spec in E. split; [lia | intros _; now left].
  - rewrite <- IH. split; [intros [H | H]; [| exact H] | tauto].
    subst. rewrite eqb_refl_true in E. discriminate.
Qed.

Lemma unique_In xs x : In x (unique eqb xs) <-> In x xs.
Proof.
  induction xs as [| a tl IH]; simpl; [tauto|].
  rewrite filter_In, IH, negb_true_iff. split.
  - intros [H | [H _]]; auto.
  - intros [H | H]; [now left|].
    destruct (eqb a x) eqn:E; [left; now apply eqb_spec | right; now split].
Qed.

Lemma unique_NoDup xs : NoDup (unique eqb xs).
Proof.
  induction xs as [| a tl IH]; simpl; [constructor|].
  constructor.
  - rewrite filter_In, negb_true_iff, eqb_refl_true. intros [_ H]. discriminate.
  - now apply NoDup_filter.
Qed.

Lemma indicator_sum x vs :
  NoDup vs -> In x vs ->
  list_sum (map (fun v => if eqb v x then 1%nat else 0%nat) vs) = 1%nat.
Proof.
  induction 1 as [| v vs Hnot Hnd IH]; simpl; [tauto|].
  intros [-> | Hin].
  - rewrite eqb_refl_true. rewrite list_sum_map_zero; [reflexivity|].
    intros y Hy. destruct (eqb y x) eqn:E; [| reflexivity].
    apply eqb_spec in E. subst. contradiction.
  - destruct (eqb v x) eqn:E.
    + apply eqb_spec in E. subst. contradiction.
    + now rewrite IH.
Qed.

(** The counts of the values of a series add up to its length. *)
Lemma counts_add_up vs xs :
  NoDup vs -> incl xs vs ->
  list_sum (map (fun v => count_of eqb v xs) vs) = List.length xs.
Proof.
  intros Hnd. induction xs as [| x tl IH]; intros Hincl.
  - apply list_sum_map_zero. reflexivity.
  - assert (E : forall v, count_of eqb v (x :: tl)
                          = ((if eqb v x then 1 else 0) + count_of eqb v tl)%nat).
    { intros v. unfold count_of. simpl. now destruct (eqb v x). }
    rewrite (map_ext _ _ E), list_sum_map_add.
    rewrite indicator_sum; [| exact Hnd | apply Hincl; now left].
    rewrite IH; [reflexivity|]. intros y Hy. apply Hincl. now right.
Qed.

Lemma value_counts_perm xs :
  Permutation (value_counts eqb xs)
              (map (fun v => (v, count_of eqb v xs)) (unique eqb xs)).
Proof. apply isort_perm. Qed.

Lemma value_counts_In xs v n :
  In (v, n) (value_counts eqb xs) <-> In v xs /\ n = count_of eqb v xs.
Proof.
  split.
  - intros H. eapply Permutation_in in H; [| apply value_counts_perm].
    apply in_map_iff in H. destruct H as [v' [E Hv]].
    injection E as <- <-. split; [now apply unique_In | reflexivity].
  - intros [Hv ->]. eapply Permutation_in; [symmetry; apply value_counts_perm|].
    apply in_map_iff. exists v. split; [reflexivity | now apply unique_In].
Qed.

Lemma value_counts_keys xs :
  Permutation (map fst (value_counts eqb xs)) (unique eqb xs).
Proof.
  rewrite (Permutation_map fst (value_counts_perm xs)).
  rewrite map_map. simpl. now rewrite map_id.
Qed.

Lemma value_counts_NoDup xs : NoDup (map fst (value_counts eqb xs)).
Proof.
  eapply Permutation_NoDup; [symmetry; apply value_counts_keys|].
  apply unique_NoDup.
Qed.

Lemma value_counts_total xs :
  list_sum (map snd (value_counts eqb xs)) = List.length xs.
Proof.
  rewrite (list_sum_perm _ _ (Permutation_map snd (value_counts_perm xs))).
  rewrite map_map. simpl.
  apply counts_add_up; [apply unique_NoDup|].
  intros x Hx. now apply unique_In.
Qed.

Lemma value_counts_sorted xs :
  StronglySorted (fun a b => (snd b <= snd a)%nat) (value_counts eqb xs).
Proof.
  assert (H : StronglySorted (fun a b : A * nat => (snd b <=? snd a)%nat = true)
                             (value_counts eqb xs)).
  { apply isort_sorted.
    - intros a b. rewrite !Nat.leb_le. lia.
    - intros a b c. rewrite !Nat.leb_le. lia. }
  induction H as [| a l Hs IH Hall]; constructor; [assumption|].
  eapply Forall_impl; [| exact Hall]. intros b Hb. now apply Nat.leb_le.
Qed.

(** [value_counts]: one entry per value of the series, with the number of
    its occurrences (at least one); the counts add up to the length of
    the series and do not increase along the list. *)
Lemma value_counts_spec xs :
  (forall v n, In (v, n) (value_counts eqb xs) <->
               In v xs /\ n = count_of eqb v xs)
  /\ (forall v n, In (v, n) (value_counts eqb xs) -> (1 <= n)%nat)
  /\ NoDup (map fst (value_counts eqb xs))
  /\ list_sum (map snd (value_counts eqb xs)) = List.length xs
  /\ StronglySorted (fun a b => (snd b <= snd a)%nat) (value_counts eqb xs).
Proof.
  split; [apply value_counts_In|]. split.
  { intros v n H. apply value_counts_In in H. destruct H as [Hv ->].
    apply count_of_pos in Hv. lia. }
  split; [apply value_counts_NoDup|].
  split; [apply value_counts_total | apply value_counts_sorted].
Qed.

End ValueCountsFacts.

(* ------------------------------------------------------------------ *)
(** ** The first entries of a sorted list *)

Lemma NoDup_firstn {A : Type} (n : nat) (l : list A) :
  NoDup l -> NoDup (firstn n l).
Proof.
  intros H. rewrite <- (firstn_skipn n l) in H.
  now apply NoDup_app_remove_r in H.
Qed.

Lemma firstn_or_skipn {A : Type} (n : nat) (l : list A) x :
  In x l -> In x (firstn n l) \/ In x (skipn n l).
Proof.
  intros H. rewrite <- (firstn_skipn n l) in H. now apply in_app_or in H.
Qed.

(** The entries kept by [head] stand before the entries it drops. *)
Lemma head_dominates {A : Type} (R : A -> A -> Prop) (n : nat) (l : list A) :
  StronglySorted R l ->
  StronglySorted R (head n l)
  /\ forall x y, In x (head n l) -> In y l -> In y (head n l) \/ R x y.
Proof.
  intros Hs. unfold head.
  assert (H : StronglySorted R (firstn n l ++ skipn n l))
    by now rewrite firstn_skipn.
  apply StronglySorted_app_inv in H. destruct H as [H1 [_ H3]].
  split; [exact H1|].
  intros x y Hx Hy. destruct (firstn_or_skipn n l y Hy); [now left | right].
  now apply H3.
Qed.

Lemma String_eqb_spec a b : String.eqb a b = true <-> a = b.
Proof. apply String.eqb_eq. Qed.

Lemma Z_eqb_spec a b : Z.eqb a b = true <-> a = b.
Proof. apply Z.eqb_eq. Qed.

(* ------------------------------------------------------------------ *)
(** ** The rankings of the price and location pages *)

(** X12.  The box plot of the top cities (lines 317-318).  At most five cities
    are chosen, all different and all present in the view; the data kept
    are exactly the rows of those cities, in their order; no city left out
    has more rows than a chosen one; and a view of at most five cities is
    kept whole. *)
Theorem top_cities_data_rows (df : DataFrame) :
  let cities := map City (rows df) in
  (List.length (top_cities df) <= 5)%nat
  /\ NoDup (top_cities df)
  /\ incl (top_cities df) cities
  /\ (forall r, In r (rows (top_cities_data df)) <->
                In r (rows df) /\ In (City r) (top_cities df))
  /\ Subseq (rows (top_cities_data df)) (rows df)
  /\ (forall c r,
        In c (top_cities df) -> In r (rows df) ->
        ~ In (City r) (top_cities df) ->
        (count_of String.eqb (City r) cities
         <= count_of String.eqb c cities)%nat)
  /\ ((List.length (unique String.eqb cities) <= 5)%nat ->
      top_cities_data df = df).
Proof.
  intros cities.
  destruct (value_counts_spec String.eqb String_eqb_spec cities)
    as [Hin [_ [Hnd [_ Hsorted]]]].
  set (vc := value_counts String.eqb cities) in *.
  assert (Etop : top_cities df = map fst (head 5 vc)) by reflexivity.
  destruct (head_dominates _ 5 vc Hsorted) as [_ Hdom].
  split.
  { rewrite Etop, length_map. unfold head. rewrite length_firstn. lia. }
  split.
  { rewrite Etop. unfold head. rewrite <- firstn_map. now apply NoDup_firstn. }
  split.
  { intros c Hc. rewrite Etop in Hc. apply in_map_iff in Hc.
    destruct Hc as [[c' n] [<- Hc]]. apply firstn_incl in Hc.
    apply Hin in Hc. tauto. }
  split.
  { intros r. unfold top_cities_data. cbn [rows select].
    now rewrite filter_In, isin_str_In. }
  split; [apply filter_Subseq|].
  split.
  { intros c r Hc Hr Hout. rewrite Etop in Hc. apply in_map_iff in Hc.
    destruct Hc as [[c' n] [<- Hc]]. simpl.
    assert (Hr' : In (City r, count_of String.eqb (City r) cities) vc).
    { apply Hin. split; [now apply in_map | reflexivity]. }
    destruct (Hdom _ _ Hc Hr') as [Hhead | Hle].
    - exfalso. apply Hout. rewrite Etop.
      apply in_map_iff. eexists. split; [| exact Hhead]. reflexivity.
    - simpl in Hle. apply firstn_incl in Hc. apply Hin in Hc.
      destruct Hc as [_ ->]. exact Hle. }
  intros Hfew.
  assert (Hall : head 5 vc = vc).
  { unfold head. apply firstn_all2.
    rewrite <- (length_map fst vc).
    unfold vc. erewrite Permutation_length by apply value_counts_keys.
    exact Hfew. }
  unfold top_cities_data. destruct df as [cs rs]. unfold select; simpl.
  f_equal. apply filter_all. intros r Hr. apply isin_str_In.
  rewrite Etop, Hall. apply in_map_iff.
  exists (City r, count_of String.eqb (City r) cities). split; [reflexivity|].
  apply Hin. split; [| reflexivity]. unfold cities. simpl. now apply in_map.
Qed.

(** X13.  The bar chart of the cities with the most rows (line 375): not drawn
    without a City column; otherwise at most fifteen cities of the view,
    each once with the number of its rows, larger numbers first, and no
    city left out has more rows than a listed one. *)
Theorem city_counts_ranking (df : DataFrame) :
  (has_column "City" df = false -> city_counts df = None)
  /\ forall counts,
       city_counts df = Some counts ->
       let cities := map City (rows df) in
       (List.length counts <= 15)%nat
       /\ NoDup (map fst counts)
       /\ (forall c n, In (c, n) counts ->
                       In c cities /\ n = count_of String.eqb c cities
                       /\ (1 <= n)%nat)
       /\ StronglySorted (fun a b => (snd b <= snd a)%nat) counts
       /\ (forall r, In r (rows df) ->
                     In (City r) (map fst counts)
                     \/ forall c n, In (c, n) counts ->
                          (count_of String.eqb (City r) cities <= n)%nat)
       /\ ((List.length (unique String.eqb cities) <= 15)%nat ->
           list_sum (map snd counts) = len df).
Proof.
  unfold city_counts. split.
  { intros E. now rewrite E. }
  intros counts H. set (cities := map City (rows df)) in *.
  destruct (has_column "City" df); [| discriminate].
  assert (Ec : counts = head 15 (value_counts String.eqb cities))
    by (now injection H).
  clear H. subst counts.
  destruct (value_counts_spec String.eqb String_eqb_spec cities)
    as [Hin [Hone [Hnd [Htot Hsorted]]]].
  set (vc := value_counts String.eqb cities) in *.
  destruct (head_dominates _ 15 vc Hsorted) as [Hs Hdom].
  split.
  { unfold head. rewrite length_firstn. lia. }
  split.
  { unfold head. rewrite <- firstn_map. now apply NoDup_firstn. }
  split.
  { intros c n Hc. apply firstn_incl in Hc.
    pose proof (Hone _ _ Hc). apply Hin in Hc. tauto. }
  split; [exact Hs|].
  split.
  { intros r Hr.
    assert (Hr' : In (City r, count_of String.eqb (City r) cities) vc).
    { apply Hin. split; [now apply in_map | reflexivity]. }
    destruct (in_dec string_dec (City r) (map fst (head 15 vc))) as [Hi | Ho];
      [now left | right].
    intros c n Hc. destruct (Hdom _ _ Hc Hr') as [Hhead | Hle].
    - exfalso. apply Ho. apply in_map_iff. eexists. split; [| exact Hhead].
      reflexivity.
    - exact Hle. }
  intros Hfew.
  assert (Hall : head 15 vc = vc).
  { unfold head. apply firstn_all2.
    rewrite <- (length_map fst vc).
    unfold vc. erewrite Permutation_length by apply value_counts_keys.
    exact Hfew. }
  rewrite Hall, Htot. unfold cities, len. apply length_map.
Qed.

Lemma city_counts_ranking_witness :
  exists counts,
    city_counts three_listings = Some counts
    /\ list_sum (map snd counts) = 3%nat.
Proof.
  eexists. split; [reflexivity|].
  destruct (city_counts_ranking three_listings) as [_ H].
  destruct (H _ eq_refl) as [_ [_ [_ [_ [_ Hsum]]]]].
  apply Hsum. vm_compute. lia.
Defined.






(* ------------------------------------------------------------------ *)
(** ** The BHK distribution *)

Lemma sorted_keys_strict (l : list (Z * nat)) :
  StronglySorted (fun a b => Z.leb (fst a) (fst b) = true) l ->
  NoDup (map fst l) ->
  StronglySorted Z.lt (map fst l).
Proof.
  induction 1 as [| a l Hs IH Hall]; simpl; intros Hnd; [constructor|].
  inversion Hnd as [| ? ? Hnot Hnd']; subst.
  constructor; [now apply IH|].
  rewrite Forall_forall in *. intros k Hk.
  apply in_map_iff in Hk. destruct Hk as [b [<- Hb]].
  specialize (Hall b Hb). apply Z.leb_le in Hall.
  assert (fst a <> fst b).
  { intros E. apply Hnot. rewrite E. now apply in_map. }
  lia.
Qed.

(** X15.  The pie chart of the BHK values (line 484): one slice per BHK value of
    the view, in strictly ascending order of the value, each with the
    number of rows that have it; the slices add up to the whole view. *)
Theorem bhk_dist_slices (df : DataFrame) :
  let bhks := map BHK (rows df) in
  (forall b n, In (b, n) (bhk_dist df) <-> In b bhks /\ n = count_Z b bhks)
  /\ StronglySorted Z.lt (map fst (bhk_dist df))
  /\ list_sum (map snd (bhk_dist df)) = len df.
Proof.
  intros bhks.
  destruct (value_counts_spec Z.eqb Z_eqb_spec bhks)
    as [Hin [_ [Hnd [Htot _]]]].
  pose proof (isort_perm (fun a b : Z * nat => Z.leb (fst a) (fst b))
                (value_counts Z.eqb bhks)) as Hperm.
  fold bhks in Hperm. change (isort _ (value_counts Z.eqb bhks))
    with (bhk_dist df) in Hperm.
  split; [| split].
  - intros b n. rewrite <- (Hin b n).
    split; apply Permutation_in; [exact Hperm | symmetry; exact Hperm].
  - apply sorted_keys_strict.
    + apply (isort_sorted (fun a b : Z * nat => Z.leb (fst a) (fst b))).
      * intros a b. apply Zleb_total.
      * intros a b c. apply Zleb_trans.
    + eapply Permutation_NoDup;
        [symmetry; apply Permutation_map; exact Hperm | exact Hnd].
  - rewrite (list_sum_perm _ _ (Permutation_map snd Hperm)), Htot.
    unfold bhks, len. apply length_map.
Qed.

(* ------------------------------------------------------------------ *)
(** ** The correlation page: shape of the matrix, price insights *)

Lemma position_of_Some name names j :
  position_of name names = Some j ->
  (j < List.length names)%nat /\ nth j names ""%string = name.
Proof.
  revert j. induction names as [| n tl IH]; simpl; intros j H; [discriminate|].
  destruct (String.eqb name n) eqn:E.
  - injection H as <-. apply String.eqb_eq in E. split; [lia | now subst].
  - destruct (position_of name tl) as [k |]; [| discriminate].
    injection H as <-. destruct (IH k eq_refl). split; [lia | assumption].
Qed.

Lemma position_of_None name names :
  position_of name names = None <-> ~ In name names.
Proof.
  induction names as [| n tl IH]; simpl; [tauto|].
  destruct (String.eqb name n) eqn:E.
  - apply String.eqb_eq in E. split; [discriminate | intros H; exfalso; auto].
  - apply String.eqb_neq in E.
    destruct (position_of name tl); simpl.
    + split; [discriminate|]. intros H. exfalso. apply H. right.
      destruct (in_dec string_dec name tl) as [Hi | Ho]; [exact Hi|].
      apply IH in Ho. discriminate.
    + split; [| reflexivity]. intros _ [H | H]; [congruence|].
      now apply (proj1 IH).
Qed.

Lemma sorted_before_last {A : Type} (R : A -> A -> Prop) (l : list A) (z : A) :
  (forall x, R x x) ->
  StronglySorted R l ->
  nth_error l (List.length l - 1) = Some z ->
  forall e, In e l -> R e z.
Proof.
  intros Hrefl. induction 1 as [| a tl Hs IH Hall]; intros Hz e He;
    [destruct He|].
  destruct tl as [| b tl'].
  - simpl in Hz. injection Hz as <-. destruct He as [<- | []]. apply Hrefl.
  - assert (Hz' : nth_error (b :: tl') (List.length (b :: tl') - 1) = Some z).
    { simpl in Hz |- *. now rewrite Nat.sub_0_r in *. }
    destruct He as [<- | He].
    + rewrite Forall_forall in Hall. apply Hall.
      eapply nth_error_In. exact Hz'.
    + now apply IH.
Qed.

(** The matrix of a view: its shape and when it is computed. *)
Lemma correlation_analysis_cases (df : DataFrame) :
  let cols := select_dtypes_number df in
  ((List.length cols < 2)%nat -> display_correlation_analysis df = None)
  /\ ((2 <= List.length cols)%nat ->
      display_correlation_analysis df
      = Some (DataFrame_corr cols, top_correlations (DataFrame_corr cols))).
Proof.
  intros cols. unfold display_correlation_analysis. fold cols.
  destruct (List.length cols <? 2)%nat eqn:E.
  - apply Nat.ltb_lt in E. split; [reflexivity | lia].
  - apply Nat.ltb_ge in E. split; [lia | reflexivity].
Qed.

Lemma correlation_analysis_Some (df : DataFrame) m t :
  display_correlation_analysis df = Some (m, t) ->
  (2 <= List.length (select_dtypes_number df))%nat
  /\ m = DataFrame_corr (select_dtypes_number df)
  /\ t = top_correlations m.
Proof.
  intros H. destruct (correlation_analysis_cases df) as [Hnone Hsome].
  destruct (Nat.lt_ge_cases (List.length (select_dtypes_number df)) 2)
    as [L | L].
  - rewrite (Hnone L) in H. discriminate.
  - rewrite (Hsome L) in H. injection H as <- <-. auto.
Qed.

(** X16.  The correlation analysis is skipped exactly when the view has fewer
    than two numeric columns, which cannot happen when it has the price
    and the size column.  Otherwise the matrix is square: its labels are
    the numeric columns in the order of the table, and it has one row per
    label and one entry per label in each row. *)
Theorem correlation_matrix_shape (df : DataFrame) :
  let cols := select_dtypes_number df in
  (display_correlation_analysis df = None <-> (List.length cols < 2)%nat)
  /\ (has_column "Price_in_Lakhs" df = true ->
      has_column "Size_in_SqFt" df = true ->
      display_correlation_analysis df <> None)
  /\ forall m t,
       display_correlation_analysis df = Some (m, t) ->
       labels m = map fst cols
       /\ List.length (cells m) = List.length (labels m)
       /\ (forall row, In row (cells m) ->
                       List.length row = List.length (labels m))
       /\ t = top_correlations m.
Proof.
  intros cols.
  destruct (correlation_analysis_cases df) as [Hnone Hsome]. fold cols in Hnone, Hsome.
  assert (Hiff : display_correlation_analysis df = None
                 <-> (List.length cols < 2)%nat).
  { split; [| exact Hnone]. intros E.
    destruct (Nat.lt_ge_cases (List.length cols) 2) as [L | L]; [exact L|].
    rewrite (Hsome L) in E. discriminate. }
  split; [exact Hiff|]. split.
  - intros Hp Hs E. apply Hiff in E.
    assert (Hincl : incl ["Price_in_Lakhs"; "Size_in_SqFt"]%string (map fst cols)).
    { intros name Hname.
      assert (Hc : In name (columns df)).
      { unfold has_column in Hp, Hs. apply existsb_exists in Hp, Hs.
        destruct Hp as [p [Hp1 Hp2]], Hs as [s [Hs1 Hs2]].
        apply String.eqb_eq in Hp2, Hs2. subst p s.
        destruct Hname as [<- | [<- | []]]; assumption. }
      unfold cols, select_dtypes_number.
      apply in_map_iff.
      destruct Hname as [<- | [<- | []]].
      - exists ("Price_in_Lakhs"%string, column Price_in_Lakhs df).
        split; [reflexivity|]. apply in_flat_map.
        exists "Price_in_Lakhs"%string. split; [exact Hc | now left].
      - exists ("Size_in_SqFt"%string, column Size_in_SqFt df).
        split; [reflexivity|]. apply in_flat_map.
        exists "Size_in_SqFt"%string. split; [exact Hc | now left]. }
    apply NoDup_incl_length in Hincl.
    + rewrite length_map in Hincl. simpl in Hincl. lia.
    + constructor; [intros [H | []]; discriminate H|].
      constructor; [intros [] | constructor].
  - intros m t H.
    destruct (Nat.lt_ge_cases (List.length cols) 2) as [L | L].
    { rewrite (Hnone L) in H. discriminate. }
    rewrite (Hsome L) in H. injection H as <- <-.
    unfold DataFrame_corr; cbn [labels cells].
    rewrite !length_map, length_seq.
    split; [reflexivity|]. split; [reflexivity|]. split; [| reflexivity].
    intros row Hrow. apply in_map_iff in Hrow. destruct Hrow as [i [<- _]].
    now rewrite length_map, length_seq.
Qed.

Lemma correlation_matrix_shape_witness :
  display_correlation_analysis three_listings <> None.
Proof.
  destruct (correlation_matrix_shape three_listings) as [_ [H _]].
  apply H; reflexivity.
Defined.

Lemma desc_nan_last_refl x : desc_nan_last x x = true.
Proof. destruct (desc_nan_last_total x x); assumption. Qed.

Lemma sort_column_desc_perm s : Permutation (sort_column_desc s) s.
Proof. apply isort_perm. Qed.

Lemma sort_column_desc_sorted s :
  StronglySorted (fun e1 e2 : string * pyfloat Surd.t =>
                    desc_nan_last (snd e1) (snd e2) = true)
                 (sort_column_desc s).
Proof.
  apply (isort_sorted (fun e1 e2 : string * pyfloat Surd.t =>
                         desc_nan_last (snd e1) (snd e2))).
  - intros a b. apply desc_nan_last_total.
  - intros a b c. apply desc_nan_last_trans.
Qed.

(** X17.  The price correlation insights (lines 692-719) of a view whose matrix
    was computed.  They are shown only when the price is a numeric column.
    Reading the second and the last entry of the sorted price column never
    fails, because the matrix has at least two labels; the only failure is
    a missing size column.  The "strongest negative" entry is one that
    every entry of the price column stands before in the descending order
    with NaN last: so as soon as one numeric column is constant in the
    view, the value shown there is NaN. *)
Theorem price_insights_never_out_of_range (df : DataFrame)
    (m : CorrMatrix) (t : TopCorrelations) :
  display_correlation_analysis df = Some (m, t) ->
  (~ In "Price_in_Lakhs"%string (labels m) ->
   price_correlation_insights df m = None)
  /\ forall j,
       position_of "Price_in_Lakhs" (labels m) = Some j ->
       (has_column "Size_in_SqFt" df = false ->
        price_correlation_insights df m = Some (Failed MissingColumn))
       /\ (has_column "Size_in_SqFt" df = true ->
           exists ins,
             price_correlation_insights df m = Some (Found ins)
             /\ In (strongest_positive ins) (matrix_column m j)
             /\ In (strongest_negative ins) (matrix_column m j)
             /\ (forall e, In e (matrix_column m j) ->
                   desc_nan_last (snd e) (snd (strongest_negative ins)) = true)
             /\ ((exists name xs,
                     In (name, xs) (select_dtypes_number df) /\ constant xs) ->
                 snd (strongest_negative ins) = NaN)
             /\ size_price ins
                = (Series_corr (column Size_in_SqFt df)
                               (column Price_in_Lakhs df),
                   strength_of (Series_corr (column Size_in_SqFt df)
                                            (column Price_in_Lakhs df)))).
Proof.
  intros H.
  destruct (correlation_analysis_Some df m t H) as [HK [Em _]].
  assert (Hlabels : labels m = map fst (select_dtypes_number df))
    by (rewrite Em; reflexivity).
  set (cols := select_dtypes_number df) in *.
  assert (HKl : List.length (labels m) = List.length cols)
    by (rewrite Hlabels; apply length_map).
  split.
  { intros Hno. unfold price_correlation_insights.
    apply position_of_None in Hno. now rewrite Hno. }
  intros j Hj. unfold price_correlation_insights. rewrite Hj.
  destruct (position_of_Some _ _ _ Hj) as [Hjlt _].
  set (s := sort_column_desc (matrix_column m j)).
  pose proof (sort_column_desc_perm (matrix_column m j)) as Hperm. fold s in Hperm.
  pose proof (sort_column_desc_sorted (matrix_column m j)) as Hsorted.
  fold s in Hsorted.
  assert (Hlen : List.length s = List.length cols).
  { rewrite (Permutation_length Hperm). unfold matrix_column.
    now rewrite length_map, length_seq. }
  destruct (nth_error s 1) as [second |] eqn:E1.
  2:{ apply nth_error_None in E1. lia. }
  destruct (nth_error s (List.length s - 1)) as [last |] eqn:E2.
  2:{ apply nth_error_None in E2. lia. }
  assert (Hlast : iloc_last s = Found last).
  { unfold iloc_last, iloc. destruct s; [simpl in Hlen; lia|]. now rewrite E2. }
  assert (Hsecond : iloc s 1 = Found second) by (unfold iloc; now rewrite E1).
  cbv zeta. rewrite Hsecond. cbn [bind_lookup]. rewrite Hlast.
  cbn [bind_lookup].
  split.
  { intros Hs. now rewrite Hs. }
  intros Hs. rewrite Hs. eexists. split; [reflexivity|].
  cbn [strongest_positive strongest_negative size_price].
  replace (1 <? List.length s)%nat with true
    by (symmetry; apply Nat.ltb_lt; lia).
  replace (0 <? List.length s)%nat with true
    by (symmetry; apply Nat.ltb_lt; lia).
  assert (Hin2 : In second (matrix_column m j)).
  { eapply Permutation_in; [exact Hperm | eapply nth_error_In; exact E1]. }
  assert (Hinl : In last (matrix_column m j)).
  { eapply Permutation_in; [exact Hperm | eapply nth_error_In; exact E2]. }
  assert (Hmin : forall e, In e (matrix_column m j) ->
                           desc_nan_last (snd e) (snd last) = true).
  { intros e He.
    apply (sorted_before_last
             (fun e1 e2 : string * pyfloat Surd.t =>
                desc_nan_last (snd e1) (snd e2) = true) s last).
    - intros x. apply desc_nan_last_refl.
    - exact Hsorted.
    - exact E2.
    - eapply Permutation_in; [symmetry; exact Hperm | exact He]. }
  split; [now destruct second|]. split; [now destruct last|].
  split; [exact Hmin|]. split; [| reflexivity].
  intros [name [xs [Hcol Hconst]]]. simpl.
  destruct (In_nth_error _ _ Hcol) as [i Hi].
  assert (Hilt : (i < List.length cols)%nat)
    by (apply nth_error_Some; congruence).
  destruct (nth_error cols j) as [[n2 ys] |] eqn:Ej.
  2:{ apply nth_error_None in Ej. lia. }
  assert (Hl : List.length xs = List.length ys).
  { rewrite (select_dtypes_length df name xs Hcol).
    symmetry. apply (select_dtypes_length df n2 ys).
    eapply nth_error_In. exact Ej. }
  assert (Ecell : cell m i j = NaN).
  { rewrite Em. rewrite (cell_is_pearson cols i j name xs n2 ys Hi Ej Hl).
    now apply pearson_constant_l. }
  assert (He : In (label m i, cell m i j) (matrix_column m j)).
  { unfold matrix_column. apply in_map_iff. exists i. split; [reflexivity|].
    apply in_seq. lia. }
  specialize (Hmin _ He). simpl in Hmin. rewrite Ecell in Hmin.
  destruct (snd last); [reflexivity | discriminate Hmin].
Qed.

Lemma price_insights_never_out_of_range_witness :
  exists ins,
    price_correlation_insights three_listings
      (DataFrame_corr (select_dtypes_number three_listings)) = Some (Found ins)
    /\ snd (strongest_negative ins) = NaN.
Proof.
  destruct (price_insights_never_out_of_range three_listings _ _ eq_refl)
    as [_ H].
  destruct (H 0%nat eq_refl) as [_ Hfound].
  destruct (Hfound eq_refl) as [ins [E [_ [_ [_ [Hnan _]]]]]].
  exists ins. split; [exact E|].
  apply Hnan. exists "Price_per_SqFt"%string, (column Price_per_SqFt three_listings).
  split.
  - right; right; left. reflexivity.
  - intros x y Hx Hy. simpl in Hx, Hy.
    destruct Hx as [<- | [<- | [<- | []]]];
      destruct Hy as [<- | [<- | [<- | []]]]; reflexivity.
Defined.

(* ------------------------------------------------------------------ *)
(** ** The amenity table: rows, counts, sign of the premium *)

Lemma filter_complement_length {A : Type} (f : A -> bool) (l : list A) :
  (List.length (filter f l) + List.length (filter (fun x => negb (f x)) l)
   = List.length l)%nat.
Proof.
  induction l as [| x tl IH]; simpl; [reflexivity|].
  destruct (f x); simpl; lia.
Qed.

(** X18.  The rows of the amenity table.  The table is built only when the view
    has an Amenities column.  Its keywords are keywords of the fixed list,
    each at most once and in the order of the list.  In each row the count
    is the number of records that contain the keyword: at least one and at
    most all; together with the records that do not contain it they make up
    the view; and the percentage is that count over the size of the view,
    above 0 and at most 100. *)
Theorem amenity_table_rows (df : DataFrame) :
  (amenity_analysis df = None <-> has_column "Amenities" df = false)
  /\ forall table,
       amenity_analysis df = Some table ->
       Subseq (map Amenity table) common_amenities
       /\ NoDup (map Amenity table)
       /\ (List.length table <= 8)%nat
       /\ forall row, In row table ->
            Count row
            = List.length (filter (has_amenity (Amenity row)) (rows df))
            /\ (1 <= Count row <= len df)%nat
            /\ (Count row
                + List.length (filter (fun r => negb (has_amenity (Amenity row) r))
                                      (rows df))
                = len df)%nat
            /\ Percentage row
               == inject_Z (Z.of_nat (Count row)) / inject_Z (Z.of_nat (len df))
                  * 100
            /\ 0 < Percentage row /\ Percentage row <= 100.
Proof.
  split.
  { unfold amenity_analysis. destruct (has_column "Amenities" df);
      split; intros H; congruence. }
  intros table Ht. apply amenity_analysis_rows in Ht.
  set (matched := filter (fun kw => existsb (has_amenity kw) (rows df))
                         common_amenities) in *.
  assert (Hnames : map Amenity table = matched).
  { rewrite Ht, map_map. simpl. apply map_id. }
  split; [rewrite Hnames; apply filter_Subseq|].
  split; [rewrite Hnames; apply NoDup_filter, common_amenities_NoDup|].
  split.
  { rewrite <- (length_map Amenity), Hnames.
    pose proof (filter_length_bound
                  (fun kw => existsb (has_amenity kw) (rows df)) common_amenities)
      as Hb.
    exact Hb. }
  intros row Hrow. rewrite Ht in Hrow. apply in_map_iff in Hrow.
  destruct Hrow as [kw [<- Hkw]]. apply filter_In in Hkw. destruct Hkw as [_ Hany].
  cbn [amenity_row Amenity Count Percentage].
  set (n := List.length (filter (has_amenity kw) (rows df))).
  assert (Hn1 : (1 <= n)%nat).
  { apply existsb_filter_nonempty in Hany. unfold n.
    destruct (filter (has_amenity kw) (rows df)); [congruence | simpl; lia]. }
  pose proof (filter_complement_length (has_amenity kw) (rows df)) as Hsum.
  fold n in Hsum.
  assert (Hn2 : (n <= len df)%nat) by (unfold len; lia).
  split; [reflexivity|]. split; [lia|]. split; [exact Hsum|].
  split; [reflexivity|].
  assert (Hb : 0 < inject_Z (Z.of_nat (len df))).
  { change 0 with (inject_Z 0). rewrite <- Zlt_Qlt. lia. }
  assert (Ha : 0 < inject_Z (Z.of_nat n)).
  { change 0 with (inject_Z 0). rewrite <- Zlt_Qlt. lia. }
  pose proof (inject_nat_le _ _ Hn2) as Hle.
  set (a := inject_Z (Z.of_nat n)) in *.
  set (b := inject_Z (Z.of_nat (len df))) in *.
  assert (H0 : 0 < a / b) by (apply Qlt_shift_div_l; [exact Hb | lra]).
  assert (H1 : a / b <= 1) by (apply Qle_shift_div_r; [exact Hb | lra]).
  split; lra.
Qed.

Lemma amenity_table_rows_witness :
  exists table,
    amenity_analysis four_listings = Some table
    /\ NoDup (map Amenity table).
Proof.
  eexists. split; [reflexivity|].
  destruct (amenity_table_rows four_listings) as [_ H].
  destruct (H _ eq_refl) as [_ [Hnd _]]. exact Hnd.
Defined.

(** X19.  The sign of the premium.  In a row whose mean without the keyword is
    positive, the premium is positive exactly when the mean with the
    keyword is the larger one, negative exactly when it is the smaller
    one, and zero exactly when the two means are equal. *)
Theorem premium_sign (df : DataFrame) (table : list AmenityRow)
    (row : AmenityRow) (w wo : Q) :
  amenity_analysis df = Some table ->
  In row table ->
  Avg_Price_With row = Fin w ->
  Avg_Price_Without row = Fin wo ->
  0 < wo ->
  exists p,
    Price_Premium row = Fin p
    /\ (0 < p <-> wo < w)
    /\ (p < 0 <-> w < wo)
    /\ (p == 0 <-> w == wo).
Proof.
  intros Ht Hrow Hw Hwo Hpos.
  apply amenity_analysis_rows in Ht. rewrite Ht in Hrow.
  apply in_map_iff in Hrow. destruct Hrow as [kw [<- _]].
  cbn [amenity_row Avg_Price_With Avg_Price_Without Price_Premium] in *.
  rewrite Hw, Hwo. unfold price_premium, fgt.
  assert (L : Qltb 0 wo = true) by now apply Qltb_lt.
  rewrite L. unfold fdiv.
  destruct (Qeq_bool wo 0) eqn:Z.
  { apply Qeq_bool_iff in Z. lra. }
  cbn [fsub fmul]. eexists. split; [reflexivity|].
  assert (Hq : w / wo * wo == w) by (field; lra).
  set (q := w / wo) in *.
  repeat split; intros H; nra.
Qed.

Lemma premium_sign_witness :
  exists p,
    Price_Premium (amenity_row four_listings "Gym") = Fin p /\ 0 < p.
Proof.
  assert (Hrow : In (amenity_row four_listings "Gym")
                    (map (amenity_row four_listings)
                         ["Gym"; "Pool"; "Garden"]%string)) by now left.
  destruct (premium_sign four_listings _ _ (35000 # 2) (18750 # 2)
              eq_refl Hrow eq_refl eq_refl)
    as [p [E [Hp _]]].
  - reflexivity.
  - exists p. split; [exact E|]. apply Hp. reflexivity.
Defined.

(* ------------------------------------------------------------------ *)
(** ** The city comparison *)


(* ------------------------------------------------------------------ *)
(** ** A view without rows, page by page *)

Lemma pearson_nil ys : pearson [] ys = NaN.
Proof. reflexivity. Qed.

Lemma select_dtypes_empty cols name xs :
  In (name, xs) (select_dtypes_number {| columns := cols; rows := [] |}) ->
  xs = [].
Proof.
  intros H. apply select_dtypes_In in H. destruct H as [f [_ ->]]. reflexivity.
Qed.

(** X22.  What each page computes on a view without rows, whatever its columns.
    The key metrics show the count 0 and three NaN means.  The insight
    list is not produced when there is a City column (ValueError);
    without one it holds the text N/A for the BHK, if that column exists,
    and a price range of three NaN.  The amenity table and the city
    rankings are empty.  Every entry of the correlation matrix is NaN, the
    top positive list is empty and the top negative list holds NaN entries
    only. *)
Theorem empty_view_page_by_page (self_df : DataFrame) (cols : list string) :
  let view := {| columns := cols; rows := [] |} in
  (total_properties (display_key_metrics self_df view) = 0%nat
   /\ avg_price (display_key_metrics self_df view) = NaN
   /\ avg_size (display_key_metrics self_df view) = NaN
   /\ avg_pps (display_key_metrics self_df view) = NaN)
  /\ (has_column "City" view = true ->
      display_insights_summary view = Raise ValueError)
  /\ (has_column "City" view = false ->
      display_insights_summary view
      = Ok ((if has_column "BHK" view then [PopularConfiguration NA] else [])
            ++ [PriceRange NaN NaN NaN]))
  /\ (has_column "Amenities" view = true -> amenity_analysis view = Some [])
  /\ city_avg_price view = []
  /\ top_cities view = []
  /\ bhk_dist view = []
  /\ (forall m t,
        display_correlation_analysis view = Some (m, t) ->
        (forall i j, cell m i j = NaN)
        /\ top_pos t = []
        /\ forall e, In e (top_neg t) -> snd e = NaN).
Proof.
  intros view.
  split; [repeat split|].
  split.
  { intros H. unfold view. rewrite (insights_of_empty_view cols).
    fold view. now rewrite H. }
  split.
  { intros H. unfold view. rewrite (insights_of_empty_view cols).
    fold view. now rewrite H. }
  split.
  { intros H. unfold amenity_analysis. rewrite H. reflexivity. }
  split; [reflexivity|]. split; [reflexivity|]. split; [reflexivity|].
  intros m t H.
  destruct (correlation_analysis_Some view m t H) as [_ [Em Et]].
  assert (Hcell : forall i j, cell m i j = NaN).
  { intros i j. rewrite Em, cell_DataFrame_corr.
    destruct (_ && _); [| reflexivity].
    assert (Hcol : forall k, snd (nth k (select_dtypes_number view) (""%string, []))
                             = []).
    { intros k.
      destruct (Nat.lt_ge_cases k (List.length (select_dtypes_number view)))
        as [L | L].
      - pose proof (nth_In _ (""%string, @nil Q) L) as Hin.
        destruct (nth k (select_dtypes_number view) (""%string, [])) as [n xs].
        simpl. eapply select_dtypes_empty. exact Hin.
      - now rewrite nth_overflow. }
    unfold corr_entry. destruct (j <=? i)%nat; now rewrite Hcol. }
  assert (Hall : forall e, In e (unstack m) -> snd e = NaN).
  { intros [[a b] c] He. apply unstack_In in He.
    destruct He as [i [j [_ [_ [_ [_ ->]]]]]]. apply Hcell. }
  assert (Hsorted : forall e, In e (sort_values_desc (unstack m)) -> snd e = NaN).
  { intros e He. apply Hall.
    eapply Permutation_in; [apply sort_values_desc_perm | exact He]. }
  split; [exact Hcell|]. subst t. unfold top_correlations.
  cbn [top_pos top_neg]. split.
  - unfold head.
    replace (filter below_one (sort_values_desc (unstack m))) with (@nil CorrPair);
      [reflexivity|].
    symmetry. induction (sort_values_desc (unstack m)) as [| e l IH];
      [reflexivity|].
    simpl. unfold below_one at 1. rewrite (Hsorted e (or_introl eq_refl)).
    simpl. apply IH. intros e' He'. apply Hsorted. now right.
  - intros e He. apply Hsorted. unfold tail in He.
    rewrite <- (firstn_skipn (List.length (sort_values_desc (unstack m)) - 5)
                  (sort_values_desc (unstack m))).
    apply in_or_app. now right.
Qed.
